(** * SocialConnect: the notification pipeline

    A shallow embedding of the notification core of the SocialConnect
    backend: the [Notification] and [NotificationPreference] models
    (notifications/models.py), the list serializer
    (notifications/serializers.py), the websocket consumer and the group
    dispatch (notifications/consumers.py), the signal handlers that produce
    notifications (notifications/signals.py) and the status views
    (notifications/views.py).

    Python objects become records, a database table becomes the list of its
    rows, the channel layer becomes finite maps from group and channel names,
    and code that mutates the database or the channel layer and may raise
    becomes a computation in a state-and-exception monad over [World].  A
    raised exception keeps the state reached so far, as in Python. *)

From Stdlib Require Import ZArith Ascii String.
From stdpp Require Import gmap strings list fin_maps fin_sets sorting pretty.

Local Open Scope Z_scope.
Local Set Warnings "-register-all".

(** ** JSON values

    Parsed websocket payloads, the [data] column and outbound frames are
    Python values built from [None], booleans, numbers, strings, lists and
    dicts.  A float is kept as its literal. *)

Inductive json : Type :=
  | JNull
  | JBool (b : bool)
  | JInt (z : Z)
  | JFloat (literal : string)
  | JStr (s : string)
  | JList (items : list json)
  | JDict (items : list (string * json)).

(** A dict is an association list; [dict_get] is [dict.get(key)] without its
    default. *)
Definition dict := list (string * json).

Fixpoint dict_get (key : string) (d : dict) : option json :=
  match d with
  | [] => None
  | (k, v) :: rest => if String.eqb k key then Some v else dict_get key rest
  end.

(** [value == 'literal'] where [value] came out of a dict. *)
Definition json_is_str (v : option json) (literal : string) : bool :=
  match v with
  | Some (JStr s) => String.eqb s literal
  | _ => false
  end.

(** ** Exceptions *)

Inductive exn : Type :=
  | DoesNotExist
  | MultipleObjectsReturned
  | Http404
  | AttributeError
  | ValueError
  | TypeError
  | KeyError
  | JSONDecodeError
  | RecursionError.

Inductive Result (A : Type) : Type :=
  | Ok (a : A)
  | Raise (e : exn).
Arguments Ok {A} a.
Arguments Raise {A} e.

(** ** Dates and times

    [datetime.time] compares naive values as the tuples
    (hour, minute, second, microsecond). *)

Record time : Type := mk_time {
  hour : N;
  minute : N;
  second : N;
  microsecond : N
}.

Record datetime : Type := mk_datetime {
  date_ordinal : Z;
  time_of : time          (* [datetime.time()] *)
}.

Definition time_cmp (a b : time) : comparison :=
  match N.compare (hour a) (hour b) with
  | Eq =>
      match N.compare (minute a) (minute b) with
      | Eq =>
          match N.compare (second a) (second b) with
          | Eq => N.compare (microsecond a) (microsecond b)
          | c => c
          end
      | c => c
      end
  | c => c
  end.

(** [a <= b] and [a >= b] on times. *)
Definition time_le (a b : time) : bool :=
  match time_cmp a b with Gt => false | _ => true end.

Definition time_ge (a b : time) : bool :=
  match time_cmp a b with Lt => false | _ => true end.

(** A time of day as the clock can show it. *)
Definition valid_time (t : time) : Prop :=
  (hour t < 24 ∧ minute t < 60 ∧ second t < 60 ∧ microsecond t < 1000000)%N.

(** Microseconds since midnight. *)
Definition micros (t : time) : N :=
  (((hour t * 60 + minute t) * 60 + second t) * 1000000 + microsecond t)%N.

Definition hm (h m : N) : time := mk_time h m 0 0.

(** ** Collaborating models (users/models.py, posts/models.py)

    Only the attributes the notification code reads. *)

Record User : Type := mk_User {
  user_id : Z;
  username : string;
  is_active : bool
}.

(** Django compares model instances by primary key. *)
Definition user_eqb (a b : User) : bool := bool_decide (user_id a = user_id b).

Record Follow : Type := mk_Follow {
  follower : User;
  following : User
}.

Record Post : Type := mk_Post {
  post_id : Z;
  post_author : User;
  post_content : string
}.

Record Comment : Type := mk_Comment {
  comment_id : Z;
  comment_author : User;
  comment_post : Post;
  comment_content : string
}.

Record Like : Type := mk_Like {
  like_user : User;
  like_post : Post
}.

(** ** notifications/models.py: Notification *)

Definition NOTIFICATION_TYPES : list (string * string) :=
  [("follow", "Follow"); ("like", "Like"); ("comment", "Comment");
   ("mention", "Mention"); ("system", "System")].

(** The generic foreign key: content type and object id. *)
Record ContentRef : Type := mk_ContentRef {
  content_type : string;
  object_id : Z
}.

Record Notification : Type := mk_Notification {
  notification_id : Z;
  recipient : User;
  sender : option User;
  notification_type : string;
  title : string;
  message : string;
  content_object : option ContentRef;
  data : dict;
  is_read : bool;
  is_archived : bool;
  created_at : datetime;
  read_at : option datetime
}.

Definition set_is_read (b : bool) (n : Notification) : Notification :=
  mk_Notification (notification_id n) (recipient n) (sender n)
    (notification_type n) (title n) (message n) (content_object n) (data n)
    b (is_archived n) (created_at n) (read_at n).

Definition set_is_archived (b : bool) (n : Notification) : Notification :=
  mk_Notification (notification_id n) (recipient n) (sender n)
    (notification_type n) (title n) (message n) (content_object n) (data n)
    (is_read n) b (created_at n) (read_at n).

Definition set_read_at (t : option datetime) (n : Notification) : Notification :=
  mk_Notification (notification_id n) (recipient n) (sender n)
    (notification_type n) (title n) (message n) (content_object n) (data n)
    (is_read n) (is_archived n) (created_at n) t.

(** [self.sender.username]: an attribute of [None] raises. *)
Definition sender_username (n : Notification) : Result string :=
  match sender n with
  | Some u => Ok (username u)
  | None => Raise AttributeError
  end.

Definition get_notification_text (n : Notification) : Result string :=
  if String.eqb (notification_type n) "follow" then
    match sender_username n with
    | Ok name => Ok (name +:+ " started following you")
    | Raise e => Raise e
    end
  else if String.eqb (notification_type n) "like" then
    match sender_username n with
    | Ok name => Ok (name +:+ " liked your post")
    | Raise e => Raise e
    end
  else if String.eqb (notification_type n) "comment" then
    match sender_username n with
    | Ok name => Ok (name +:+ " commented on your post")
    | Raise e => Raise e
    end
  else if String.eqb (notification_type n) "mention" then
    match sender_username n with
    | Ok name => Ok (name +:+ " mentioned you in a comment")
    | Raise e => Raise e
    end
  else if String.eqb (notification_type n) "system" then Ok (message n)
  else Ok (message n).

(** ** notifications/models.py: NotificationPreference *)

Record NotificationPreference : Type := mk_NotificationPreference {
  email_follows : bool; email_likes : bool; email_comments : bool;
  email_mentions : bool; email_system : bool;
  push_follows : bool; push_likes : bool; push_comments : bool;
  push_mentions : bool; push_system : bool;
  in_app_follows : bool; in_app_likes : bool; in_app_comments : bool;
  in_app_mentions : bool; in_app_system : bool;
  quiet_hours_enabled : bool;
  quiet_hours_start : option time;
  quiet_hours_end : option time
}.

(** The field defaults, as [get_or_create] fills them in. *)
Definition default_preference : NotificationPreference :=
  mk_NotificationPreference true true true true true
    true true true true true
    true true true true true
    false None None.

(** [getattr(self, name, True)] for a name that starts with [email_], [push_]
    or [in_app_]: the flag of that name, or the default when there is none. *)
Definition getattr_flag (p : NotificationPreference) (name : string) : bool :=
  let flags :=
    [("email_follows", email_follows p); ("email_likes", email_likes p);
     ("email_comments", email_comments p); ("email_mentions", email_mentions p);
     ("email_system", email_system p);
     ("push_follows", push_follows p); ("push_likes", push_likes p);
     ("push_comments", push_comments p); ("push_mentions", push_mentions p);
     ("push_system", push_system p);
     ("in_app_follows", in_app_follows p); ("in_app_likes", in_app_likes p);
     ("in_app_comments", in_app_comments p);
     ("in_app_mentions", in_app_mentions p);
     ("in_app_system", in_app_system p)] in
  match list_find (λ kv, String.eqb kv.1 name = true) flags with
  | Some (_, (_, b)) => b
  | None => true
  end.

Definition should_send_notification (p : NotificationPreference)
    (notification_type method : string) : bool :=
  if String.eqb method "email" then getattr_flag p ("email_" +:+ notification_type)
  else if String.eqb method "push" then getattr_flag p ("push_" +:+ notification_type)
  else if String.eqb method "in_app" then getattr_flag p ("in_app_" +:+ notification_type)
  else true.

(** [now] is the value of [timezone.now()] when the method runs.  A time
    object is true whatever its value, so [start and end] tests that both
    are set. *)
Definition is_quiet_hours (p : NotificationPreference) (now : datetime) : bool :=
  if negb (quiet_hours_enabled p) then false
  else
    let current_time := time_of now in
    match quiet_hours_start p, quiet_hours_end p with
    | Some start, Some end_ =>
        if time_le start end_ then
          time_le start current_time && time_le current_time end_
        else
          time_ge current_time start || time_le current_time end_
    | _, _ => false
    end.

(** ** The world: database tables and channel layer

    A table is the list of its rows, in insertion order; [next_pk] is the
    sequence of the [notifications] table.  [sql_log] records every write
    statement issued, oldest first, so that "performs no write" and "writes
    only these columns" can be stated.  [groups] and [queues] are the channel
    layer: the members of each group and the messages waiting for each
    channel. *)

Inductive SqlWrite : Type :=
  | SqlInsert (row : Notification)
  | SqlUpdate (pks : list Z) (columns : list string)
  | SqlDelete (pk : Z).

Record World : Type := mk_World {
  users : list User;
  notifications : list Notification;
  next_pk : Z;
  preferences : gmap Z NotificationPreference;
  sql_log : list SqlWrite;
  groups : gmap string (gset string);
  queues : gmap string (list dict)
}.

Definition set_notifications (t : list Notification) (w : World) : World :=
  mk_World (users w) t (next_pk w) (preferences w) (sql_log w) (groups w) (queues w).

Definition set_next_pk (k : Z) (w : World) : World :=
  mk_World (users w) (notifications w) k (preferences w) (sql_log w) (groups w) (queues w).

Definition set_preferences (p : gmap Z NotificationPreference) (w : World) : World :=
  mk_World (users w) (notifications w) (next_pk w) p (sql_log w) (groups w) (queues w).

Definition log_write (s : SqlWrite) (w : World) : World :=
  mk_World (users w) (notifications w) (next_pk w) (preferences w)
    (sql_log w ++ [s]) (groups w) (queues w).

Definition set_groups (g : gmap string (gset string)) (w : World) : World :=
  mk_World (users w) (notifications w) (next_pk w) (preferences w) (sql_log w) g (queues w).

Definition set_queues (q : gmap string (list dict)) (w : World) : World :=
  mk_World (users w) (notifications w) (next_pk w) (preferences w) (sql_log w) (groups w) q.

(** The database's constraints on the tables: primary keys are unique, and
    so are usernames. *)
Definition unique_pks (w : World) : Prop :=
  NoDup (notification_id <$> notifications w).

Definition unique_usernames (w : World) : Prop :=
  NoDup (username <$> users w).

(** The sequence is ahead of every key in use. *)
Definition fresh_pks (w : World) : Prop :=
  Forall (λ n, notification_id n < next_pk w) (notifications w).

(** ** The monad of effectful code *)

Definition M (A : Type) : Type := World → World * Result A.

Global Instance M_ret : MRet M := λ A a w, (w, Ok a).

Global Instance M_bind : MBind M := λ A B f m w,
  match m w with
  | (w', Ok a) => f a w'
  | (w', Raise e) => (w', Raise e)
  end.

Definition raise {A} (e : exn) : M A := λ w, (w, Raise e).
Definition lift {A} (r : Result A) : M A := λ w, (w, r).
Definition gets {A} (f : World → A) : M A := λ w, (w, Ok (f w)).
Definition modify (f : World → World) : M unit := λ w, (f w, Ok tt).

(** [try: body except caught: handler]. *)
Definition try_except {A} (body : M A) (caught : exn → bool) (handler : M A) : M A :=
  λ w,
    match body w with
    | (w', Raise e) => if caught e then handler w' else (w', Raise e)
    | ok => ok
    end.

(** [for x in l: body x]. *)
Fixpoint for_each {A} (l : list A) (body : A → M unit) : M unit :=
  match l with
  | [] => mret tt
  | x :: rest => _ ← body x; for_each rest body
  end.

(** ** Object-relational queries *)

(** [Model.objects.get(...)] over the rows that satisfy the lookup. *)
Definition objects_get {A} (matching : list A) : Result A :=
  match matching with
  | [] => Raise DoesNotExist
  | [row] => Ok row
  | _ => Raise MultipleObjectsReturned
  end.

(** [Notification.objects.create(...)]: a new row with the field defaults
    ([is_read], [is_archived] false, [read_at] null, [created_at] now). *)
Definition Notification_objects_create (now : datetime) (recipient : User)
    (sender : option User) (notification_type title message : string)
    (content_object : option ContentRef) (data : dict) : M Notification :=
  λ w,
    let row := mk_Notification (next_pk w) recipient sender notification_type
                 title message content_object data false false now None in
    (log_write (SqlInsert row)
       (set_next_pk (next_pk w + 1)
          (set_notifications (notifications w ++ [row]) w)),
     Ok row).

(** [get_object_or_404(Notification, id=pk, recipient=user)]: a lookup that
    finds nothing becomes [Http404]. *)
Definition owned_by (user : User) (pk : Z) (n : Notification) : bool :=
  bool_decide (notification_id n = pk) && user_eqb (recipient n) user.

Definition get_object_or_404 (pk : Z) (user : User) : M Notification :=
  λ w,
    match objects_get (filter (λ n, owned_by user pk n = true) (notifications w)) with
    | Raise DoesNotExist => (w, Raise Http404)
    | r => (w, r)
    end.

(** One column of [obj] copied into the stored row. *)
Definition copy_column (obj : Notification) (row : Notification) (column : string)
    : Notification :=
  if String.eqb column "is_read" then set_is_read (is_read obj) row
  else if String.eqb column "is_archived" then set_is_archived (is_archived obj) row
  else if String.eqb column "read_at" then set_read_at (read_at obj) row
  else row.

(** [obj.save(update_fields=columns)]: only the named columns of the row with
    the object's primary key are written.  Every save of the program follows
    the lookup of its row. *)
Definition save_row (obj : Notification) (update_fields : list string)
    (row : Notification) : Notification :=
  if bool_decide (notification_id row = notification_id obj)
  then foldl (copy_column obj) row update_fields
  else row.

Definition save (obj : Notification) (update_fields : list string) : M unit :=
  modify (λ w,
    log_write (SqlUpdate [notification_id obj] update_fields)
      (set_notifications (save_row obj update_fields <$> notifications w) w)).

(** [obj.delete()]. *)
Definition delete_notification (obj : Notification) : M unit :=
  modify (λ w,
    log_write (SqlDelete (notification_id obj))
      (set_notifications
         (filter (λ row, notification_id row ≠ notification_id obj) (notifications w))
         w)).

(** [Notification.mark_as_read]: the object is changed in place, so the
    changed object is returned. *)
Definition mark_as_read (now : datetime) (self : Notification) : M Notification :=
  if negb (is_read self) then
    let self := set_is_read true self in
    let self := set_read_at (Some now) self in
    _ ← save self ["is_read"; "read_at"];
    mret self
  else mret self.

(** The rows of [Notification.objects.filter(recipient=user)], further
    restricted by [keep]. *)
Definition rows_of (user : User) (keep : Notification → bool)
    (t : list Notification) : list Notification :=
  filter (λ n, user_eqb (recipient n) user && keep n = true) t.

Definition unread (n : Notification) : bool := negb (is_read n).

(** [queryset.count()] and [queryset.update(is_read=True)] on the unread
    rows of [user]. *)
Definition count_unread (user : User) : M nat :=
  gets (λ w, length (rows_of user unread (notifications w))).

Definition mark_row_read (user : User) (row : Notification) : Notification :=
  if user_eqb (recipient row) user && unread row then set_is_read true row else row.

Definition update_unread_is_read (user : User) : M unit :=
  modify (λ w,
    log_write (SqlUpdate (notification_id <$> rows_of user unread (notifications w))
                 ["is_read"])
      (set_notifications (mark_row_read user <$> notifications w) w)).

(** [User.objects.get(username=name, is_active=True)]. *)
Definition active_named (name : string) (table : list User) : list User :=
  filter (λ u, String.eqb (username u) name && is_active u = true) table.

Definition User_objects_get (name : string) : M User :=
  λ w, (w, objects_get (active_named name (users w))).

(** [NotificationPreference.objects.get_or_create(user=user)]. *)
Definition get_or_create_preferences (user : User) : M NotificationPreference :=
  λ w,
    match preferences w !! user_id user with
    | Some p => (w, Ok p)
    | None =>
        (set_preferences (<[user_id user := default_preference]> (preferences w)) w,
         Ok default_preference)
    end.

(** ** The channel layer

    The transport's group primitives: join, leave and send to every member.
    A message sent to a group is appended to the queue of each channel that
    is a member at that moment. *)

Definition members (group : string) (w : World) : gset string :=
  default ∅ (groups w !! group).

Definition group_add (group channel : string) : M unit :=
  modify (λ w, set_groups (<[group := {[channel]} ∪ members group w]> (groups w)) w).

Definition group_discard (group channel : string) : M unit :=
  modify (λ w,
    match groups w !! group with
    | Some chans => set_groups (<[group := chans ∖ {[channel]}]> (groups w)) w
    | None => w
    end).

Definition enqueue (event : dict) (channel : string) (q : gmap string (list dict))
    : gmap string (list dict) :=
  <[channel := default [] (q !! channel) ++ [event]]> q.

Definition group_send (group : string) (event : dict) : M unit :=
  modify (λ w, set_queues (set_fold (enqueue event) (queues w) (members group w)) w).

(** The name of a user's group, [f"user_{user_id}"]. *)
Definition user_group (uid : Z) : string := "user_" +:+ pretty uid.

(** ** notifications/consumers.py: NotificationConsumer

    One consumer instance serves one websocket.  [sent] lists the frames
    written to the socket, oldest first; a frame is the dict handed to
    [json.dumps].  [user_group_name] is the attribute [connect] assigns, so
    it is unset until then. *)

Inductive ScopeUser : Type :=
  | AnonymousUser
  | Authenticated (u : User).

Inductive Socket : Type := Connecting | Open | Closed.

Record Consumer : Type := mk_Consumer {
  scope_user : ScopeUser;
  channel_name : string;
  user_group_name : option string;
  socket : Socket;
  sent : list dict
}.

(** What reaches a consumer: the transport's connect, receive and disconnect
    events, and the next message waiting on its channel. *)
Inductive SocketEvent : Type :=
  | WebsocketConnect
  | WebsocketReceive (text_data : string)
  | WebsocketDisconnect (close_code : Z)
  | ChannelMessage.

Module NotificationConsumer.
Section WithJson.

(** [json.loads]: the parsed value, or the exception it raises:
    [JSONDecodeError] for text that is not JSON, and also [ValueError] for
    an integer literal beyond the interpreter's digit limit and
    [RecursionError] for nesting beyond its recursion limit. *)
Context (json_loads : string → Result json).

Definition close (self : Consumer) : Consumer :=
  mk_Consumer (scope_user self) (channel_name self) (user_group_name self)
    Closed (sent self).

Definition accept (self : Consumer) : Consumer :=
  mk_Consumer (scope_user self) (channel_name self) (user_group_name self)
    Open (sent self).

Definition send (frame : dict) (self : Consumer) : Consumer :=
  mk_Consumer (scope_user self) (channel_name self) (user_group_name self)
    (socket self) (sent self ++ [frame]).

Definition set_user_group_name (name : string) (self : Consumer) : Consumer :=
  mk_Consumer (scope_user self) (channel_name self) (Some name)
    (socket self) (sent self).

Definition connect (self : Consumer) : M Consumer :=
  match scope_user self with
  | AnonymousUser => mret (close self)
  | Authenticated user =>
      let self := set_user_group_name (user_group (user_id user)) self in
      _ ← group_add (user_group (user_id user)) (channel_name self);
      let self := accept self in
      mret (send [("type", JStr "connection_established");
                  ("message", JStr "Connected to notifications");
                  ("user_id", JInt (user_id user))] self)
  end.

Definition disconnect (self : Consumer) (close_code : Z) : M Consumer :=
  match user_group_name self with
  | None => raise AttributeError
  | Some group => _ ← group_discard group (channel_name self); mret self
  end.

(** [Notification.objects.filter(recipient=self.user, is_read=False).count()] *)
Definition get_unread_count (self : Consumer) : M nat :=
  match scope_user self with
  | AnonymousUser => raise TypeError
  | Authenticated user => count_unread user
  end.

Definition receive (self : Consumer) (text_data : string) : M Consumer :=
  match json_loads text_data with
  | Raise JSONDecodeError =>
      mret (send [("type", JStr "error");
                  ("message", JStr "Invalid JSON format")] self)
  | Raise e => raise e                  (* not caught by the handler *)
  | Ok (JDict text_data_json) =>
      let message_type := dict_get "type" text_data_json in
      if json_is_str message_type "ping" then
        mret (send [("type", JStr "pong");
                    ("timestamp",
                     default JNull (dict_get "timestamp" text_data_json))] self)
      else if json_is_str message_type "get_notifications" then
        unread_count ← get_unread_count self;
        mret (send [("type", JStr "notifications_count");
                    ("unread_count", JInt (Z.of_nat unread_count))] self)
      else mret self
  | Ok _ => raise AttributeError        (* no [.get] on a value that is not a dict *)
  end.

(** [event[key]]. *)
Definition subscript (event : dict) (key : string) : M json :=
  match dict_get key event with
  | Some v => mret v
  | None => raise KeyError
  end.

Definition notification_message (self : Consumer) (event : dict) : M Consumer :=
  notification ← subscript event "notification";
  mret (send [("type", JStr "notification"); ("notification", notification)] self).

Definition notification_update (self : Consumer) (event : dict) : M Consumer :=
  notification_id ← subscript event "notification_id";
  update_data ← subscript event "update_data";
  mret (send [("type", JStr "notification_update");
              ("notification_id", notification_id);
              ("update_data", update_data)] self).

(** A channel-layer message is handled by the method named by its
    ["type"]; a type without a method is an error. *)
Definition dispatch (self : Consumer) (event : dict) : M Consumer :=
  if json_is_str (dict_get "type" event) "notification_message" then
    notification_message self event
  else if json_is_str (dict_get "type" event) "notification_update" then
    notification_update self event
  else raise ValueError.

(** The head of this channel's queue, removed from it. *)
Definition next_message (self : Consumer) : M (option dict) :=
  λ w,
    match queues w !! channel_name self with
    | Some (event :: rest) =>
        (set_queues (<[channel_name self := rest]> (queues w)) w, Ok (Some event))
    | _ => (w, Ok None)
    end.

(** The transport: which handler an event reaches in each socket state.
    Before the handshake only the connect event is served; a closed socket
    accepts nothing, though its disconnect handler still runs. *)
Definition handle (self : Consumer) (ev : SocketEvent) : M Consumer :=
  match socket self, ev with
  | Connecting, WebsocketConnect => connect self
  | Open, WebsocketReceive text_data => receive self text_data
  | Open, ChannelMessage =>
      m ← next_message self;
      match m with
      | Some event => dispatch self event
      | None => mret self
      end
  | Open, WebsocketDisconnect code => self ← disconnect self code; mret (close self)
  | Closed, WebsocketDisconnect code => disconnect self code
  | _, _ => mret self
  end.

(** One step of a connection: a handler that raises ends the connection. *)
Definition step (ev : SocketEvent) (cw : Consumer * World) : Consumer * World :=
  match handle cw.1 ev cw.2 with
  | (w', Ok self') => (self', w')
  | (w', Raise _) => (close cw.1, w')
  end.

(** A connection's life among the rest of the system: its own events,
    interleaved with whatever other requests do to the world. *)
Inductive Action : Type :=
  | Transport (ev : SocketEvent)
  | Elsewhere (change : World → World).

Definition act (a : Action) (cw : Consumer * World) : Consumer * World :=
  match a with
  | Transport ev => step ev cw
  | Elsewhere change => (cw.1, change cw.2)
  end.

Definition run (trace : list Action) (cw : Consumer * World) : Consumer * World :=
  foldl (λ cw a, act a cw) cw trace.

End WithJson.
End NotificationConsumer.

(** ** Text

    A [str] is kept as its UTF-8 bytes, while Python counts, slices and
    matches a [str] by characters (code points).  A character is a byte
    together with the continuation bytes (10xxxxxx) that follow it. *)

Definition continuation (b : ascii) : bool :=
  let n := nat_of_ascii b in ((128 <=? n) && (n <? 192))%nat.

Definition starts_with_continuation (s : string) : bool :=
  match s with
  | String b _ => continuation b
  | EmptyString => false
  end.

Fixpoint characters (s : string) : list string :=
  match s with
  | EmptyString => []
  | String b rest =>
      match characters rest with
      | c :: cs =>
          if starts_with_continuation c then String b c :: cs
          else String b EmptyString :: c :: cs
      | [] => [String b EmptyString]
      end
  end.

Definition str_join (cs : list string) : string :=
  foldr String.append EmptyString cs.

(** [len(s)] and [s[:n]]. *)
Definition str_len (s : string) : nat := length (characters s).

Definition str_slice (n : nat) (s : string) : string :=
  str_join (take n (characters s)).

(** ** Comment text

    [re.findall(r'@(\w+)', content)]: every non-overlapping match, left to
    right, each contributing its group.  The scan keeps the characters read
    since the last [@], if any.  On a [str] pattern [\w] is a character that
    is alphanumeric or an underscore: among the ASCII characters a letter, a
    digit or the underscore, and outside ASCII whatever [str.isalnum]
    accepts. *)

Section WithUnicode.

(** [str.isalnum] on a character outside ASCII, as the interpreter's
    Unicode database classifies it; the database is not part of the
    sources. *)
Context (isalnum : string → bool).

Definition ascii_word (b : ascii) : bool :=
  let n := nat_of_ascii b in
  ((48 <=? n) && (n <=? 57) || (65 <=? n) && (n <=? 90) ||
   (97 <=? n) && (n <=? 122) || (n =? 95))%nat.

Definition word_char (c : string) : bool :=
  match c with
  | String b EmptyString =>
      if (nat_of_ascii b <? 128)%nat then ascii_word b else isalnum c
  | _ => isalnum c
  end.

Definition at_sign (c : string) : bool := String.eqb c "@".

Definition emit (word : list string) : list string :=
  match word with
  | [] => []
  | _ => [str_join word]
  end.

Fixpoint scan_mentions (current : option (list string)) (cs : list string)
    : list string :=
  match cs with
  | [] =>
      match current with
      | Some word => emit word
      | None => []
      end
  | c :: rest =>
      match current with
      | Some word =>
          if word_char c then scan_mentions (Some (word ++ [c])) rest
          else emit word ++ scan_mentions (if at_sign c then Some [] else None) rest
      | None => scan_mentions (if at_sign c then Some [] else None) rest
      end
  end.

Definition findall_mentions (content : string) : list string :=
  scan_mentions None (characters content).

End WithUnicode.

(** [content[:50] + '...' if len(content) > 50 else content] *)
Definition excerpt (content : string) : string :=
  if (50 <? str_len content)%nat then str_slice 50 content +:+ "..."
  else content.

Section WithDateFormat.

(** How the serializer renders a [DateTimeField]; fixed by the framework's
    settings, which are not part of the sources.  [isalnum] is the Unicode
    classification that the scan for mentions consults. *)
Context (isoformat : datetime → string) (isalnum : string → bool).

(** ** notifications/serializers.py: NotificationListSerializer

    The [data] of a serialized notification, in the order of [fields].
    [sender_username] reads [sender.username] and is left out when there is
    no sender; [notification_text] calls [get_notification_text], whose
    failure the framework raises as a [ValueError]. *)
Definition NotificationListSerializer (n : Notification) : Result dict :=
  match get_notification_text n with
  | Raise _ => Raise ValueError
  | Ok notification_text =>
      Ok ([("id", JInt (notification_id n))] ++
          match sender n with
          | Some u => [("sender_username", JStr (username u))]
          | None => []
          end ++
          [("notification_type", JStr (notification_type n));
           ("title", JStr (title n));
           ("message", JStr (message n));
           ("notification_text", JStr notification_text);
           ("is_read", JBool (is_read n));
           ("is_archived", JBool (is_archived n));
           ("created_at", JStr (isoformat (created_at n)))])
  end.

(** ** notifications/consumers.py: send_notification_to_user *)
Definition send_notification_to_user (user_id : Z) (notification : Notification)
    : M unit :=
  notification_data ← lift (NotificationListSerializer notification);
  group_send (user_group user_id)
    [("type", JStr "notification_message");
     ("notification", JDict notification_data)].

Definition send_notification_update_to_user (user_id : Z) (notification_id : Z)
    (update_data : dict) : M unit :=
  group_send (user_group user_id)
    [("type", JStr "notification_update");
     ("notification_id", JInt notification_id);
     ("update_data", JDict update_data)].

Definition broadcast_notification (notification_data : dict) : M unit :=
  group_send "broadcast"
    [("type", JStr "broadcast_notification");
     ("notification", JDict notification_data)].

(** ** notifications/models.py: Notification.create_notification *)
Definition create_notification (now : datetime) (recipient : User)
    (sender : option User) (notification_type title message : string)
    (content_object : option ContentRef) (data : option dict) : M Notification :=
  notification ← Notification_objects_create now recipient sender
                   notification_type title message content_object
                   (default [] data);
  _ ← send_notification_to_user (user_id recipient) notification;
  mret notification.

(** ** notifications/signals.py

    Each handler receives the saved [instance] and the [created] flag of
    the [post_save] signal; [now] is the clock when it runs. *)

Definition post_ref (p : Post) : option ContentRef :=
  Some (mk_ContentRef "post" (post_id p)).

Definition create_follow_notification (now : datetime) (instance : Follow)
    (created : bool) : M unit :=
  if created then
    if negb (user_eqb (follower instance) (following instance)) then
      _ ← create_notification now (following instance) (Some (follower instance))
            "follow" "New Follower"
            (username (follower instance) +:+ " started following you")
            None
            (Some [("follower_id", JInt (user_id (follower instance)));
                   ("follower_username", JStr (username (follower instance)))]);
      mret tt
    else mret tt
  else mret tt.

Definition create_like_notification (now : datetime) (instance : Like)
    (created : bool) : M unit :=
  if created then
    if negb (user_eqb (like_user instance) (post_author (like_post instance))) then
      _ ← create_notification now (post_author (like_post instance))
            (Some (like_user instance))
            "like" "New Like"
            (username (like_user instance) +:+ " liked your post")
            (post_ref (like_post instance))
            (Some [("post_id", JInt (post_id (like_post instance)));
                   ("post_content",
                    JStr (excerpt (post_content (like_post instance))))]);
      mret tt
    else mret tt
  else mret tt.

Definition create_comment_notification (now : datetime) (instance : Comment)
    (created : bool) : M unit :=
  if created then
    if negb (user_eqb (comment_author instance)
               (post_author (comment_post instance))) then
      _ ← create_notification now (post_author (comment_post instance))
            (Some (comment_author instance))
            "comment" "New Comment"
            (username (comment_author instance) +:+ " commented on your post")
            (post_ref (comment_post instance))
            (Some [("post_id", JInt (post_id (comment_post instance)));
                   ("comment_id", JInt (comment_id instance));
                   ("comment_content", JStr (excerpt (comment_content instance)));
                   ("post_content",
                    JStr (excerpt (post_content (comment_post instance))))]);
      mret tt
    else mret tt
  else mret tt.

(** The body of the loop over the matched names. *)
Definition mention_one (now : datetime) (instance : Comment) (username_ : string)
    : M unit :=
  try_except
    (mentioned_user ← User_objects_get username_;
     if negb (user_eqb mentioned_user (comment_author instance)) then
       if negb (user_eqb mentioned_user (post_author (comment_post instance))) then
         _ ← create_notification now mentioned_user
               (Some (comment_author instance))
               "mention" "Mentioned in Comment"
               (username (comment_author instance) +:+ " mentioned you in a comment")
               (post_ref (comment_post instance))
               (Some [("post_id", JInt (post_id (comment_post instance)));
                      ("comment_id", JInt (comment_id instance));
                      ("comment_content",
                       JStr (excerpt (comment_content instance)))]);
         mret tt
       else mret tt
     else mret tt)
    (λ e, match e with DoesNotExist => true | _ => false end)
    (mret tt).

Definition create_mention_notifications (now : datetime) (instance : Comment)
    (created : bool) : M unit :=
  if created then
    let mentions := findall_mentions isalnum (comment_content instance) in
    for_each mentions (mention_one now instance)
  else mret tt.

(** Saving a new comment fires both receivers registered for [Comment],
    in the order of their registration. *)
Definition comment_post_save (now : datetime) (instance : Comment)
    (created : bool) : M unit :=
  _ ← create_comment_notification now instance created;
  create_mention_notifications now instance created.

End WithDateFormat.

(** ** notifications/views.py

    [request_user] is the authenticated user of the request.  A view answers
    with a status code and a body. *)

Record Response : Type := mk_Response {
  status : Z;
  body : dict
}.

Definition lower_char (c : ascii) : ascii :=
  let n := nat_of_ascii c in
  if ((65 <=? n) && (n <=? 90))%nat then ascii_of_nat (n + 32) else c.

Fixpoint lower (s : string) : string :=
  match s with
  | EmptyString => EmptyString
  | String c rest => String (lower_char c) (lower rest)
  end.

Definition datetime_le (a b : datetime) : bool :=
  (date_ordinal a <? date_ordinal b) ||
  ((date_ordinal a =? date_ordinal b) && time_le (time_of a) (time_of b)).

(** [Meta.ordering = ['-created_at']] *)
Definition newest_first (a b : Notification) : Prop :=
  datetime_le (created_at b) (created_at a) = true.

Global Instance newest_first_dec : RelDecision newest_first.
Proof. intros a b. unfold newest_first. apply _. Defined.

Module NotificationListView.

Record QueryParams : Type := mk_QueryParams {
  param_is_read : option string;
  param_type : option string;
  param_is_archived : option string
}.


Definition keep (q : QueryParams) (n : Notification) : bool :=
  match param_is_read q with
  | Some v => bool_decide (is_read n = String.eqb (lower v) "true")
  | None => true
  end &&
  match param_type q with
  | Some EmptyString | None => true
  | Some t => String.eqb (notification_type n) t
  end &&
  match param_is_archived q with
  | Some v => bool_decide (is_archived n = String.eqb (lower v) "true")
  | None => true
  end.

Definition get_queryset (request_user : User) (q : QueryParams)
    : M (list Notification) :=
  gets (λ w,
    merge_sort newest_first (rows_of request_user (keep q) (notifications w))).

End NotificationListView.

Module NotificationMarkAsReadView.

Definition post (now : datetime) (request_user : User) (notification_id : Z)
    : M Response :=
  notification ← get_object_or_404 notification_id request_user;
  _ ← mark_as_read now notification;
  mret (mk_Response 200 [("message", JStr "Notification marked as read")]).

End NotificationMarkAsReadView.

Module NotificationMarkAllAsReadView.

Definition post (request_user : User) : M Response :=
  count ← count_unread request_user;
  _ ← update_unread_is_read request_user;
  mret (mk_Response 200
          [("message", JStr (pretty count +:+ " notifications marked as read"))]).

End NotificationMarkAllAsReadView.

Module NotificationArchiveView.

Definition post (request_user : User) (notification_id : Z) : M Response :=
  notification ← get_object_or_404 notification_id request_user;
  let notification := set_is_archived true notification in
  _ ← save notification ["is_archived"];
  mret (mk_Response 200 [("message", JStr "Notification archived")]).

End NotificationArchiveView.

Module NotificationUnarchiveView.

Definition post (request_user : User) (notification_id : Z) : M Response :=
  notification ← get_object_or_404 notification_id request_user;
  let notification := set_is_archived false notification in
  _ ← save notification ["is_archived"];
  mret (mk_Response 200 [("message", JStr "Notification unarchived")]).

End NotificationUnarchiveView.

Module NotificationDeleteView.

Definition delete (request_user : User) (notification_id : Z) : M Response :=
  notification ← get_object_or_404 notification_id request_user;
  _ ← delete_notification notification;
  mret (mk_Response 200 [("message", JStr "Notification deleted")]).

End NotificationDeleteView.

Module NotificationStatsView.

Definition of_type (t : string) (n : Notification) : bool :=
  String.eqb (notification_type n) t.

Definition get (request_user : User) : M Response :=
  gets (λ w,
    let count keep :=
      JInt (Z.of_nat (length (rows_of request_user keep (notifications w)))) in
    mk_Response 200
      [("total_notifications", count (λ _, true));
       ("unread_count", count unread);
       ("read_count", count is_read);
       ("archived_count", count is_archived);
       ("follow_count", count (of_type "follow"));
       ("like_count", count (of_type "like"));
       ("comment_count", count (of_type "comment"));
       ("mention_count", count (of_type "mention"));
       ("system_count", count (of_type "system"))]).

End NotificationStatsView.

Module NotificationTestView.

Definition post (now : datetime) (request_user : User) : M Response :=
  notification ← Notification_objects_create now request_user (Some request_user)
                   "system" "Test Notification"
                   "This is a test notification to verify the system is working."
                   None [];
  mret (mk_Response 201
          [("message", JStr "Test notification sent");
           ("notification_id", JInt (notification_id notification))]).

End NotificationTestView.

(** ** Preferences at sign-up and on request

    notifications/signals.py: [create_notification_preferences], the
    receiver of [post_save] for users; notifications/views.py:
    [NotificationPreferenceView.get_object]. *)

Definition create_notification_preferences (instance : User) (created : bool)
    : M unit :=
  if created then _ ← get_or_create_preferences instance; mret tt
  else mret tt.

Module NotificationPreferenceView.

Definition get_object (request_user : User) : M NotificationPreference :=
  get_or_create_preferences request_user.

End NotificationPreferenceView.

(** ** Administrator views (notifications/views.py)

    [User.is_admin] reads the user's [role] column, so the user of an
    administrator request comes with it. *)

Record Account : Type := mk_Account {
  account_user : User;
  role : string
}.

Definition is_admin (self : Account) : bool := String.eqb (role self) "admin".

(** [if value:] on a query parameter: set and not empty. *)
Definition given (value : option string) : bool :=
  match value with
  | Some (String _ _) => true
  | _ => false
  end.

Module AdminNotificationListView.

Record QueryParams : Type := mk_QueryParams {
  param_recipient : option string;
  param_type : option string;
  param_is_read : option string
}.

Definition keep (q : QueryParams) (n : Notification) : bool :=
  (if given (param_recipient q)
   then String.eqb (username (recipient n)) (default EmptyString (param_recipient q))
   else true) &&
  (if given (param_type q)
   then String.eqb (notification_type n) (default EmptyString (param_type q))
   else true) &&
  match param_is_read q with
  | Some v => bool_decide (is_read n = String.eqb (lower v) "true")
  | None => true
  end.

Definition get_queryset (request_user : Account) (q : QueryParams)
    : M (list Notification) :=
  if negb (is_admin request_user) then mret []
  else
    gets (λ w,
      merge_sort newest_first (filter (λ n, keep q n = true) (notifications w))).

End AdminNotificationListView.

Module AdminNotificationDeleteView.

(** [get_object_or_404(Notification, id=pk)] *)
Definition get_any_or_404 (pk : Z) : M Notification :=
  λ w,
    match objects_get (filter (λ n, notification_id n = pk) (notifications w)) with
    | Raise DoesNotExist => (w, Raise Http404)
    | r => (w, r)
    end.

Definition delete (request_user : Account) (notification_id : Z) : M Response :=
  if negb (is_admin request_user) then
    mret (mk_Response 403 [("error", JStr "Admin access required")])
  else
    notification ← get_any_or_404 notification_id;
    _ ← delete_notification notification;
    mret (mk_Response 200 [("message", JStr "Notification deleted successfully")]).

End AdminNotificationDeleteView.

(** ** Following and liking

    users/models.py: [Follow.save]; users/views.py: [FollowUserView],
    [UnfollowUserView]; posts/models.py: [Post.update_counts], [Like.save];
    posts/views.py: [PostLikeView], [PostUnlikeView], [PostLikeStatusView].
    The tables these write stand beside the world of the notification code;
    a post's row carries its stored counters, a comment's row its
    [is_active] flag, and [next_comment_pk] is the sequence of the comments'
    primary keys. *)

Record PostRow : Type := mk_PostRow {
  row_post : Post;
  post_is_active : bool;
  like_count : Z;
  comment_count : Z
}.

Record CommentRow : Type := mk_CommentRow {
  row_comment : Comment;
  comment_is_active : bool
}.

Record Site : Type := mk_Site {
  world : World;
  follows : list Follow;
  likes : list Like;
  posts : list PostRow;
  comments : list CommentRow;
  next_comment_pk : Z
}.

Definition set_world (w : World) (s : Site) : Site :=
  mk_Site w (follows s) (likes s) (posts s) (comments s) (next_comment_pk s).

Definition set_follows (t : list Follow) (s : Site) : Site :=
  mk_Site (world s) t (likes s) (posts s) (comments s) (next_comment_pk s).

Definition set_likes (t : list Like) (s : Site) : Site :=
  mk_Site (world s) (follows s) t (posts s) (comments s) (next_comment_pk s).

Definition set_posts (t : list PostRow) (s : Site) : Site :=
  mk_Site (world s) (follows s) (likes s) t (comments s) (next_comment_pk s).

Definition add_comment (c : CommentRow) (s : Site) : Site :=
  mk_Site (world s) (follows s) (likes s) (posts s) (comments s ++ [c])
    (next_comment_pk s + 1).

(** The rows of [User.objects.filter(id=uid)], with [is_active=True] when
    [active_only]. *)
Definition users_with_id (uid : Z) (active_only : bool) (table : list User)
    : list User :=
  filter (λ u, bool_decide (user_id u = uid) && (negb active_only || is_active u)
               = true) table.

(** [Follow.objects.filter(follower=a, following=b)] *)
Definition is_follow (a b : User) (f : Follow) : bool :=
  user_eqb (follower f) a && user_eqb (following f) b.

(** [Like.objects.filter(user=u, post=p)] *)
Definition is_like (u : User) (p : Post) (l : Like) : bool :=
  user_eqb (like_user l) u && bool_decide (post_id (like_post l) = post_id p).

(** [post.likes] and [post.comments.filter(is_active=True)] *)
Definition likes_of (p : Post) (l : Like) : bool :=
  bool_decide (post_id (like_post l) = post_id p).

Definition active_comments_of (p : Post) (c : CommentRow) : bool :=
  bool_decide (post_id (comment_post (row_comment c)) = post_id p) &&
  comment_is_active c.

(** [get_object_or_404(Post, id=pid, is_active=True)] *)
Definition get_post_or_404 (pid : Z) (s : Site) : Result PostRow :=
  match objects_get
          (filter (λ r, bool_decide (post_id (row_post r) = pid) && post_is_active r
                        = true) (posts s)) with
  | Raise DoesNotExist => Raise Http404
  | r => r
  end.

(** [Post.update_counts]: both counters are recounted and written to the
    post's row, [save(update_fields=['like_count', 'comment_count'])]. *)
Definition recount (self : Post) (s : Site) (r : PostRow) : PostRow :=
  if bool_decide (post_id (row_post r) = post_id self)
  then mk_PostRow (row_post r) (post_is_active r)
         (Z.of_nat (length (filter (λ l, likes_of self l = true) (likes s))))
         (Z.of_nat (length (filter (λ c, active_comments_of self c = true)
                              (comments s))))
  else r.

Definition update_counts (self : Post) (s : Site) : Site :=
  set_posts (recount self s <$> posts s) s.

Section WithDateFormatSite.

Context (isoformat : datetime → string) (isalnum : string → bool).

(** The receivers of [post_save] run on the notification tables. *)
Definition in_world {A} (m : M A) (s : Site) : Site * Result A :=
  match m (world s) with
  | (w', r) => (set_world w' s, r)
  end.

(** [Follow.objects.create(follower=a, following=b)]: [Follow.save] refuses
    a self-follow; otherwise the row is inserted and [post_save] runs its
    receiver.  (The view has checked [unique_together] before it calls.) *)
Definition Follow_objects_create (now : datetime) (a b : User) (s : Site)
    : Site * Result Follow :=
  let instance := mk_Follow a b in
  if user_eqb a b then (s, Raise ValueError)
  else
    match in_world (create_follow_notification isoformat now instance true)
            (set_follows (follows s ++ [instance]) s) with
    | (s', Ok _) => (s', Ok instance)
    | (s', Raise e) => (s', Raise e)
    end.

(** [Like.objects.create(user=u, post=p)]: [Like.save] inserts the row,
    [post_save] runs its receiver, and as the like is new the post's
    counters are recounted.  (The view has checked [unique_together].) *)
Definition Like_objects_create (now : datetime) (u : User) (p : Post) (s : Site)
    : Site * Result Like :=
  let instance := mk_Like u p in
  match in_world (create_like_notification isoformat now instance true)
          (set_likes (likes s ++ [instance]) s) with
  | (s', Ok _) => (update_counts p s', Ok instance)
  | (s', Raise e) => (s', Raise e)
  end.

(** [Comment.objects.create(author=a, post=p, content=c)]: [Comment.save]
    inserts the row, active and with the next primary key, [post_save] runs
    its two receivers, and as the comment is new the post's counters are
    recounted. *)
Definition Comment_objects_create (now : datetime) (a : User) (p : Post)
    (c : string) (s : Site) : Site * Result Comment :=
  let instance := mk_Comment (next_comment_pk s) a p c in
  match in_world (comment_post_save isoformat isalnum now instance true)
          (add_comment (mk_CommentRow instance true) s) with
  | (s', Ok _) => (update_counts p s', Ok instance)
  | (s', Raise e) => (s', Raise e)
  end.

End WithDateFormatSite.

Module FollowUserView.
Section WithDateFormatFollow.

Context (isoformat : datetime → string).

Definition post (now : datetime) (request_user : User) (user_id_ : Z) (s : Site)
    : Site * Result Response :=
  match objects_get (users_with_id user_id_ true (users (world s))) with
  | Raise DoesNotExist =>
      (s, Ok (mk_Response 404 [("error", JStr "User not found")]))
  | Raise e => (s, Raise e)
  | Ok user_to_follow =>
      if user_eqb user_to_follow request_user then
        (s, Ok (mk_Response 400 [("error", JStr "Cannot follow yourself")]))
      else if existsb (is_follow request_user user_to_follow) (follows s) then
        (s, Ok (mk_Response 400 [("error", JStr "Already following this user")]))
      else
        match Follow_objects_create isoformat now request_user user_to_follow s with
        | (s', Ok _) =>
            (s', Ok (mk_Response 201
                       [("message",
                         JStr ("Successfully followed " +:+ username user_to_follow))]))
        | (s', Raise DoesNotExist) =>
            (s', Ok (mk_Response 404 [("error", JStr "User not found")]))
        | (s', Raise e) => (s', Raise e)
        end
  end.

End WithDateFormatFollow.
End FollowUserView.

Module PostLikeView.
Section WithDateFormatLike.

Context (isoformat : datetime → string).

Definition post (now : datetime) (request_user : User) (post_id_ : Z) (s : Site)
    : Site * Result Response :=
  match get_post_or_404 post_id_ s with
  | Raise e => (s, Raise e)
  | Ok row =>
      if existsb (is_like request_user (row_post row)) (likes s) then
        (s, Ok (mk_Response 400 [("error", JStr "Post already liked")]))
      else
        match Like_objects_create isoformat now request_user (row_post row) s with
        | (s', Ok _) =>
            (s', Ok (mk_Response 201 [("message", JStr "Post liked successfully")]))
        | (s', Raise e) => (s', Raise e)
        end
  end.

End WithDateFormatLike.
End PostLikeView.

(** [queryset.delete()] removes the rows; the receivers of [post_delete]
    only print.  It does not call the model's own [delete]. *)
Module UnfollowUserView.

Definition delete (request_user : User) (user_id_ : Z) (s : Site)
    : Site * Result Response :=
  match objects_get (users_with_id user_id_ false (users (world s))) with
  | Raise DoesNotExist =>
      (s, Ok (mk_Response 404 [("error", JStr "User not found")]))
  | Raise e => (s, Raise e)
  | Ok user_to_unfollow =>
      if negb (existsb (is_follow request_user user_to_unfollow) (follows s)) then
        (s, Ok (mk_Response 400 [("error", JStr "Not following this user")]))
      else
        (set_follows
           (filter (λ f, is_follow request_user user_to_unfollow f = false)
              (follows s)) s,
         Ok (mk_Response 200
               [("message",
                 JStr ("Successfully unfollowed " +:+ username user_to_unfollow))]))
  end.

End UnfollowUserView.

Module PostUnlikeView.

Definition delete (request_user : User) (post_id_ : Z) (s : Site)
    : Site * Result Response :=
  match get_post_or_404 post_id_ s with
  | Raise e => (s, Raise e)
  | Ok row =>
      if negb (existsb (is_like request_user (row_post row)) (likes s)) then
        (s, Ok (mk_Response 400 [("error", JStr "Post not liked")]))
      else
        (set_likes
           (filter (λ l, is_like request_user (row_post row) l = false) (likes s)) s,
         Ok (mk_Response 200 [("message", JStr "Post unliked successfully")]))
  end.

End PostUnlikeView.

Module PostLikeStatusView.

Definition get (request_user : User) (post_id_ : Z) (s : Site)
    : Site * Result Response :=
  match get_post_or_404 post_id_ s with
  | Raise e => (s, Raise e)
  | Ok row =>
      (s, Ok (mk_Response 200
                [("post_id", JInt post_id_);
                 ("is_liked",
                  JBool (existsb (is_like request_user (row_post row)) (likes s)));
                 ("like_count", JInt (like_count row))]))
  end.

End PostLikeStatusView.

(** ** Vocabulary of the properties *)

(** The invariant of [read_at]: set exactly on the notifications that have
    been read. *)
Definition read_at_consistent (n : Notification) : Prop :=
  is_read n = true ↔ is_Some (read_at n).

(** Two rows that agree on every column but [is_archived]. *)
Definition same_but_is_archived (a b : Notification) : Prop :=
  notification_id a = notification_id b ∧ recipient a = recipient b ∧
  sender a = sender b ∧ notification_type a = notification_type b ∧
  title a = title b ∧ message a = message b ∧
  content_object a = content_object b ∧ data a = data b ∧
  is_read a = is_read b ∧ created_at a = created_at b ∧ read_at a = read_at b.

(** A notification has a text unless its kind names a sender it lacks. *)
Definition has_text (n : Notification) : Prop :=
  sender n = None →
  notification_type n ∉ ["follow"; "like"; "comment"; "mention"].

(** The channel-layer message that carries a projection, and the frame a
    consumer makes of it. *)
Definition notification_event (projection : dict) : dict :=
  [("type", JStr "notification_message"); ("notification", JDict projection)].


(** The acknowledgment sent on entering [Open], and the frames of that
    type. *)
Definition established_frame (u : User) : dict :=
  [("type", JStr "connection_established");
   ("message", JStr "Connected to notifications");
   ("user_id", JInt (user_id u))].

Definition is_established (frame : dict) : bool :=
  json_is_str (dict_get "type" frame) "connection_established".

(** The world a trace leaves when the connection itself does nothing: only
    the changes made elsewhere. *)
Definition elsewhere_only (trace : list NotificationConsumer.Action) (w : World)
    : World :=
  foldl (λ w a,
           match a with
           | NotificationConsumer.Elsewhere change => change w
           | NotificationConsumer.Transport _ => w
           end) w trace.

(** The replies of an open connection. *)
Definition pong_frame (timestamp : json) : dict :=
  [("type", JStr "pong"); ("timestamp", timestamp)].

Definition count_frame (unread_count : nat) : dict :=
  [("type", JStr "notifications_count");
   ("unread_count", JInt (Z.of_nat unread_count))].

Definition error_frame : dict :=
  [("type", JStr "error"); ("message", JStr "Invalid JSON format")].

(** [self'] is [self] after some frames, none of them the acknowledgment,
    and is past the handshake. *)
Definition appended (self self' : Consumer) : Prop :=
  socket self' ≠ Connecting ∧
  ∃ extra, sent self' = sent self ++ extra ∧
           Forall (λ frame, is_established frame = false) extra.

(** A consumer before its handshake. *)
Definition fresh (who : ScopeUser) (channel : string) : Consumer :=
  mk_Consumer who channel None Connecting [].

Section Matching.

Context (isalnum : string → bool).

(** What [re.findall] means for [@(\w+)]: the leftmost match, its word
    taken as long as it goes, then the search resumes after it; where no
    match starts the search moves on by one character.  The search visits at
    most one position per character, which bounds [fuel]. *)
Fixpoint span_word (cs : list string) : list string * list string :=
  match cs with
  | [] => ([], [])
  | c :: rest =>
      if word_char isalnum c then (c :: (span_word rest).1, (span_word rest).2)
      else ([], cs)
  end.

Fixpoint findall_leftmost (fuel : nat) (cs : list string) : list string :=
  match fuel with
  | O => []
  | S fuel =>
      match cs with
      | [] => []
      | c :: rest =>
          if at_sign c then
            match (span_word rest).1 with
            | [] => findall_leftmost fuel rest
            | word => str_join word :: findall_leftmost fuel (span_word rest).2
            end
          else findall_leftmost fuel rest
      end
  end.

(** A name the scan yields: one or more word characters. *)
Definition is_word (name : string) : Prop :=
  ∃ word, word ≠ [] ∧ forallb (word_char isalnum) word = true ∧
          name = str_join word.

End Matching.

(** A character as the split yields it: a byte and continuation bytes. *)
Fixpoint all_continuation (s : string) : bool :=
  match s with
  | EmptyString => true
  | String b rest => continuation b && all_continuation rest
  end.

Definition is_character (c : string) : Prop :=
  match c with
  | String b rest => all_continuation rest = true
  | EmptyString => False
  end.

(** A mentioned user is notified unless they wrote the comment or the post. *)
Definition notifiable (c : Comment) (u : User) : bool :=
  negb (user_eqb u (comment_author c)) &&
  negb (user_eqb u (post_author (comment_post c))).

(** The users a comment notifies by mention: one entry for every match of
    the pattern, in order, whose name is that of an active user who is
    notifiable. *)
Definition mention_targets (isalnum : string → bool) (c : Comment)
    (table : list User) : list User :=
  name ← findall_mentions isalnum (comment_content c);
  filter (λ u, notifiable c u = true) (active_named name table).

(** The notification a mention creates. *)
Definition is_mention_of (c : Comment) (n : Notification) : Prop :=
  notification_type n = "mention" ∧ sender n = Some (comment_author c) ∧
  content_object n = Some (mk_ContentRef "post" (post_id (comment_post c))) ∧
  is_read n = false ∧ is_archived n = false ∧ read_at n = None.

(** The archive view and the unarchive view, by the flag they write. *)
Definition archive_view (archived : bool) : User → Z → M Response :=
  if archived then NotificationArchiveView.post else NotificationUnarchiveView.post.

(** ** Sample data *)

Definition alice : User := mk_User 1 "alice" true.
Definition bob : User := mk_User 2 "bob" true.
Definition carol : User := mk_User 3 "carol" true.

Definition noon : datetime := mk_datetime 739000 (hm 12 0).
Definition later : datetime := mk_datetime 739000 (hm 12 5).

Definition empty_world : World := mk_World [alice; bob; carol] [] 1 ∅ [] ∅ ∅.

(** Bob liked a post of Alice; she has not read the notification yet. *)
Definition liked : Notification :=
  mk_Notification 1 alice (Some bob) "like" "New Like" "bob liked your post"
    (Some (mk_ContentRef "post" 10))
    [("post_id", JInt 10); ("post_content", JStr "hello")]
    false false noon None.

Definition inbox : World :=
  mk_World [alice; bob; carol] [liked] 2 ∅ [SqlInsert liked] ∅ ∅.

(** Alice is connected from two devices, Bob from none. *)
Definition two_devices : World :=
  mk_World [alice; bob; carol] [liked] 2 ∅ [SqlInsert liked]
    {[ "user_1" := {[ "phone"; "laptop" ]} ]} ∅.

Definition sample_isoformat (d : datetime) : string :=
  pretty (date_ordinal d) +:+ "T" +:+ pretty (hour (time_of d)) +:+ ":" +:+
  pretty (minute (time_of d)).

(** Bob's post, and Carol's comment on it that names Alice twice. *)
Definition bobs_post : Post := mk_Post 10 bob "hello".
Definition carols_comment : Comment :=
  mk_Comment 20 carol bobs_post "@alice look, @alice".

(** Alice's post, her own like of it and her own comment on it. *)
Definition alices_post : Post := mk_Post 11 alice "good morning".
Definition own_like : Like := mk_Like alice alices_post.
Definition own_comment : Comment := mk_Comment 21 alice alices_post "thanks @alice".

(** A decoder for the payloads of the examples: a ping with a timestamp, an
    empty object, an empty array, and an integer of 5000 digits, which is
    beyond the digit limit; anything else is malformed. *)
Definition quoted (s : string) : string :=
  String (ascii_of_nat 34) s +:+ String (ascii_of_nat 34) EmptyString.

Definition ping_text : string :=
  "{" +:+ quoted "type" +:+ ": " +:+ quoted "ping" +:+ ", " +:+
  quoted "timestamp" +:+ ": 7}".

Fixpoint ones (n : nat) : string :=
  match n with
  | O => EmptyString
  | S n => String "1" (ones n)
  end.

Definition sample_loads (text : string) : Result json :=
  if String.eqb text ping_text then
    Ok (JDict [("type", JStr "ping"); ("timestamp", JInt 7)])
  else if String.eqb text "{}" then Ok (JDict [])
  else if String.eqb text "[]" then Ok (JList [])
  else if String.eqb text (ones 5000) then Raise ValueError
  else Raise JSONDecodeError.

(** Alice's phone, connected. *)
Definition alice_phone : Consumer :=
  mk_Consumer (Authenticated alice) "phone" (Some "user_1") Open
    [established_frame alice].

(** The Unicode table of the examples: of the characters outside ASCII
    only the letter e with an acute accent (U+00E9, bytes C3 A9) is
    classified, as alphanumeric. *)
Definition e_acute : string :=
  String (ascii_of_nat 195) (String (ascii_of_nat 169) EmptyString).

Definition sample_isalnum (c : string) : bool := String.eqb c e_acute.

Definition bobs_like : Like := mk_Like bob alices_post.

(** A site with Alice's post and nothing else yet. *)
Definition quiet_site : Site :=
  mk_Site empty_world [] [] [mk_PostRow alices_post true 0 0] [] 1.

(** Quiet from 22:00 to 06:00. *)
Definition night_owl : NotificationPreference :=
  mk_NotificationPreference true true true true true
    true true true true true
    true true true true true
    true (Some (hm 22 0)) (Some (hm 6 0)).

(** The channel-layer message of an update, and the frame a consumer makes
    of it. *)
Definition update_event (notification_id : Z) (update_data : dict) : dict :=
  [("type", JStr "notification_update");
   ("notification_id", JInt notification_id);
   ("update_data", JDict update_data)].

Definition update_frame (notification_id : Z) (update_data : dict) : dict :=
  [("type", JStr "notification_update");
   ("notification_id", JInt notification_id);
   ("update_data", JDict update_data)].

Definition broadcast_event (notification_data : dict) : dict :=
  [("type", JStr "broadcast_notification");
   ("notification", JDict notification_data)].

(** The tables of the database, apart from the channel layer. *)
Definition tables (w : World)
    : list User * list Notification * Z * gmap Z NotificationPreference
      * list SqlWrite :=
  (users w, notifications w, next_pk w, preferences w, sql_log w).

(** The notification a producer creates of [kind], from one user to
    another: unread, not archived, and with a text that is its message. *)
Definition produced (kind : string) (from to : User) (n : Notification) : Prop :=
  notification_type n = kind ∧ recipient n = to ∧ sender n = Some from ∧
  is_read n = false ∧ is_archived n = false ∧ read_at n = None ∧
  get_notification_text n = Ok (message n).

(** What a stored notification keeps: every column but the status ones;
    and once read it stays read, with the time it was read at. *)
Definition keeps (n n' : Notification) : Prop :=
  notification_id n' = notification_id n ∧ recipient n' = recipient n ∧
  sender n' = sender n ∧ notification_type n' = notification_type n ∧
  title n' = title n ∧ message n' = message n ∧
  content_object n' = content_object n ∧ data n' = data n ∧
  created_at n' = created_at n ∧
  (is_read n = true → is_read n' = true ∧ read_at n' = read_at n).

(** The requests and signals that write to the notification table, and the
    world each leaves, whether it answers or raises. *)
Inductive Request : Type :=
  | MarkAsRead (now : datetime) (u : User) (pk : Z)
  | MarkAllAsRead (u : User)
  | Archive (u : User) (pk : Z)
  | Unarchive (u : User) (pk : Z)
  | Delete (u : User) (pk : Z)
  | AdminDelete (a : Account) (pk : Z)
  | SendTest (now : datetime) (u : User)
  | SaveFollow (now : datetime) (f : Follow) (created : bool)
  | SaveLike (now : datetime) (l : Like) (created : bool)
  | SaveComment (now : datetime) (c : Comment) (created : bool).

Section Requests.

Context (isoformat : datetime → string) (isalnum : string → bool).

Definition serve (r : Request) (w : World) : World :=
  match r with
  | MarkAsRead now u pk => (NotificationMarkAsReadView.post now u pk w).1
  | MarkAllAsRead u => (NotificationMarkAllAsReadView.post u w).1
  | Archive u pk => (NotificationArchiveView.post u pk w).1
  | Unarchive u pk => (NotificationUnarchiveView.post u pk w).1
  | Delete u pk => (NotificationDeleteView.delete u pk w).1
  | AdminDelete a pk => (AdminNotificationDeleteView.delete a pk w).1
  | SendTest now u => (NotificationTestView.post now u w).1
  | SaveFollow now f created =>
      (create_follow_notification isoformat now f created w).1
  | SaveLike now l created => (create_like_notification isoformat now l created w).1
  | SaveComment now c created =>
      (comment_post_save isoformat isalnum now c created w).1
  end.

Definition serve_all (requests : list Request) (w : World) : World :=
  foldl (λ w r, serve r w) w requests.

End Requests.

(** What a course of requests makes of the table: the keys stay unique and
    behind the sequence, the sequence never goes back, and a row whose key
    was already given out is a row of before that has kept its columns. *)
Definition evolves (w w' : World) : Prop :=
  unique_pks w' ∧ fresh_pks w' ∧ next_pk w ≤ next_pk w' ∧
  ∀ n', n' ∈ notifications w' → notification_id n' < next_pk w →
        ∃ n, n ∈ notifications w ∧ keeps n n'.

(** Carol administers the site; Bob is an ordinary member. *)
Definition moderator : Account := mk_Account carol "admin".
Definition member : Account := mk_Account bob "user".

(** * Properties *)

(** ** Quiet hours *)

Lemma time_le_micros (a b : time) :
  valid_time a → valid_time b →
  time_le a b = true ↔ (micros a ≤ micros b)%N.
Proof.
  unfold valid_time, time_le, time_cmp, micros.
  destruct a as [h1 m1 s1 u1], b as [h2 m2 s2 u2]; simpl.
  intros (Hh1 & Hm1 & Hs1 & Hu1) (Hh2 & Hm2 & Hs2 & Hu2).
  destruct (N.compare_spec h1 h2) as [-> | Hh | Hh];
    [ destruct (N.compare_spec m1 m2) as [-> | Hm | Hm];
      [ destruct (N.compare_spec s1 s2) as [-> | Hs | Hs];
        [ destruct (N.compare_spec u1 u2) | | ] | | ] | | ];
    split; intros; try done; try lia.
Qed.

Lemma time_ge_micros (a b : time) :
  valid_time a → valid_time b →
  time_ge a b = true ↔ (micros b ≤ micros a)%N.
Proof.
  unfold valid_time, time_ge, time_cmp, micros.
  destruct a as [h1 m1 s1 u1], b as [h2 m2 s2 u2]; simpl.
  intros (Hh1 & Hm1 & Hs1 & Hu1) (Hh2 & Hm2 & Hs2 & Hu2).
  destruct (N.compare_spec h1 h2) as [-> | Hh | Hh];
    [ destruct (N.compare_spec m1 m2) as [-> | Hm | Hm];
      [ destruct (N.compare_spec s1 s2) as [-> | Hs | Hs];
        [ destruct (N.compare_spec u1 u2) | | ] | | ] | | ];
    split; intros; try done; try lia.
Qed.

Lemma time_le_false_micros (a b : time) :
  valid_time a → valid_time b →
  time_le a b = false ↔ (micros b < micros a)%N.
Proof.
  intros Ha Hb. pose proof (time_le_micros a b Ha Hb) as H.
  destruct (time_le a b); split; intros; try done; lia.
Qed.

(** C5. [is_quiet_hours] is false when quiet hours are disabled or a bound
    is unset.  Otherwise, with both bounds set: when start <= end it is true
    exactly when the time of day of [now] lies in [start, end]; when
    start > end it is true exactly when now >= start or now <= end.  With
    22:00 to 06:00 it is true at 23:00 and at 03:00 and false at 12:00. *)
Theorem is_quiet_hours_window (p : NotificationPreference) (now : datetime) :
  (quiet_hours_enabled p = false ∨ quiet_hours_start p = None ∨
   quiet_hours_end p = None → is_quiet_hours p now = false) ∧
  (∀ start end_,
     quiet_hours_enabled p = true →
     quiet_hours_start p = Some start → quiet_hours_end p = Some end_ →
     valid_time start → valid_time end_ → valid_time (time_of now) →
     ((micros start ≤ micros end_)%N →
        is_quiet_hours p now = true ↔
        (micros start ≤ micros (time_of now) ≤ micros end_)%N) ∧
     ((micros end_ < micros start)%N →
        is_quiet_hours p now = true ↔
        (micros start ≤ micros (time_of now))%N ∨
        (micros (time_of now) ≤ micros end_)%N)) ∧
  (quiet_hours_enabled p = true →
   quiet_hours_start p = Some (hm 22 0) → quiet_hours_end p = Some (hm 6 0) →
   ∀ day,
     is_quiet_hours p (mk_datetime day (hm 23 0)) = true ∧
     is_quiet_hours p (mk_datetime day (hm 3 0)) = true ∧
     is_quiet_hours p (mk_datetime day (hm 12 0)) = false).
Proof.
  split; [| split].
  - unfold is_quiet_hours. intros Hoff.
    destruct (quiet_hours_enabled p), (quiet_hours_start p), (quiet_hours_end p);
      simpl; try done; by destruct Hoff as [? | [? | ?]].
  - intros start end_ Hon Hs He Vs Ve Vn. unfold is_quiet_hours.
    rewrite Hon, Hs, He. simpl.
    split; intros Horder.
    + apply (time_le_micros _ _ Vs Ve) in Horder. rewrite Horder.
      rewrite andb_true_iff, !time_le_micros by done. tauto.
    + apply (time_le_false_micros _ _ Vs Ve) in Horder. rewrite Horder.
      rewrite orb_true_iff, time_ge_micros, time_le_micros by done. tauto.
  - intros Hon Hs He day. unfold is_quiet_hours. rewrite Hon, Hs, He. done.
Qed.

Lemma is_quiet_hours_window_witness :
  is_quiet_hours night_owl (mk_datetime 739000 (hm 23 30)) = true.
Proof.
  destruct (is_quiet_hours_window night_owl (mk_datetime 739000 (hm 23 30)))
    as (_ & Hwindow & _).
  destruct (Hwindow (hm 22 0) (hm 6 0)) as [_ Hwrap];
    [reflexivity | reflexivity | reflexivity
    | unfold valid_time; simpl; lia | unfold valid_time; simpl; lia
    | unfold valid_time; simpl; lia |].
  apply Hwrap; [unfold micros; simpl; lia |]. left. unfold micros; simpl; lia.
Defined.

(** ** Rows and lookups *)

Lemma copy_column_frame (obj row : Notification) (column : string) :
  notification_id (copy_column obj row column) = notification_id row ∧
  recipient (copy_column obj row column) = recipient row.
Proof.
  unfold copy_column.
  repeat (destruct (String.eqb column _); [done |]). done.
Qed.

Lemma save_row_frame (obj : Notification) (columns : list string) (row : Notification) :
  notification_id (save_row obj columns row) = notification_id row ∧
  recipient (save_row obj columns row) = recipient row.
Proof.
  unfold save_row. case_bool_decide; [| done].
  clear. revert row. induction columns as [| c columns IH]; intros row; [done |].
  simpl. destruct (IH (copy_column obj row c)) as [-> ->].
  apply copy_column_frame.
Qed.

Lemma save_rows_ids (obj : Notification) (columns : list string)
    (rows : list Notification) :
  notification_id <$> (save_row obj columns <$> rows) = notification_id <$> rows.
Proof.
  rewrite <- list_fmap_compose. apply list_fmap_ext.
  intros i row _. simpl. apply save_row_frame.
Qed.

Lemma filter_owned_absent (u : User) (pk : Z) (rows : list Notification) :
  pk ∉ notification_id <$> rows →
  filter (λ n, owned_by u pk n = true) rows = [].
Proof.
  induction rows as [| row rows IH]; [done |].
  rewrite fmap_cons, not_elem_of_cons. intros [Hne Hrest].
  rewrite filter_cons_False; [by apply IH |].
  unfold owned_by. rewrite bool_decide_eq_false_2 by done. done.
Qed.

Lemma filter_owned_unique (u : User) (n : Notification) (rows : list Notification) :
  NoDup (notification_id <$> rows) → n ∈ rows →
  user_id (recipient n) = user_id u →
  filter (λ r, owned_by u (notification_id n) r = true) rows = [n].
Proof.
  intros Hnodup Hin Hu.
  induction rows as [| row rows IH]; [by apply elem_of_nil in Hin |].
  rewrite fmap_cons in Hnodup. apply NoDup_cons in Hnodup as [Hfresh Hnodup].
  apply elem_of_cons in Hin as [<- | Hin].
  - rewrite filter_cons_True.
    + by rewrite filter_owned_absent.
    + unfold owned_by, user_eqb. by rewrite !bool_decide_eq_true_2.
  - rewrite filter_cons_False; [by apply IH |].
    unfold owned_by. rewrite bool_decide_eq_false_2; [done |].
    intros Heq. apply Hfresh. rewrite Heq. by apply list_elem_of_fmap_2.
Qed.

Lemma same_pk_same_row (rows : list Notification) (a b : Notification) :
  NoDup (notification_id <$> rows) → a ∈ rows → b ∈ rows →
  notification_id a = notification_id b → a = b.
Proof.
  induction rows as [| row rows IH]; [by intros _ ?%elem_of_nil |].
  rewrite fmap_cons. intros [Hfresh Hnodup]%NoDup_cons.
  intros [-> | Ha]%elem_of_cons [-> | Hb]%elem_of_cons Heq; [done | | | by apply IH].
  - exfalso. apply Hfresh. rewrite Heq. by apply list_elem_of_fmap_2.
  - exfalso. apply Hfresh. rewrite <- Heq. by apply list_elem_of_fmap_2.
Qed.

Lemma get_object_or_404_found (u : User) (n : Notification) (w : World) :
  unique_pks w → n ∈ notifications w → user_id (recipient n) = user_id u →
  get_object_or_404 (notification_id n) u w = (w, Ok n).
Proof.
  intros Hpk Hin Hu. unfold get_object_or_404.
  by rewrite (filter_owned_unique u n (notifications w)).
Qed.

Lemma rows_of_length_fmap (u : User) (keep : Notification → bool)
    (f : Notification → Notification) (rows : list Notification) :
  (∀ row, recipient (f row) = recipient row ∧ keep (f row) = keep row) →
  length (rows_of u keep (f <$> rows)) = length (rows_of u keep rows).
Proof.
  intros Hf. unfold rows_of.
  induction rows as [| row rows IH]; [done |].
  rewrite fmap_cons. destruct (Hf row) as [Hr Hk].
  destruct (decide (user_eqb (recipient row) u && keep row = true)) as [Hyes | Hno].
  - rewrite !filter_cons_True; [simpl; by rewrite IH | done | by rewrite Hr, Hk].
  - rewrite !filter_cons_False; [done | done | by rewrite Hr, Hk].
Qed.

(** ** Marking as read *)

Ltac unfold_monad :=
  unfold mbind, M_bind, mret, M_ret, modify, gets, raise, lift.

Lemma mark_as_read_already (now : datetime) (n : Notification) (w : World) :
  is_read n = true → mark_as_read now n w = (w, Ok n).
Proof. intros Hread. unfold mark_as_read. by rewrite Hread. Qed.

Lemma mark_as_read_first (now : datetime) (n : Notification) (w : World) :
  is_read n = false →
  mark_as_read now n w =
    (log_write (SqlUpdate [notification_id n] ["is_read"; "read_at"])
       (set_notifications
          (save_row (set_read_at (Some now) (set_is_read true n))
             ["is_read"; "read_at"] <$> notifications w) w),
     Ok (set_read_at (Some now) (set_is_read true n))).
Proof. intros Hread. unfold mark_as_read. by rewrite Hread. Qed.

(** C4. [mark_read] is idempotent: for a notification that belongs to the
    acting recipient, a second call leaves the state of the first call
    untouched, the log of writes included, so it performs no write.  When
    the notification was unread, the stored row is read after the first call
    and after the second, with [read_at] the time of the first call and
    every other column as it was, and the first call made one write; when it
    was read already, neither call changes anything. *)
Theorem mark_read_idempotent (t1 t2 : datetime) (u : User) (n : Notification)
    (w : World) :
  unique_pks w → n ∈ notifications w → user_id (recipient n) = user_id u →
  ∃ w1 response,
    NotificationMarkAsReadView.post t1 u (notification_id n) w = (w1, Ok response) ∧
    NotificationMarkAsReadView.post t2 u (notification_id n) w1 = (w1, Ok response) ∧
    (is_read n = false →
       get_object_or_404 (notification_id n) u w1 =
         (w1, Ok (set_read_at (Some t1) (set_is_read true n))) ∧
       sql_log w1 =
         sql_log w ++ [SqlUpdate [notification_id n] ["is_read"; "read_at"]] ∧
       ∃ n1,
         n1 ∈ notifications w1 ∧
         get_object_or_404 (notification_id n) u
           (NotificationMarkAsReadView.post t2 u (notification_id n) w1).1
           = (w1, Ok n1) ∧
         is_read n1 = true ∧ read_at n1 = Some t1 ∧
         notification_id n1 = notification_id n ∧ recipient n1 = recipient n ∧
         sender n1 = sender n ∧ notification_type n1 = notification_type n ∧
         title n1 = title n ∧ message n1 = message n ∧
         content_object n1 = content_object n ∧ data n1 = data n ∧
         is_archived n1 = is_archived n ∧ created_at n1 = created_at n ∧
         (∀ m, m ∈ notifications w1 → notification_id m = notification_id n →
               m = n1)) ∧
    (is_read n = true → w1 = w).
Proof.
  intros Hpk Hin Hu. unfold NotificationMarkAsReadView.post.
  destruct (is_read n) eqn:Hread.
  - exists w, (mk_Response 200 [("message", JStr "Notification marked as read")]).
    unfold_monad.
    rewrite (get_object_or_404_found u n w Hpk Hin Hu).
    rewrite !mark_as_read_already by done.
    by repeat split.
  - set (n1 := set_read_at (Some t1) (set_is_read true n)).
    set (w1 := log_write (SqlUpdate [notification_id n] ["is_read"; "read_at"])
                 (set_notifications
                    (save_row n1 ["is_read"; "read_at"] <$> notifications w) w)).
    assert (Hpk1 : unique_pks w1).
    { unfold unique_pks, w1. simpl. by rewrite save_rows_ids. }
    assert (Hin1 : n1 ∈ notifications w1).
    { unfold w1. simpl. apply list_elem_of_fmap. exists n. split; [| done].
      unfold save_row. by rewrite bool_decide_eq_true_2. }
    assert (Hget : get_object_or_404 (notification_id n) u w1 = (w1, Ok n1)).
    { by apply (get_object_or_404_found u n1 w1). }
    exists w1, (mk_Response 200 [("message", JStr "Notification marked as read")]).
    unfold_monad.
    rewrite (get_object_or_404_found u n w Hpk Hin Hu).
    rewrite (mark_as_read_first _ n w Hread). fold n1 w1.
    rewrite Hget, (mark_as_read_already _ n1 w1 eq_refl).
    split; [done |]. split; [done |]. split; [| done]. intros _.
    split; [done |]. split; [done |].
    exists n1. split; [exact Hin1 |]. simpl. split; [exact Hget |].
    split_and!; try done.
    intros m Hm Hid. by apply (same_pk_same_row (notifications w1)).
Qed.

Lemma mark_read_idempotent_witness :
  ∃ w1 response,
    NotificationMarkAsReadView.post noon alice 1 inbox = (w1, Ok response) ∧
    NotificationMarkAsReadView.post later alice 1 w1 = (w1, Ok response) ∧
    ∃ n1,
      notifications w1 = [n1] ∧ is_read n1 = true ∧ read_at n1 = Some noon.
Proof.
  destruct (mark_read_idempotent noon later alice liked inbox)
    as (w1 & response & Hfirst & Hsecond & Hunread & _).
  - apply NoDup_singleton.
  - apply list_elem_of_singleton. reflexivity.
  - reflexivity.
  - destruct (Hunread eq_refl)
      as (_ & _ & n1 & Hin & _ & Hread & Hat & _ & _ & _ & _ & _ & _ & _ & _ & _
          & _ & Hone).
    change (notification_id liked) with 1 in Hfirst, Hsecond.
    exists w1, response. split; [exact Hfirst |]. split; [exact Hsecond |].
    exists n1. split; [| split; assumption].
    assert (Hw1 : w1 = (NotificationMarkAsReadView.post noon alice 1 inbox).1)
      by (by rewrite Hfirst).
    assert (Hrows : ∃ m, notifications w1 = [m])
      by (rewrite Hw1; by eexists).
    destruct Hrows as [m Hrows]. rewrite Hrows in Hin, Hone |- *.
    apply list_elem_of_singleton in Hin. by rewrite Hin.
Defined.

Lemma mark_read_keeps_read_at_consistent (now : datetime) (u : User) (pk : Z)
    (w : World) :
  Forall read_at_consistent (notifications w) →
  Forall read_at_consistent
    (notifications (NotificationMarkAsReadView.post now u pk w).1).
Proof.
  intros Hinv. unfold NotificationMarkAsReadView.post, get_object_or_404.
  unfold_monad.
  destruct (objects_get _) as [n | e] eqn:Hget; [| by destruct e].
  unfold mark_as_read.
  destruct (is_read n) eqn:Hread; simpl; [done |].
  apply Forall_fmap. eapply Forall_impl; [exact Hinv |].
  intros row Hrow. unfold save_row. simpl. case_bool_decide; [| done].
  unfold read_at_consistent. simpl. split; eauto.
Qed.

Lemma mark_rows_read_keeps_read_at (u : User) (rows : list Notification) :
  read_at <$> (mark_row_read u <$> rows) = read_at <$> rows.
Proof.
  rewrite <- list_fmap_compose. apply list_fmap_ext.
  intros i row _. simpl. unfold mark_row_read. by destruct (_ && _).
Qed.

(** C2. The bulk operation marks every unread notification of the user as
    read and leaves [read_at] as it was: a notification it moves from unread
    to read ends up read with a null [read_at], so the operation breaks the
    invariant that the single [mark_read] keeps. *)
Theorem mark_all_read_leaves_read_at_null (u : User) (n : Notification) (w : World) :
  n ∈ notifications w → user_id (recipient n) = user_id u →
  is_read n = false → read_at n = None →
  ∃ w' response,
    NotificationMarkAllAsReadView.post u w = (w', Ok response) ∧
    (∃ n', n' ∈ notifications w' ∧ notification_id n' = notification_id n ∧
           is_read n' = true ∧ read_at n' = None) ∧
    ¬ Forall read_at_consistent (notifications w') ∧
    read_at <$> notifications w' = read_at <$> notifications w.
Proof.
  intros Hin Hu Hunread Hnull.
  unfold NotificationMarkAllAsReadView.post, count_unread, update_unread_is_read.
  unfold_monad. simpl. eexists _, _. split; [reflexivity |].
  assert (Hrow : set_is_read true n ∈ mark_row_read u <$> notifications w).
  { apply list_elem_of_fmap. exists n. split; [| done].
    unfold mark_row_read, user_eqb, unread.
    by rewrite bool_decide_eq_true_2, Hunread. }
  split; [| split].
  - exists (set_is_read true n). by repeat split.
  - intros Hall. rewrite Forall_forall in Hall.
    destruct (Hall _ Hrow) as [Hset _]. simpl in Hset.
    rewrite Hnull in Hset. by destruct (Hset eq_refl).
  - apply mark_rows_read_keeps_read_at.
Qed.

Lemma mark_all_read_leaves_read_at_null_witness :
  ∃ w' response,
    NotificationMarkAllAsReadView.post alice inbox = (w', Ok response) ∧
    (∃ n', n' ∈ notifications w' ∧ notification_id n' = 1 ∧
           is_read n' = true ∧ read_at n' = None) ∧
    ¬ Forall read_at_consistent (notifications w') ∧
    read_at <$> notifications w' = read_at <$> notifications inbox.
Proof.
  apply (mark_all_read_leaves_read_at_null alice liked inbox).
  - apply list_elem_of_singleton. reflexivity.
  - reflexivity.
  - reflexivity.
  - reflexivity.
Defined.

(** ** Archiving *)

Lemma save_row_is_archived (obj row : Notification) :
  save_row obj ["is_archived"] row =
    if bool_decide (notification_id row = notification_id obj)
    then set_is_archived (is_archived obj) row else row.
Proof. unfold save_row. by case_bool_decide. Qed.

Lemma archive_view_run (archived : bool) (u : User) (n : Notification) (w : World) :
  unique_pks w → n ∈ notifications w → user_id (recipient n) = user_id u →
  ∃ response,
    archive_view archived u (notification_id n) w =
      (log_write (SqlUpdate [notification_id n] ["is_archived"])
         (set_notifications
            (save_row (set_is_archived archived n) ["is_archived"]
               <$> notifications w) w),
       Ok response).
Proof.
  intros Hpk Hin Hu.
  destruct archived; simpl;
    unfold NotificationArchiveView.post, NotificationUnarchiveView.post;
    unfold_monad; rewrite (get_object_or_404_found u n w Hpk Hin Hu);
    unfold save; unfold_monad; simpl; eauto.
Qed.

(** C10. Archiving or unarchiving a notification of the acting recipient
    issues one write, of the column [is_archived] alone: the row keeps every
    other column ([is_read] and [read_at] among them), and every other row
    and table is untouched.  The unread counts, of the websocket reply and of
    the statistics, select on [is_read] alone: they are what they were
    before, and an unread notification is still counted once archived. *)
Theorem archive_writes_only_is_archived (archived : bool) (u : User)
    (n : Notification) (w : World) :
  unique_pks w → n ∈ notifications w → user_id (recipient n) = user_id u →
  ∃ w' response,
    archive_view archived u (notification_id n) w = (w', Ok response) ∧
    sql_log w' = sql_log w ++ [SqlUpdate [notification_id n] ["is_archived"]] ∧
    (∀ n', n' ∈ notifications w' →
       if bool_decide (notification_id n' = notification_id n)
       then same_but_is_archived n n' ∧ is_archived n' = archived
       else n' ∈ notifications w) ∧
    length (notifications w') = length (notifications w) ∧
    (users w', next_pk w', preferences w', groups w', queues w') =
      (users w, next_pk w, preferences w, groups w, queues w) ∧
    (∀ self v, scope_user self = Authenticated v →
       NotificationConsumer.get_unread_count self w' =
         (w', Ok (length (rows_of v unread (notifications w))))) ∧
    (∀ v, ∃ stats,
       NotificationStatsView.get v w' = (w', Ok stats) ∧
       dict_get "unread_count" (body stats) =
         Some (JInt (Z.of_nat (length (rows_of v unread (notifications w)))))) ∧
    (is_read n = false →
       ∃ n', n' ∈ rows_of u unread (notifications w') ∧
             notification_id n' = notification_id n ∧ is_archived n' = archived).
Proof.
  intros Hpk Hin Hu.
  destruct (archive_view_run archived u n w Hpk Hin Hu) as [response Hrun].
  eexists _, response. split; [exact Hrun |]. simpl.
  assert (Hcount : ∀ v,
    length (rows_of v unread
              (save_row (set_is_archived archived n) ["is_archived"]
                 <$> notifications w)) =
    length (rows_of v unread (notifications w))).
  { intros v. apply rows_of_length_fmap. intros row.
    rewrite save_row_is_archived. by case_bool_decide. }
  repeat split.
  - intros n' Hn'. apply list_elem_of_fmap in Hn' as (row & -> & Hrow).
    rewrite save_row_is_archived. simpl.
    destruct (decide (notification_id row = notification_id n)) as [Heq | Hne].
    + rewrite (bool_decide_eq_true_2 _ Heq). simpl.
      rewrite (bool_decide_eq_true_2 _ Heq).
      assert (row = n) as -> by (by apply (same_pk_same_row (notifications w))).
      by repeat split.
    + rewrite (bool_decide_eq_false_2 _ Hne). by rewrite (bool_decide_eq_false_2 _ Hne).
  - by rewrite length_fmap.
  - intros self v Hv. unfold NotificationConsumer.get_unread_count, count_unread.
    rewrite Hv. unfold_monad. simpl. by rewrite Hcount.
  - intros v. eexists. split; [reflexivity |]. simpl. by rewrite Hcount.
  - intros Hunread. exists (set_is_archived archived n). repeat split.
    unfold rows_of. apply list_elem_of_filter. split.
    + simpl. unfold user_eqb, unread. simpl.
      by rewrite bool_decide_eq_true_2, Hunread.
    + apply list_elem_of_fmap. exists n. split; [| done].
      rewrite save_row_is_archived. by rewrite bool_decide_eq_true_2.
Qed.

Lemma archive_writes_only_is_archived_witness :
  ∃ w' response,
    archive_view true alice 1 inbox = (w', Ok response) ∧
    sql_log w' = sql_log inbox ++ [SqlUpdate [1] ["is_archived"]].
Proof.
  destruct (archive_writes_only_is_archived true alice liked inbox)
    as (w' & response & Hrun & Hlog & _).
  - apply NoDup_singleton.
  - apply list_elem_of_singleton. reflexivity.
  - reflexivity.
  - exists w', response. split; assumption.
Defined.

(** ** The channel layer *)

Lemma set_fold_enqueue (event : dict) (chans : gset string)
    (q : gmap string (list dict)) (ch : string) :
  set_fold (enqueue event) q chans !! ch =
    if decide (ch ∈ chans) then Some (default [] (q !! ch) ++ [event]) else q !! ch.
Proof.
  revert chans.
  apply (set_fold_ind_L
           (λ r X, r !! ch = if decide (ch ∈ X)
                             then Some (default [] (q !! ch) ++ [event])
                             else q !! ch)).
  - rewrite decide_False; [done | apply not_elem_of_empty].
  - intros x X r Hx IH. unfold enqueue.
    destruct (decide (x = ch)) as [-> | Hne].
    + rewrite lookup_insert_eq, IH.
      rewrite decide_False by done.
      rewrite decide_True; [done | apply elem_of_union_l, elem_of_singleton_2; done].
    + rewrite lookup_insert_ne by done. rewrite IH.
      destruct (decide (ch ∈ X)) as [Hin | Hout].
      * rewrite decide_True; [done | by apply elem_of_union_r].
      * rewrite decide_False; [done |].
        rewrite elem_of_union, elem_of_singleton.
        intros [Heq | Hin]; [by symmetry in Heq | done].
Qed.

Lemma group_send_queues (group : string) (event : dict) (w : World) (ch : string) :
  queues (group_send group event w).1 !! ch =
    if decide (ch ∈ members group w)
    then Some (default [] (queues w !! ch) ++ [event])
    else queues w !! ch.
Proof. unfold group_send, modify. simpl. apply set_fold_enqueue. Qed.

Lemma group_send_nobody (group : string) (event : dict) (w : World) :
  members group w = ∅ → group_send group event w = (w, Ok tt).
Proof.
  intros Hnone. unfold group_send, modify. rewrite Hnone, set_fold_empty.
  by destruct w.
Qed.

(** ** Serializing and dispatching *)

Lemma has_text_ok (n : Notification) :
  has_text n → ∃ text, get_notification_text n = Ok text.
Proof.
  unfold has_text, get_notification_text, sender_username.
  destruct (sender n) as [u |]; intros Hkind.
  - repeat (destruct (String.eqb _ _); [by eexists |]). by eexists.
  - specialize (Hkind eq_refl). rewrite !elem_of_cons, elem_of_nil in Hkind.
    repeat match goal with
           | |- context [String.eqb ?a ?b] =>
               destruct (String.eqb_spec a b) as [Heq | _];
               [first [by eexists | exfalso; apply Hkind; tauto] |]
           end.
    by eexists.
Qed.

Lemma no_text_raises (n : Notification) :
  ¬ has_text n → get_notification_text n = Raise AttributeError.
Proof.
  unfold has_text, get_notification_text, sender_username. intros Hno.
  destruct (sender n) as [u |]; [by destruct Hno |].
  repeat match goal with
         | |- context [String.eqb ?a ?b] =>
             destruct (String.eqb_spec a b) as [_ | ?]; [done |]
         end.
  destruct Hno. intros _. rewrite !elem_of_cons, elem_of_nil. tauto.
Qed.

Import NotificationConsumer.

Section DispatchProperties.

Context (isoformat : datetime → string) (json_loads : string → Result json).


Lemma serializer_ok (n : Notification) (text : string) :
  get_notification_text n = Ok text →
  NotificationListSerializer isoformat n =
    Ok ([("id", JInt (notification_id n))] ++
        match sender n with
        | Some u => [("sender_username", JStr (username u))]
        | None => []
        end ++
        [("notification_type", JStr (notification_type n));
         ("title", JStr (title n));
         ("message", JStr (message n));
         ("notification_text", JStr text);
         ("is_read", JBool (is_read n));
         ("is_archived", JBool (is_archived n));
         ("created_at", JStr (isoformat (created_at n)))]).
Proof. intros Htext. unfold NotificationListSerializer. by rewrite Htext. Qed.

Lemma send_notification_to_user_ok (uid : Z) (n : Notification)
    (projection : dict) (w : World) :
  NotificationListSerializer isoformat n = Ok projection →
  send_notification_to_user isoformat uid n w =
    group_send (user_group uid) (notification_event projection) w.
Proof.
  intros Hdata. unfold send_notification_to_user. unfold mbind, M_bind, lift.
  by rewrite Hdata.
Qed.


(** Without a text, serialization raises before anything is sent. *)
Lemma dispatch_without_text_raises (n : Notification) (w : World) :
  ¬ has_text n →
  send_notification_to_user isoformat (user_id (recipient n)) n w =
    (w, Raise ValueError).
Proof.
  intros Hno. unfold send_notification_to_user, NotificationListSerializer.
  rewrite (no_text_raises n Hno). done.
Qed.

End DispatchProperties.


(** ** Creating notifications *)

Section CreateProperties.

Context (isoformat : datetime → string).

Lemma create_notification_run (now : datetime) (rcpt : User) (sndr : option User)
    (kind title_ message_ : string) (content : option ContentRef)
    (data_ : option dict) (w : World) :
  let row := mk_Notification (next_pk w) rcpt sndr kind title_ message_ content
               (default [] data_) false false now None in
  let stored := log_write (SqlInsert row)
                  (set_next_pk (next_pk w + 1)
                     (set_notifications (notifications w ++ [row]) w)) in
  create_notification isoformat now rcpt sndr kind title_ message_ content data_ w =
    match NotificationListSerializer isoformat row with
    | Ok projection =>
        ((group_send (user_group (user_id rcpt)) (notification_event projection)
            stored).1, Ok row)
    | Raise e => (stored, Raise e)
    end.
Proof.
  intros row stored.
  unfold create_notification, Notification_objects_create, send_notification_to_user.
  unfold mbind, M_bind, lift, mret, M_ret. fold row. fold stored.
  by destruct (NotificationListSerializer isoformat row).
Qed.

(** Whatever the kind, the row is stored; it is returned when it has a
    text; and the preferences table plays no part. *)
Lemma create_notification_stores (now : datetime) (rcpt : User)
    (sndr : option User) (kind title_ message_ : string)
    (content : option ContentRef) (data_ : option dict) (w : World) :
  let row := mk_Notification (next_pk w) rcpt sndr kind title_ message_ content
               (default [] data_) false false now None in
  ∃ w' r,
    create_notification isoformat now rcpt sndr kind title_ message_ content data_ w
      = (w', r) ∧
    notifications w' = notifications w ++ [row] ∧
    sql_log w' = sql_log w ++ [SqlInsert row] ∧
    users w' = users w ∧ next_pk w' = next_pk w + 1 ∧
    (has_text row → r = Ok row) ∧
    (∀ prefs,
       create_notification isoformat now rcpt sndr kind title_ message_ content data_
         (set_preferences prefs w) = (set_preferences prefs w', r)).
Proof.
  intros row.
  destruct (create_notification isoformat now rcpt sndr kind title_ message_
              content data_ w) as [w' r] eqn:Hrun.
  exists w', r. split; [done |].
  setoid_rewrite create_notification_run. rewrite create_notification_run in Hrun.
  simpl in *. fold row in Hrun |- *.
  destruct (NotificationListSerializer isoformat row) as [projection | e] eqn:Hdata;
    injection Hrun as <- <-.
  - by repeat split.
  - repeat split.
    intros Htext. destruct (has_text_ok row Htext) as [text Hok].
    by rewrite (serializer_ok isoformat row text Hok) in Hdata.
Qed.

(** C1, as the code has it.  [create] does not validate the kind: for
    every kind, inside the enumerated set or not, the notification is
    persisted as one new row with the field defaults, and it is returned
    when it has a text; none of this depends on the preferences table, the
    quiet hours in it included. *)
Theorem create_notification_accepts_any_kind (now : datetime) (rcpt : User)
    (sndr : option User) (kind title_ message_ : string)
    (content : option ContentRef) (data_ : option dict) (w : World) :
  let row := mk_Notification (next_pk w) rcpt sndr kind title_ message_ content
               (default [] data_) false false now None in
  ∃ w' r,
    create_notification isoformat now rcpt sndr kind title_ message_ content data_ w
      = (w', r) ∧
    notifications w' = notifications w ++ [row] ∧
    sql_log w' = sql_log w ++ [SqlInsert row] ∧
    notification_type row = kind ∧
    (has_text row → r = Ok row) ∧
    (∀ prefs,
       create_notification isoformat now rcpt sndr kind title_ message_ content data_
         (set_preferences prefs w) = (set_preferences prefs w', r)).
Proof.
  intros row.
  destruct (create_notification_stores now rcpt sndr kind title_ message_ content
              data_ w) as (w' & r & Hrun & Hrows & Hlog & _ & _ & Hok & Hprefs).
  exists w', r. by repeat split.
Qed.

End CreateProperties.

Lemma create_notification_accepts_any_kind_witness :
  ∃ w',
    create_notification sample_isoformat noon alice (Some bob) "like" "New Like"
      "bob liked your post" None None empty_world
    = (w', Ok (mk_Notification 1 alice (Some bob) "like" "New Like"
                 "bob liked your post" None [] false false noon None)).
Proof.
  destruct (create_notification_accepts_any_kind sample_isoformat noon alice
              (Some bob) "like" "New Like" "bob liked your post" None None empty_world)
    as (w' & r & Hrun & _ & _ & _ & Hok & _).
  exists w'. rewrite Hrun. f_equal. apply Hok.
  intros Hsender. simpl in Hsender. discriminate Hsender.
Defined.

(** C1, as stated, fails: a kind outside the enumerated set is accepted and
    the notification is persisted. *)
Lemma unknown_kind_is_persisted :
  ("poke" ∉ (NOTIFICATION_TYPES.*1)) ∧
  ∃ w' n,
    create_notification sample_isoformat noon alice (Some bob) "poke" "Poke"
      "bob poked you" None None empty_world = (w', Ok n) ∧
    notification_type n = "poke" ∧
    notifications empty_world = [] ∧ notifications w' = [n].
Proof.
  split.
  - simpl. rewrite !elem_of_cons, elem_of_nil.
    intros [H | [H | [H | [H | [H | H]]]]]; done.
  - eexists _, _. split; [vm_compute; reflexivity |]. by repeat split.
Qed.

(** ** Scanning for mentions *)

Example findall_mentions_names (isalnum : string → bool) :
  findall_mentions isalnum "hello @alice and @bob, @doesnotexist"
    = ["alice"; "bob"; "doesnotexist"].
Proof. reflexivity. Qed.

Example findall_mentions_corners (isalnum : string → bool) :
  findall_mentions isalnum "@@bob mail@host.org @ @_x1! trailing@"
    = ["bob"; "host"; "_x1"].
Proof. reflexivity. Qed.

(** A letter outside ASCII is part of the name. *)
Example findall_mentions_accent :
  findall_mentions sample_isalnum ("@bob" +:+ e_acute +:+ " hi")
    = ["bob" +:+ e_acute].
Proof. reflexivity. Qed.

Lemma append_nil_l (s : string) : EmptyString +:+ s = s.
Proof. reflexivity. Qed.

Lemma append_nil_r (s : string) : s +:+ EmptyString = s.
Proof.
  induction s as [| c s IH]; [done |].
  change (String c (s +:+ EmptyString) = String c s). by rewrite IH.
Qed.

Lemma append_snoc (s t : string) (c : ascii) :
  (s +:+ String c EmptyString) +:+ t = s +:+ String c t.
Proof.
  induction s as [| a s IH]; [done |].
  change (String a ((s +:+ String c EmptyString) +:+ t) = String a (s +:+ String c t)).
  by rewrite IH.
Qed.

Section ScanProperties.

Context (isalnum : string → bool).

Lemma span_word_rest_length (cs : list string) :
  (length (span_word isalnum cs).2 ≤ length cs)%nat.
Proof.
  induction cs as [| c cs IH]; simpl; [done |].
  destruct (word_char isalnum c); simpl; lia.
Qed.

Lemma span_word_none (cs : list string) :
  (span_word isalnum cs).1 = [] → (span_word isalnum cs).2 = cs.
Proof.
  destruct cs as [| c cs]; simpl; [done |]. by destruct (word_char isalnum c).
Qed.

(** Inside a word the scan reads on to the end of the word. *)
Lemma scan_mentions_in_word (word cs : list string) :
  scan_mentions isalnum (Some word) cs =
    emit (word ++ (span_word isalnum cs).1) ++
    scan_mentions isalnum None (span_word isalnum cs).2.
Proof.
  revert word. induction cs as [| c cs IH]; intros word; simpl.
  - by rewrite !app_nil_r.
  - destruct (word_char isalnum c); simpl.
    + by rewrite IH, <- app_assoc.
    + by rewrite app_nil_r.
Qed.

(** The scan computes the leftmost matches. *)
Lemma scan_mentions_leftmost (fuel : nat) (cs : list string) :
  (length cs ≤ fuel)%nat →
  scan_mentions isalnum None cs = findall_leftmost isalnum fuel cs.
Proof.
  revert cs.
  induction fuel as [| fuel IH]; intros cs Hfuel.
  - destruct cs; [done | simpl in Hfuel; lia].
  - destruct cs as [| c cs]; [done |]. simpl in Hfuel |- *.
    destruct (at_sign c); [| apply IH; lia].
    rewrite scan_mentions_in_word, app_nil_l.
    destruct (span_word isalnum cs).1 as [| a word] eqn:Hword.
    + simpl. rewrite (span_word_none cs Hword). apply IH. lia.
    + simpl. f_equal. apply IH.
      pose proof (span_word_rest_length cs). lia.
Qed.

Lemma scan_mentions_words (current : option (list string)) (cs : list string) :
  (∀ word, current = Some word → forallb (word_char isalnum) word = true) →
  Forall (is_word isalnum) (scan_mentions isalnum current cs).
Proof.
  assert (Hemit : ∀ word, forallb (word_char isalnum) word = true →
            Forall (is_word isalnum) (emit word)).
  { intros [| a word] Hword; simpl; [done |].
    apply Forall_singleton. by exists (a :: word). }
  assert (Hsnoc : ∀ word a, forallb (word_char isalnum) word = true →
            word_char isalnum a = true →
            forallb (word_char isalnum) (word ++ [a]) = true).
  { intros word a Hw Ha. rewrite forallb_app, Hw. simpl. by rewrite Ha. }
  revert current. induction cs as [| a cs IH]; intros current Hword; simpl.
  - destruct current as [word |]; [by apply Hemit, Hword | done].
  - destruct current as [word |].
    + destruct (word_char isalnum a) eqn:Ha.
      * apply IH. intros ? [= <-]. apply Hsnoc; [by apply Hword | done].
      * apply Forall_app. split; [by apply Hemit, Hword |].
        apply IH. destruct (at_sign a); [by intros ? [= <-] | done].
    + apply IH. destruct (at_sign a); [by intros ? [= <-] | done].
Qed.

End ScanProperties.

(** ** Producers *)

Lemma list_bind_nil {A B} (f : A → list B) (l : list A) :
  (∀ x, x ∈ l → f x = []) → l ≫= f = [].
Proof.
  induction l as [| x l IH]; intros Hnil; [done |].
  rewrite bind_cons, (Hnil x) by apply list_elem_of_here.
  apply IH. intros y Hy. apply Hnil. by apply list_elem_of_further.
Qed.

Lemma active_named_at_most_one (name : string) (table : list User) :
  NoDup (username <$> table) →
  active_named name table = [] ∨ ∃ u, active_named name table = [u].
Proof.
  unfold active_named.
  induction table as [| u table IH]; [by left |].
  rewrite fmap_cons. intros [Hfresh Hnodup]%NoDup_cons.
  destruct (String.eqb_spec (username u) name) as [Hname | Hname].
  - assert (Hnone : filter (λ v, String.eqb (username v) name && is_active v = true)
                      table = []).
    { destruct (filter _ table) as [| v rest] eqn:Hfilter; [done |]. exfalso.
      assert (Hv : v ∈ filter (λ v, String.eqb (username v) name && is_active v = true)
                         table) by (rewrite Hfilter; apply list_elem_of_here).
      apply list_elem_of_filter in Hv as [Hmatch Hv].
      apply andb_true_iff in Hmatch as [Heq _]. apply String.eqb_eq in Heq.
      apply Hfresh. rewrite Hname, <- Heq. by apply list_elem_of_fmap_2. }
    destruct (is_active u) eqn:Hactive.
    + right. exists u. rewrite filter_cons_True, Hnone; [done |].
      apply andb_true_iff. split; [by apply String.eqb_eq | done].
    + left. rewrite filter_cons_False, Hnone; [done |].
      rewrite Hactive, andb_false_r. done.
  - rewrite filter_cons_False; [by apply IH |].
    apply not_true_iff_false, andb_false_iff. left. by apply String.eqb_neq.
Qed.

Section ProducerProperties.

Context (isoformat : datetime → string) (isalnum : string → bool).

(** A notification created with a sender is stored, dispatched and
    returned. *)
Lemma create_notification_with_sender (now : datetime) (rcpt sndr : User)
    (kind title_ message_ : string) (content : option ContentRef)
    (data_ : option dict) (w : World) :
  ∃ w',
    create_notification isoformat now rcpt (Some sndr) kind title_ message_
      content data_ w =
      (w', Ok (mk_Notification (next_pk w) rcpt (Some sndr) kind title_ message_
                 content (default [] data_) false false now None)) ∧
    notifications w' =
      notifications w ++
      [mk_Notification (next_pk w) rcpt (Some sndr) kind title_ message_
         content (default [] data_) false false now None] ∧
    users w' = users w.
Proof.
  destruct (create_notification_stores isoformat now rcpt (Some sndr)
              kind title_ message_ content data_ w)
    as (w' & r & Hrun & Hrows & _ & Husers & _ & Hok & _).
  exists w'. by rewrite Hrun, Hok.
Qed.

(** The table's constraints survive a creation. *)
Lemma create_notification_keeps_pks (now : datetime) (rcpt : User)
    (sndr : option User) (kind title_ message_ : string)
    (content : option ContentRef) (data_ : option dict) (w : World) :
  unique_pks w → fresh_pks w →
  unique_pks (create_notification isoformat now rcpt sndr kind title_ message_
                content data_ w).1 ∧
  fresh_pks (create_notification isoformat now rcpt sndr kind title_ message_
               content data_ w).1.
Proof.
  intros Hunique Hfresh.
  destruct (create_notification_stores isoformat now rcpt sndr kind title_ message_
              content data_ w)
    as (w' & r & Hrun & Hrows & _ & _ & Hnext & _).
  rewrite Hrun. simpl. unfold unique_pks, fresh_pks in *. rewrite Hrows, Hnext.
  split.
  - rewrite fmap_app. apply NoDup_app. split; [done |]. split.
    + intros pk Hpk Hnew. simpl in Hnew. apply list_elem_of_singleton in Hnew.
      apply list_elem_of_fmap in Hpk as (n & -> & Hn).
      rewrite Forall_forall in Hfresh. specialize (Hfresh n Hn). lia.
    + simpl. apply NoDup_singleton.
  - apply Forall_app. split.
    + eapply Forall_impl; [exact Hfresh |]. intros n Hn. simpl in Hn. lia.
    + repeat constructor. simpl. lia.
Qed.

(** One turn of the loop over the matched names. *)
Lemma mention_one_run (now : datetime) (c : Comment) (name : string) (w : World) :
  ∃ w' r created,
    mention_one isoformat now c name w = (w', r) ∧
    notifications w' = notifications w ++ created ∧
    users w' = users w ∧
    Forall (is_mention_of c) created ∧
    Forall (λ n, notifiable c (recipient n) = true) created ∧
    (created = [] → w' = w) ∧
    ((∃ u v rest, active_named name (users w) = u :: v :: rest) ∨
     r = Ok tt ∧
     recipient <$> created =
       filter (λ u, notifiable c u = true) (active_named name (users w))).
Proof.
  unfold mention_one, try_except, User_objects_get, objects_get.
  unfold mbind at 1, M_bind at 1.
  destruct (active_named name (users w)) as [| u [| v rest]] eqn:Hfound.
  - exists w, (Ok tt), []. rewrite app_nil_r. repeat split; try done. by right.
  - destruct (notifiable c u) eqn:Hnotify.
    + unfold notifiable in Hnotify. apply andb_true_iff in Hnotify as [Ha Hp].
      rewrite Ha, Hp.
      match goal with
      | |- context [create_notification ?f ?t ?r (Some ?s) ?k ?ti ?m ?co ?d] =>
          destruct (create_notification_with_sender t r s k ti m co d w)
            as (w' & Hrun & Hrows & Husers)
      end.
      eexists w', (Ok tt), [_].
      unfold mbind, M_bind. rewrite Hrun. unfold mret, M_ret.
      split; [done |]. split; [exact Hrows |]. split; [done |].
      split; [by repeat constructor |].
      split; [repeat constructor; simpl; unfold notifiable; by rewrite Ha, Hp |].
      split; [done |].
      right. split; [done |].
      rewrite filter_cons_True; [done |].
      unfold notifiable. by rewrite Ha, Hp.
    + exists w, (Ok tt), []. rewrite app_nil_r.
      split.
      * unfold notifiable in Hnotify.
        destruct (negb (user_eqb u (comment_author c))); [| done].
        simpl in Hnotify. by rewrite Hnotify.
      * repeat split; try done. right. split; [done |].
        rewrite filter_cons_False; [done |]. by rewrite Hnotify.
  - exists w, (Raise MultipleObjectsReturned), []. rewrite app_nil_r.
    repeat split; try done. left. eauto.
Qed.

Lemma mentions_loop (now : datetime) (c : Comment) (names : list string) (w : World) :
  ∃ w' r created,
    for_each names (mention_one isoformat now c) w = (w', r) ∧
    notifications w' = notifications w ++ created ∧
    users w' = users w ∧
    Forall (is_mention_of c) created ∧
    Forall (λ n, notifiable c (recipient n) = true) created ∧
    (created = [] → w' = w) ∧
    (unique_usernames w →
       r = Ok tt ∧
       recipient <$> created =
         names ≫= λ name,
           filter (λ u, notifiable c u = true) (active_named name (users w))).
Proof.
  revert w. induction names as [| name names IH]; intros w.
  - exists w, (Ok tt), []. rewrite app_nil_r. by repeat split.
  - destruct (mention_one_run now c name w)
      as (w1 & r1 & created1 & Hrun1 & Hrows1 & Husers1 & Hkind1 & Hok1 & Hsame1
          & Hcase1).
    simpl. unfold mbind at 1, M_bind at 1. rewrite Hrun1.
    destruct r1 as [[] | e].
    + destruct (IH w1)
        as (w2 & r2 & created2 & Hrun2 & Hrows2 & Husers2 & Hkind2 & Hok2 & Hsame2
            & Hcase2).
      exists w2, r2, (created1 ++ created2).
      split; [done |].
      split; [by rewrite Hrows2, Hrows1, app_assoc |].
      split; [by rewrite Husers2 |].
      split; [by apply Forall_app |].
      split; [by apply Forall_app |].
      split; [intros [-> ->]%app_eq_nil; by rewrite Hsame2, Hsame1 |].
      intros Hunique.
      destruct Hcase1 as [(u & v & rest & Hmany) | [_ Hrcpt1]].
      { destruct (active_named_at_most_one name (users w) Hunique) as [Hnone | [x Hone]];
          congruence. }
      destruct Hcase2 as [-> Hrcpt2]; [unfold unique_usernames; by rewrite Husers1 |].
      split; [done |].
      rewrite fmap_app, Hrcpt1, Hrcpt2, Husers1. done.
    + exists w1, (Raise e), created1.
      repeat split; try done.
      all: destruct Hcase1 as [(u & v & rest & Hmany) | [Hr _]]; [| done].
      all: destruct (active_named_at_most_one name (users w) H) as [Hnone | [x Hone]];
        congruence.
Qed.

(** C3, as the code has it.  The names scanned from the comment are the
    leftmost matches of [@] followed by word characters, each of one or more
    word characters.  With unique usernames, the handler of a new comment
    never raises, and it creates one mention notification for every match
    whose name is that of an active user other than the comment's author and
    the post's author: a name matched several times yields as many
    notifications, a name of no active user yields none. *)
Theorem mentions_notify_every_match (now : datetime) (c : Comment) (w : World) :
  unique_usernames w →
  findall_mentions isalnum (comment_content c) =
    findall_leftmost isalnum (str_len (comment_content c))
      (characters (comment_content c)) ∧
  Forall (is_word isalnum) (findall_mentions isalnum (comment_content c)) ∧
  ∃ w' created,
    create_mention_notifications isoformat isalnum now c true w = (w', Ok tt) ∧
    notifications w' = notifications w ++ created ∧
    recipient <$> created = mention_targets isalnum c (users w) ∧
    Forall (is_mention_of c) created.
Proof.
  intros Hunique. split; [by apply scan_mentions_leftmost |].
  split; [by apply scan_mentions_words |].
  unfold create_mention_notifications.
  destruct (mentions_loop now c (findall_mentions isalnum (comment_content c)) w)
    as (w' & r & created & Hrun & Hrows & _ & Hkind & _ & _ & Hcase).
  destruct (Hcase Hunique) as [-> Hrcpt].
  by exists w', created.
Qed.

(** C9. Self-directed events create no notification.  The handler of a
    like by the post's author and the handler of a comment by the post's
    author leave the world as it was.  No notification that the mention
    handler creates is addressed to the comment's author; when every matched
    name is the author's the handler leaves the world as it was, and so does
    the whole save of such a comment by the post's author. *)
Theorem self_directed_events_create_nothing (now : datetime) (w : World) :
  (∀ l created,
     user_id (like_user l) = user_id (post_author (like_post l)) →
     create_like_notification isoformat now l created w = (w, Ok tt)) ∧
  (∀ c created,
     user_id (comment_author c) = user_id (post_author (comment_post c)) →
     create_comment_notification isoformat now c created w = (w, Ok tt)) ∧
  (∀ c created, ∃ w' r new,
     create_mention_notifications isoformat isalnum now c created w = (w', r) ∧
     notifications w' = notifications w ++ new ∧
     Forall (λ n, user_id (recipient n) ≠ user_id (comment_author c)) new) ∧
  (∀ c created,
     unique_usernames w →
     (∀ name u, name ∈ findall_mentions isalnum (comment_content c) →
                u ∈ active_named name (users w) →
                user_id u = user_id (comment_author c)) →
     create_mention_notifications isoformat isalnum now c created w = (w, Ok tt) ∧
     (user_id (comment_author c) = user_id (post_author (comment_post c)) →
      comment_post_save isoformat isalnum now c created w = (w, Ok tt))).
Proof.
  split; [| split; [| split]].
  - intros l created Hself. unfold create_like_notification, user_eqb.
    rewrite (bool_decide_eq_true_2 _ Hself). by destruct created.
  - intros c created Hself. unfold create_comment_notification, user_eqb.
    rewrite (bool_decide_eq_true_2 _ Hself). by destruct created.
  - intros c created. unfold create_mention_notifications.
    destruct created.
    + destruct (mentions_loop now c (findall_mentions isalnum (comment_content c)) w)
        as (w' & r & new & Hrun & Hrows & _ & _ & Hok & _ & _).
      exists w', r, new. repeat split; [done | done |].
      eapply Forall_impl; [exact Hok |]. intros n Hn Hself.
      unfold notifiable, user_eqb in Hn.
      by rewrite (bool_decide_eq_true_2 _ Hself) in Hn.
    + exists w, (Ok tt), []. by rewrite app_nil_r.
  - intros c created Hunique Hself.
    assert (Hmention :
      create_mention_notifications isoformat isalnum now c created w = (w, Ok tt));
      [| split; [done |]; intros Hown; unfold comment_post_save, mbind, M_bind;
         unfold create_comment_notification, user_eqb;
         rewrite (bool_decide_eq_true_2 _ Hown); by destruct created].
    unfold create_mention_notifications.
    destruct created; [| done].
    destruct (mentions_loop now c (findall_mentions isalnum (comment_content c)) w)
      as (w' & r & new & Hrun & Hrows & Husers & _ & _ & Hsame & Hcase).
    destruct (Hcase Hunique) as [-> Hrcpt].
    assert (new = []) as ->.
    { apply fmap_nil_inv with (f := recipient). rewrite Hrcpt.
      apply list_bind_nil. intros name Hname.
      destruct (filter _ _) as [| u rest] eqn:Hfilter; [done |]. exfalso.
      assert (Hu : u ∈ filter (λ u, notifiable c u = true)
                         (active_named name (users w)))
        by (rewrite Hfilter; apply list_elem_of_here).
      apply list_elem_of_filter in Hu as [Hok Hu].
      unfold notifiable, user_eqb in Hok.
      by rewrite (bool_decide_eq_true_2 _ (Hself name u Hname Hu)) in Hok. }
    by rewrite Hrun, Hsame.
Qed.

End ProducerProperties.

Lemma sample_usernames_unique (t : list Notification) (k : Z)
    (p : gmap Z NotificationPreference) (l : list SqlWrite)
    (g : gmap string (gset string)) (q : gmap string (list dict)) :
  unique_usernames (mk_World [alice; bob; carol] t k p l g q).
Proof.
  unfold unique_usernames. simpl.
  apply (bool_decide_unpack (NoDup ["alice"; "bob"; "carol"])). vm_compute. exact I.
Qed.

Lemma mentions_notify_every_match_witness :
  ∃ w' created,
    create_mention_notifications sample_isoformat sample_isalnum noon
      carols_comment true empty_world = (w', Ok tt) ∧
    notifications w' = notifications empty_world ++ created ∧
    recipient <$> created
      = mention_targets sample_isalnum carols_comment (users empty_world).
Proof.
  destruct (mentions_notify_every_match sample_isoformat sample_isalnum noon
              carols_comment empty_world)
    as (_ & _ & w' & created & Hrun & Hrows & Hrcpt & _).
  - apply sample_usernames_unique.
  - exists w', created. repeat split; assumption.
Defined.

(** C3, as stated, fails: a name matched twice in one comment yields two
    notifications for that user.  (The comment is ASCII, so the Unicode
    table plays no part.) *)
Lemma repeated_mention_notifies_twice :
  findall_mentions sample_isalnum (comment_content carols_comment)
    = ["alice"; "alice"] ∧
  ∃ w' n1 n2,
    create_mention_notifications sample_isoformat sample_isalnum noon
      carols_comment true empty_world = (w', Ok tt) ∧
    notifications w' = [n1; n2] ∧
    recipient n1 = alice ∧ recipient n2 = alice ∧
    notification_id n1 ≠ notification_id n2.
Proof.
  split; [reflexivity |].
  eexists _, _, _. split; [vm_compute; reflexivity |].
  repeat split. done.
Qed.

Lemma self_directed_events_create_nothing_witness :
  create_like_notification sample_isoformat noon own_like true inbox = (inbox, Ok tt) ∧
  create_comment_notification sample_isoformat noon own_comment true inbox
    = (inbox, Ok tt) ∧
  create_mention_notifications sample_isoformat sample_isalnum noon own_comment true inbox
    = (inbox, Ok tt) ∧
  comment_post_save sample_isoformat sample_isalnum noon own_comment true inbox = (inbox, Ok tt).
Proof.
  destruct (self_directed_events_create_nothing sample_isoformat sample_isalnum noon inbox)
    as (Hlike & Hcomment & _ & Hmention).
  split; [| split].
  - apply Hlike. reflexivity.
  - apply Hcomment. reflexivity.
  - destruct (Hmention own_comment true) as [Hnone Hsave].
    + apply sample_usernames_unique.
    + intros name u Hname Hu. vm_compute in Hname.
      apply list_elem_of_singleton in Hname. subst name.
      vm_compute in Hu. apply list_elem_of_singleton in Hu. subst u. reflexivity.
    + split; [exact Hnone | apply Hsave; reflexivity].
Defined.

(** ** The websocket consumer *)

Lemma json_is_str_spec (v : option json) (literal : string) :
  json_is_str v literal = true ↔ v = Some (JStr literal).
Proof.
  unfold json_is_str. destruct v as [[] |]; try (split; [done | congruence]).
  rewrite String.eqb_eq. split; congruence.
Qed.

Section ConsumerProperties.

Context (json_loads : string → Result json).

Lemma appended_none (self self' : Consumer) :
  socket self' ≠ Connecting → sent self' = sent self → appended self self'.
Proof. intros Hstate Hsent. split; [done |]. exists []. by rewrite app_nil_r. Qed.

Lemma appended_one (self : Consumer) (frame : dict) :
  socket self ≠ Connecting → is_established frame = false →
  appended self (send frame self).
Proof. intros Hstate Hframe. split; [done |]. exists [frame]. by repeat constructor. Qed.

(** What a handler may add to the socket: frames that are not the
    acknowledgment; and it never takes the socket back to [Connecting]. *)
Lemma handle_appends (self : Consumer) (ev : SocketEvent) (w : World) :
  socket self ≠ Connecting →
  match handle json_loads self ev w with
  | (_, Ok self') => appended self self'
  | (_, Raise _) => True
  end.
Proof.
  intros Hstate.
  assert (Hnone : appended self self) by (by apply appended_none).
  assert (Hone : ∀ frame, is_established frame = false →
                          appended self (send frame self))
    by (intros; by apply appended_one).
  assert (Hclosed : appended self (close self)) by (by apply appended_none).
  unfold handle.
  destruct (socket self); [done | |].
  - destruct ev as [| text_data | code |].
    + exact Hnone.
    + unfold receive.
      destruct (json_loads text_data) as [[| | | | | | d] | e];
        try exact I; [| destruct e; first [exact I | by apply Hone]].
      destruct (json_is_str (dict_get "type" d) "ping"); [by apply Hone |].
      destruct (json_is_str (dict_get "type" d) "get_notifications");
        [| exact Hnone].
      unfold get_unread_count, count_unread.
      destruct (scope_user self); [exact I |]. by apply Hone.
    + unfold disconnect. destruct (user_group_name self); [| exact I].
      exact Hclosed.
    + unfold mbind, M_bind, next_message.
      destruct (queues w !! channel_name self) as [[| event rest] |];
        try exact Hnone.
      unfold dispatch.
      destruct (json_is_str (dict_get "type" event) "notification_message").
      { unfold notification_message, subscript, mbind, M_bind.
        destruct (dict_get "notification" event); [by apply Hone | exact I]. }
      destruct (json_is_str (dict_get "type" event) "notification_update");
        [| exact I].
      unfold notification_update, subscript, mbind, M_bind.
      destruct (dict_get "notification_id" event); [| exact I].
      destruct (dict_get "update_data" event); [by apply Hone | exact I].
  - destruct ev as [| text_data | code |]; try exact Hnone.
    unfold disconnect. destruct (user_group_name self); [| exact I].
    exact Hnone.
Qed.

Lemma act_keeps_acknowledgment (first : dict) (a : Action) (cw : Consumer * World) :
  socket cw.1 ≠ Connecting →
  (∃ rest, sent cw.1 = first :: rest ∧
           Forall (λ frame, is_established frame = false) rest) →
  socket (act json_loads a cw).1 ≠ Connecting ∧
  ∃ rest, sent (act json_loads a cw).1 = first :: rest ∧
          Forall (λ frame, is_established frame = false) rest.
Proof.
  destruct cw as [self w]. simpl. intros Hstate (rest & Hsent & Hrest).
  destruct a as [ev | change]; simpl; [| by eauto].
  unfold NotificationConsumer.step. simpl.
  pose proof (handle_appends self ev w Hstate) as Hhandle.
  destruct (handle json_loads self ev w) as [w' [self' | e]]; simpl.
  - destruct Hhandle as (Hstate' & extra & Hsent' & Hextra).
    split; [done |]. exists (rest ++ extra).
    rewrite Hsent', Hsent. split; [done | by apply Forall_app].
  - split; [done |]. by exists rest.
Qed.

Lemma run_keeps_acknowledgment (first : dict) (trace : list Action)
    (cw : Consumer * World) :
  socket cw.1 ≠ Connecting →
  (∃ rest, sent cw.1 = first :: rest ∧
           Forall (λ frame, is_established frame = false) rest) →
  ∃ rest, sent (run json_loads trace cw).1 = first :: rest ∧
          Forall (λ frame, is_established frame = false) rest.
Proof.
  revert cw. induction trace as [| a trace IH]; intros cw Hstate Hsent; [done |].
  unfold NotificationConsumer.run. simpl.
  destruct (act_keeps_acknowledgment first a cw Hstate Hsent) as [Hstate' Hsent'].
  by apply IH.
Qed.

(** A refused connection stays closed and silent, and changes nothing. *)
Lemma run_refused (trace : list Action) (self : Consumer) (w : World) :
  socket self = Closed → sent self = [] → user_group_name self = None →
  socket (run json_loads trace (self, w)).1 = Closed ∧
  sent (run json_loads trace (self, w)).1 = [] ∧
  (run json_loads trace (self, w)).2 = elsewhere_only trace w.
Proof.
  revert self w. induction trace as [| a trace IH]; intros self w Hs Hsent Hgroup;
    [done |].
  unfold NotificationConsumer.run, elsewhere_only. simpl.
  destruct a as [ev | change]; simpl; [| by apply IH].
  assert (Hstep : step json_loads ev (self, w) = (self, w) ∨ step json_loads ev (self, w) = (close self, w)).
  { unfold NotificationConsumer.step, handle. simpl. rewrite Hs.
    destruct ev; try (by left).
    unfold disconnect. rewrite Hgroup. by right. }
  destruct Hstep as [-> | ->]; by apply IH.
Qed.

End ConsumerProperties.

Section ConnectionLifecycle.

Context (json_loads : string → Result json).

(** C7. Take a connection before its handshake and any course of events
    after its connect event, its own and those of the rest of the system.
    If the handshake resolved to the anonymous user, the socket ends closed
    whatever the events, so it is never open; nothing was ever sent on it;
    and the world is what the rest of the system made of it, so the
    connection was registered in no group.  If it resolved to a user, the
    connect event opens the socket, registers the channel in the user's
    group and sends the acknowledgment with the user's id; and whatever
    follows, the acknowledgment is the first frame sent and no later frame
    is an acknowledgment. *)
Theorem handshake_lifecycle (self : Consumer) (w : World) (trace : list Action) :
  socket self = Connecting → sent self = [] → user_group_name self = None →
  let connected := step json_loads WebsocketConnect (self, w) in
  let final := run json_loads (Transport WebsocketConnect :: trace) (self, w) in
  match scope_user self with
  | AnonymousUser =>
      socket final.1 = Closed ∧ sent final.1 = [] ∧
      final.2 = elsewhere_only trace w
  | Authenticated user =>
      socket connected.1 = Open ∧
      sent connected.1 = [established_frame user] ∧
      dict_get "user_id" (established_frame user) = Some (JInt (user_id user)) ∧
      channel_name self ∈ members (user_group (user_id user)) connected.2 ∧
      ∃ rest, sent final.1 = established_frame user :: rest ∧
              Forall (λ frame, is_established frame = false) rest
  end.
Proof.
  intros Hstate Hsent Hgroup connected final.
  assert (Hfinal : final = run json_loads trace connected) by done.
  destruct (scope_user self) as [| user] eqn:Hwho.
  - assert (Hconnected : connected = (close self, w)).
    { unfold connected, step, handle, connect. simpl. by rewrite Hstate, Hwho. }
    rewrite Hfinal, Hconnected. by apply run_refused.
  - assert (Hconnected : connected.1 =
              mk_Consumer (Authenticated user) (channel_name self)
                (Some (user_group (user_id user))) Open [established_frame user] ∧
            groups connected.2 =
              <[user_group (user_id user) :=
                  {[channel_name self]} ∪ members (user_group (user_id user)) w]>
                (groups w)).
    { unfold connected, step, handle, connect. simpl. rewrite Hstate, Hwho.
      unfold mbind, M_bind, group_add, modify, mret, M_ret, send, accept,
        set_user_group_name. simpl. by rewrite Hsent, Hwho. }
    destruct Hconnected as [Hself Hgroups].
    split; [by rewrite Hself |]. split; [by rewrite Hself |]. split; [done |].
    split.
    + unfold members at 1. rewrite Hgroups, lookup_insert_eq. simpl.
      apply elem_of_union_l. by apply elem_of_singleton_2.
    + rewrite Hfinal. apply run_keeps_acknowledgment.
      * by rewrite Hself.
      * exists []. by rewrite Hself.
Qed.

(** C8, as the code has it.  On an open connection no payload changes the
    world.  A payload that [json.loads] rejects as not being JSON is
    answered with an [error] frame and the connection stays open; a [ping]
    is answered with a [pong] that carries the timestamp of the ping as it
    was received; a [get_notifications] is answered with the number of
    unread notifications of the connection's user; an object with any other
    type, or none, leaves the connection exactly as it was.  But a payload
    that parses to anything other than an object (an array, a number, a
    string, [null]) is not ignored: the handler raises [AttributeError],
    nothing is sent and the connection ends; and so does a payload on which
    [json.loads] raises anything but [JSONDecodeError]. *)
Theorem receive_replies (self : Consumer) (w : World) (text_data : string) :
  socket self = Open →
  let after := step json_loads (WebsocketReceive text_data) (self, w) in
  after.2 = w ∧
  (json_loads text_data = Raise JSONDecodeError →
     socket after.1 = Open ∧ sent after.1 = sent self ++ [error_frame] ∧
     dict_get "type" error_frame = Some (JStr "error")) ∧
  (∀ payload, json_loads text_data = Ok (JDict payload) →
     dict_get "type" payload = Some (JStr "ping") →
     socket after.1 = Open ∧
     ∃ frame,
       sent after.1 = sent self ++ [frame] ∧
       dict_get "type" frame = Some (JStr "pong") ∧
       dict_get "timestamp" frame
         = Some (default JNull (dict_get "timestamp" payload))) ∧
  (∀ payload user, json_loads text_data = Ok (JDict payload) →
     dict_get "type" payload = Some (JStr "get_notifications") →
     scope_user self = Authenticated user →
     socket after.1 = Open ∧
     ∃ frame,
       sent after.1 = sent self ++ [frame] ∧
       dict_get "type" frame = Some (JStr "notifications_count") ∧
       dict_get "unread_count" frame
         = Some (JInt (Z.of_nat (length (rows_of user unread (notifications w)))))) ∧
  (∀ payload, json_loads text_data = Ok (JDict payload) →
     dict_get "type" payload ≠ Some (JStr "ping") →
     dict_get "type" payload ≠ Some (JStr "get_notifications") →
     after = (self, w)) ∧
  (∀ parsed, json_loads text_data = Ok parsed →
     (∀ payload, parsed ≠ JDict payload) →
     receive json_loads self text_data w = (w, Raise AttributeError) ∧
     socket after.1 = Closed ∧ sent after.1 = sent self) ∧
  (∀ e, json_loads text_data = Raise e → e ≠ JSONDecodeError →
     receive json_loads self text_data w = (w, Raise e) ∧
     socket after.1 = Closed ∧ sent after.1 = sent self).
Proof.
  intros Hopen after.
  unfold after, step, handle, receive. simpl. rewrite Hopen.
  split.
  { destruct (json_loads text_data) as [[| | | | | | payload] | []]; try done.
    destruct (json_is_str _ "ping"); [done |].
    destruct (json_is_str _ "get_notifications"); [| done].
    unfold get_unread_count, count_unread. by destruct (scope_user self). }
  split; [intros Hbad; rewrite Hbad; simpl; done |].
  split.
  { intros payload Hparsed Hping. rewrite Hparsed.
    apply json_is_str_spec in Hping. rewrite Hping. simpl.
    split; [done |]. by eexists. }
  split.
  { intros payload user Hparsed Hget Huser. rewrite Hparsed.
    rewrite Hget. simpl. unfold get_unread_count, count_unread. rewrite Huser.
    simpl. split; [done |]. by eexists. }
  split.
  { intros payload Hparsed Hping Hget. rewrite Hparsed.
    rewrite <- json_is_str_spec in Hping, Hget.
    apply not_true_is_false in Hping, Hget. by rewrite Hping, Hget. }
  split.
  { intros parsed Hparsed Hother. rewrite Hparsed.
    destruct parsed as [| | | | | | payload]; try done.
    by destruct (Hother payload). }
  intros e Hraised Hne. rewrite Hraised. by destruct e.
Qed.

End ConnectionLifecycle.

Lemma handshake_lifecycle_witness :
  (let final :=
     run sample_loads
       [Transport WebsocketConnect; Transport (WebsocketReceive ping_text);
        Transport (WebsocketDisconnect 1000)]
       (fresh AnonymousUser "guest", two_devices) in
   socket final.1 = Closed ∧ sent final.1 = [] ∧ final.2 = two_devices) ∧
  (∃ rest,
     sent (run sample_loads
             [Transport WebsocketConnect; Transport (WebsocketReceive ping_text)]
             (fresh (Authenticated alice) "phone", empty_world)).1
       = established_frame alice :: rest ∧
     Forall (λ frame, is_established frame = false) rest).
Proof.
  split.
  - apply (handshake_lifecycle sample_loads (fresh AnonymousUser "guest") two_devices
             [Transport (WebsocketReceive ping_text);
              Transport (WebsocketDisconnect 1000)]);
      reflexivity.
  - destruct (handshake_lifecycle sample_loads (fresh (Authenticated alice) "phone")
                empty_world [Transport (WebsocketReceive ping_text)]
                eq_refl eq_refl eq_refl)
      as (_ & _ & _ & _ & Hrest).
    exact Hrest.
Defined.

Lemma receive_replies_witness :
  socket (step sample_loads (WebsocketReceive "[]") (alice_phone, inbox)).1 = Closed ∧
  sent (step sample_loads (WebsocketReceive "[]") (alice_phone, inbox)).1
    = sent alice_phone ∧
  socket (step sample_loads (WebsocketReceive (ones 5000)) (alice_phone, inbox)).1
    = Closed ∧
  socket (step sample_loads (WebsocketReceive "{}") (alice_phone, inbox)).1 = Open ∧
  ∃ frame,
    sent (step sample_loads (WebsocketReceive ping_text) (alice_phone, inbox)).1
      = sent alice_phone ++ [frame] ∧
    dict_get "timestamp" frame = Some (JInt 7).
Proof.
  destruct (receive_replies sample_loads alice_phone inbox "[]" eq_refl)
    as (_ & _ & _ & _ & _ & Hlist & _).
  destruct (Hlist (JList [])) as (_ & Hclosed & Hsilent); [reflexivity | done |].
  destruct (receive_replies sample_loads alice_phone inbox (ones 5000) eq_refl)
    as (_ & _ & _ & _ & _ & _ & Hhuge).
  destruct (Hhuge ValueError) as (_ & Hended & _);
    [vm_compute; reflexivity | done |].
  destruct (receive_replies sample_loads alice_phone inbox "{}" eq_refl)
    as (_ & _ & _ & _ & Hobject & _).
  destruct (receive_replies sample_loads alice_phone inbox ping_text eq_refl)
    as (_ & _ & Hping & _).
  destruct (Hping [("type", JStr "ping"); ("timestamp", JInt 7)])
    as (_ & frame & Hsent & _ & Hts); [vm_compute; reflexivity | reflexivity |].
  split; [exact Hclosed |]. split; [exact Hsilent |]. split; [exact Hended |].
  split.
  - rewrite (Hobject []); [reflexivity | reflexivity | discriminate | discriminate].
  - exists frame. split; assumption.
Defined.

(** * Further properties of the code *)

(** ** Excerpts *)

Lemma characters_head (s : string) :
  starts_with_continuation (default EmptyString (head (characters s)))
    = starts_with_continuation s.
Proof.
  destruct s as [| b rest]; [done |]. simpl.
  destruct (characters rest) as [| c cs]; [done |].
  by destruct (starts_with_continuation c).
Qed.

(** The split loses nothing. *)
Lemma str_join_characters (s : string) : str_join (characters s) = s.
Proof.
  induction s as [| b rest IH]; [done |]. simpl.
  destruct (characters rest) as [| c cs].
  - simpl in IH. by rewrite <- IH.
  - destruct (starts_with_continuation c); rewrite <- IH; reflexivity.
Qed.

Lemma characters_nil (s : string) : characters s = [] → s = EmptyString.
Proof. intros Hnone. by rewrite <- (str_join_characters s), Hnone. Qed.

(** Every part of the split is a character, and each but the first starts
    with a byte that is no continuation byte. *)
Lemma characters_wf (s : string) :
  Forall is_character (characters s) ∧
  Forall (λ c, starts_with_continuation c = false) (tail (characters s)).
Proof.
  induction s as [| b rest [IHc IHt]]; [by split |]. simpl.
  destruct (characters rest) as [| c cs]; [by split; repeat constructor |].
  apply Forall_cons in IHc as [Hc Hcs]. simpl in IHt.
  destruct (starts_with_continuation c) eqn:Hstart.
  - split; [| done]. constructor; [| done].
    destruct c as [| b' t]; [done |]. simpl in *. by rewrite Hstart, Hc.
  - split; [by repeat constructor |]. simpl. by constructor.
Qed.

Lemma characters_cons (b : ascii) (t rest : string) :
  all_continuation t = true → starts_with_continuation rest = false →
  characters (String b (t +:+ rest)) = String b t :: characters rest.
Proof.
  revert b. induction t as [| b' t IH]; intros b Hcont Hrest.
  - rewrite append_nil_l. simpl.
    pose proof (characters_head rest) as Hhead. rewrite Hrest in Hhead.
    destruct (characters rest) as [| c cs]; [done |]. simpl in Hhead.
    by rewrite Hhead.
  - simpl in Hcont. apply andb_true_iff in Hcont as [Hb' Hcont].
    change (characters (String b (String b' (t +:+ rest)))
            = String b (String b' t) :: characters rest).
    change (characters (String b (String b' (t +:+ rest))))
      with (match characters (String b' (t +:+ rest)) with
            | c :: cs =>
                if starts_with_continuation c then String b c :: cs
                else String b EmptyString :: c :: cs
            | [] => [String b EmptyString]
            end).
    rewrite (IH b' Hcont Hrest). simpl. by rewrite Hb'.
Qed.

Lemma characters_join (cs : list string) :
  Forall is_character cs →
  Forall (λ c, starts_with_continuation c = false) (tail cs) →
  characters (str_join cs) = cs.
Proof.
  induction cs as [| c cs IH]; intros Hchars Hstarts; [done |].
  apply Forall_cons in Hchars as [Hc Hchars]. simpl in Hstarts.
  destruct c as [| b t]; [done |]. simpl in Hc.
  change (str_join (String b t :: cs)) with (String b (t +:+ str_join cs)).
  rewrite characters_cons; [| done |].
  - f_equal. apply IH; [done |]. destruct cs; [done |].
    by apply Forall_cons in Hstarts as [_ Hstarts].
  - destruct cs as [| c' cs']; [done |].
    apply Forall_cons in Hstarts as [Hc' _], Hchars as [Hchar' _].
    by destruct c'.
Qed.

(** The characters of a slice are the first characters. *)
Lemma characters_slice (n : nat) (s : string) :
  characters (str_slice n s) = take n (characters s).
Proof.
  unfold str_slice. destruct (characters_wf s) as [Hchars Hstarts].
  apply characters_join; [by apply Forall_take |].
  destruct n as [| n]; [done |].
  destruct (characters s) as [| c cs]; [done |]. simpl in *.
  by apply Forall_take.
Qed.

Lemma characters_app (s t : string) :
  starts_with_continuation t = false →
  characters (s +:+ t) = characters s ++ characters t.
Proof.
  intros Ht. induction s as [| b s IH]; [done |].
  change (characters (String b s +:+ t))
    with (match characters (s +:+ t) with
          | c :: cs =>
              if starts_with_continuation c then String b c :: cs
              else String b EmptyString :: c :: cs
          | [] => [String b EmptyString]
          end).
  rewrite IH. simpl.
  destruct (characters s) as [| c cs] eqn:Hs.
  - simpl. pose proof (characters_head t) as Hhead. rewrite Ht in Hhead.
    destruct (characters t) as [| c cs]; [done |]. simpl in Hhead.
    by rewrite Hhead.
  - simpl. by destruct (starts_with_continuation c).
Qed.

(** A character outside ASCII counts as one: a content of 49 letters and
    an accented one is kept whole. *)
Example excerpt_counts_characters :
  str_len (ones 49 +:+ e_acute) = 50%nat ∧
  excerpt (ones 49 +:+ e_acute) = ones 49 +:+ e_acute.
Proof. split; reflexivity. Qed.

(** X1. The excerpt counts and cuts by characters, not bytes.  The excerpt
    of a content of at most 50 characters is the content itself; of a longer
    one it is its first 50 characters followed by three dots.  So an
    excerpt has at most 53 characters and always starts as the content
    does. *)
Theorem excerpt_bounds (content : string) :
  ((str_len content ≤ 50)%nat → excerpt content = content) ∧
  ((50 < str_len content)%nat →
     excerpt content = str_slice 50 content +:+ "..." ∧
     characters (excerpt content)
       = take 50 (characters content) ++ ["."; "."; "."] ∧
     str_len (excerpt content) = 53%nat) ∧
  (str_len (excerpt content) ≤ 53)%nat ∧
  str_slice 50 (excerpt content) = str_slice 50 content ∧
  str_join (characters content) = content.
Proof.
  assert (Hlong : (50 < str_len content)%nat →
    characters (str_slice 50 content +:+ "...")
      = take 50 (characters content) ++ ["."; "."; "."]).
  { intros _. rewrite characters_app by done. by rewrite characters_slice. }
  unfold excerpt.
  destruct (Nat.ltb_spec 50 (str_len content)) as [Hmore | Hless].
  - specialize (Hlong Hmore).
    assert (Hlen : str_len (str_slice 50 content +:+ "...") = 53%nat).
    { unfold str_len in *. rewrite Hlong, length_app, length_take_le; simpl; lia. }
    split; [lia |]. split; [done |]. split; [lia |].
    split; [| apply str_join_characters].
    unfold str_slice at 1 3. rewrite Hlong.
    rewrite take_app_length'; [done |].
    unfold str_len in Hmore. rewrite length_take_le; lia.
  - split; [done |]. split; [lia |]. split; [lia |].
    split; [done | apply str_join_characters].
Qed.

Lemma excerpt_bounds_witness :
  excerpt "short enough" = "short enough" ∧
  str_len
    (excerpt "a post that goes on and on, well past the fifty characters kept")
    = 53%nat.
Proof.
  split.
  - destruct (excerpt_bounds "short enough") as (Hshort & _).
    apply Hshort. apply Nat.leb_le. reflexivity.
  - destruct (excerpt_bounds
                "a post that goes on and on, well past the fifty characters kept")
      as (_ & Hlong & _).
    apply Hlong. apply Nat.ltb_lt. reflexivity.
Defined.

(** ** Preferences *)

(** X2. [should_send_notification] looks up the attribute named by the
    method and the kind.  The flags are named in the plural, so for the
    kinds follow, like, comment and mention the attribute does not exist and
    the answer is the default, true, whatever the stored flags; for the kind
    system, and for the plural names, the answer is the stored flag; a method
    other than email, push and in_app is always allowed. *)
Theorem should_send_notification_names (p : NotificationPreference) :
  (∀ kind method,
     kind ∈ ["follow"; "like"; "comment"; "mention"] →
     should_send_notification p kind method = true) ∧
  (should_send_notification p "system" "email" = email_system p ∧
   should_send_notification p "system" "push" = push_system p ∧
   should_send_notification p "system" "in_app" = in_app_system p) ∧
  (should_send_notification p "follows" "email" = email_follows p ∧
   should_send_notification p "likes" "push" = push_likes p ∧
   should_send_notification p "comments" "in_app" = in_app_comments p ∧
   should_send_notification p "mentions" "in_app" = in_app_mentions p) ∧
  (∀ kind method,
     method ∉ ["email"; "push"; "in_app"] →
     should_send_notification p kind method = true).
Proof.
  split; [| split; [| split]].
  - intros kind method Hkind. unfold should_send_notification.
    rewrite !elem_of_cons, elem_of_nil in Hkind.
    destruct Hkind as [-> | [-> | [-> | [-> | []]]]];
      repeat (destruct (String.eqb method _); [reflexivity |]); reflexivity.
  - by repeat split.
  - by repeat split.
  - intros kind method Hmethod. unfold should_send_notification.
    rewrite !elem_of_cons, elem_of_nil in Hmethod.
    repeat match goal with
           | |- context [String.eqb method ?m] =>
               destruct (String.eqb_spec method m) as [-> | _]; [tauto |]
           end.
    done.
Qed.

Lemma should_send_notification_names_witness :
  should_send_notification
    (mk_NotificationPreference false false false false false
       false false false false false
       false false false false false
       false None None) "follow" "email" = true.
Proof.
  destruct (should_send_notification_names
              (mk_NotificationPreference false false false false false
                 false false false false false
                 false false false false false
                 false None None)) as (Hsingular & _).
  apply Hsingular. apply list_elem_of_here.
Defined.

Lemma getattr_flag_default (name : string) :
  getattr_flag default_preference name = true.
Proof.
  unfold getattr_flag.
  destruct (list_find _ _) as [[i [k b]] |] eqn:Hfind; [| done].
  apply list_find_Some in Hfind as (Hin & _ & _).
  apply list_elem_of_lookup_2 in Hin. simpl in Hin.
  rewrite !elem_of_cons, elem_of_nil in Hin.
  repeat (destruct Hin as [Hin | Hin]; [by injection Hin as _ <- |]). done.
Qed.

(** X3. [get_or_create] returns the preferences a user has, leaving the
    world as it is, or stores and returns the defaults; either way the
    returned preferences are then the stored ones, a second call returns
    them again and changes nothing, and no other user's preferences and no
    other table are touched.  The defaults allow every kind through every
    method and are never in quiet hours. *)
Theorem get_or_create_preferences_round_trip (u : User) (w : World) :
  ∃ p w',
    get_or_create_preferences u w = (w', Ok p) ∧
    preferences w' !! user_id u = Some p ∧
    get_or_create_preferences u w' = (w', Ok p) ∧
    (∀ v, v ≠ user_id u → preferences w' !! v = preferences w !! v) ∧
    (users w', notifications w', next_pk w', sql_log w', groups w', queues w') =
      (users w, notifications w, next_pk w, sql_log w, groups w, queues w) ∧
    (∀ q, preferences w !! user_id u = Some q → p = q ∧ w' = w) ∧
    (preferences w !! user_id u = None →
       p = default_preference ∧
       (∀ now, is_quiet_hours p now = false) ∧
       (∀ kind method, should_send_notification p kind method = true)).
Proof.
  unfold get_or_create_preferences.
  destruct (preferences w !! user_id u) as [q |] eqn:Hq.
  - exists q, w. rewrite Hq.
    split; [done |]. split; [done |]. split; [done |]. split; [done |].
    split; [done |]. split; [| done]. by intros q' [= <-].
  - eexists _, _. split; [reflexivity |]. simpl. rewrite lookup_insert_eq.
    split; [done |]. split; [done |].
    split; [intros v Hv; by rewrite lookup_insert_ne |].
    split; [done |]. split; [done |]. intros _.
    split; [done |]. split; [done |].
    intros kind method. unfold should_send_notification.
    repeat (destruct (String.eqb method _); [apply getattr_flag_default |]).
    done.
Qed.

Lemma get_or_create_preferences_round_trip_witness :
  ∃ w',
    get_or_create_preferences alice empty_world = (w', Ok default_preference) ∧
    preferences w' !! 1 = Some default_preference.
Proof.
  destruct (get_or_create_preferences_round_trip alice empty_world)
    as (p & w' & Hrun & Hstored & _ & _ & _ & _ & Hnew).
  destruct (Hnew eq_refl) as (-> & _).
  exists w'. split; assumption.
Defined.

(** ** Views on the recipient's notifications *)

Lemma filter_none {A} (P : A → Prop) `{∀ x, Decision (P x)} (l : list A) :
  (∀ x, x ∈ l → ¬ P x) → filter P l = [].
Proof.
  induction l as [| x l IH]; intros Hnone; [done |].
  rewrite filter_cons_False by (apply Hnone, list_elem_of_here).
  apply IH. intros y Hy. apply Hnone. by apply list_elem_of_further.
Qed.

Lemma mark_row_read_twice (u : User) (n : Notification) :
  mark_row_read u (mark_row_read u n) = mark_row_read u n.
Proof.
  unfold mark_row_read, unread.
  destruct (user_eqb (recipient n) u) eqn:Hu; simpl; [| by rewrite Hu].
  destruct (is_read n) eqn:Hread; simpl; by rewrite Hu, ?Hread.
Qed.

Lemma mark_rows_read_none_unread (u : User) (rows : list Notification) :
  rows_of u unread (mark_row_read u <$> rows) = [].
Proof.
  apply filter_none. intros n' Hn'.
  apply list_elem_of_fmap in Hn' as (n & -> & _).
  unfold mark_row_read, unread.
  destruct (user_eqb (recipient n) u) eqn:Hu; simpl.
  - destruct (is_read n) eqn:Hread; simpl; rewrite Hu; simpl; [by rewrite Hread | done].
  - by rewrite Hu.
Qed.

(** X4. Marking all as read reports the number of the user's unread
    notifications; afterwards the user has none unread and as many
    notifications as before, and every notification of another user and
    every notification already read is still stored as it was.  A second
    call reports zero and changes no row. *)
Theorem mark_all_read_reports_and_clears (u : User) (w : World) :
  ∃ w' response,
    NotificationMarkAllAsReadView.post u w = (w', Ok response) ∧
    response =
      mk_Response 200
        [("message",
          JStr (pretty (length (rows_of u unread (notifications w)))
                +:+ " notifications marked as read"))] ∧
    rows_of u unread (notifications w') = [] ∧
    length (notifications w') = length (notifications w) ∧
    length (rows_of u (λ _, true) (notifications w')) =
      length (rows_of u (λ _, true) (notifications w)) ∧
    (∀ n, n ∈ notifications w →
          user_id (recipient n) ≠ user_id u ∨ is_read n = true →
          n ∈ notifications w') ∧
    ∃ w'',
      NotificationMarkAllAsReadView.post u w' =
        (w'', Ok (mk_Response 200
                    [("message", JStr ("0" +:+ " notifications marked as read"))])) ∧
      notifications w'' = notifications w'.
Proof.
  unfold NotificationMarkAllAsReadView.post, count_unread, update_unread_is_read.
  unfold_monad. simpl. eexists _, _. split; [reflexivity |]. simpl.
  split; [done |].
  split; [apply mark_rows_read_none_unread |].
  split; [by rewrite length_fmap |].
  split.
  { apply rows_of_length_fmap. intros row. unfold mark_row_read.
    by destruct (_ && _). }
  split.
  { intros n Hn Hkeep. apply list_elem_of_fmap. exists n. split; [| done].
    unfold mark_row_read, user_eqb, unread.
    destruct Hkeep as [Hother | Hread].
    - by rewrite bool_decide_eq_false_2.
    - by rewrite Hread, andb_false_r. }
  eexists. rewrite mark_rows_read_none_unread. simpl. split; [reflexivity |].
  simpl. rewrite <- list_fmap_compose. apply list_fmap_ext.
  intros i n _. simpl. apply mark_row_read_twice.
Qed.

Lemma filter_all {A} (P : A → Prop) `{∀ x, Decision (P x)} (l : list A) :
  (∀ x, x ∈ l → P x) → filter P l = l.
Proof.
  induction l as [| x l IH]; intros Hall; [done |].
  rewrite filter_cons_True by (apply Hall, list_elem_of_here).
  f_equal. apply IH. intros y Hy. apply Hall. by apply list_elem_of_further.
Qed.

Lemma filter_out_unique_length (rows : list Notification) (n : Notification) :
  NoDup (notification_id <$> rows) → n ∈ rows →
  S (length (filter (λ row, notification_id row ≠ notification_id n) rows))
    = length rows.
Proof.
  induction rows as [| row rows IH]; [by intros _ ?%elem_of_nil |].
  rewrite fmap_cons. intros [Hfresh Hnodup]%NoDup_cons [<- | Hin]%elem_of_cons.
  - rewrite filter_cons_False by (by intros Hne).
    rewrite filter_all; [done |].
    intros m Hm Heq. apply Hfresh. rewrite <- Heq. by apply list_elem_of_fmap_2.
  - rewrite filter_cons_True.
    + simpl. f_equal. by apply IH.
    + intros Heq. apply Hfresh. rewrite Heq. by apply list_elem_of_fmap_2.
Qed.

(** X5. Deleting a notification of the acting recipient removes that row
    and no other; the notification can then no longer be looked up, and
    deleting it again answers not-found and changes nothing. *)
Theorem delete_removes_the_row (u : User) (n : Notification) (w : World) :
  unique_pks w → n ∈ notifications w → user_id (recipient n) = user_id u →
  ∃ w' response,
    NotificationDeleteView.delete u (notification_id n) w = (w', Ok response) ∧
    (n ∉ notifications w') ∧
    (∀ m, m ∈ notifications w' ↔ m ∈ notifications w ∧ m ≠ n) ∧
    S (length (notifications w')) = length (notifications w) ∧
    sql_log w' = sql_log w ++ [SqlDelete (notification_id n)] ∧
    get_object_or_404 (notification_id n) u w' = (w', Raise Http404) ∧
    NotificationDeleteView.delete u (notification_id n) w' = (w', Raise Http404).
Proof.
  intros Hpk Hin Hu. unfold NotificationDeleteView.delete. unfold_monad.
  rewrite (get_object_or_404_found u n w Hpk Hin Hu).
  unfold delete_notification. unfold_monad. simpl.
  eexists _, _. split; [reflexivity |]. simpl.
  assert (Hmember : ∀ m,
    m ∈ filter (λ row, notification_id row ≠ notification_id n) (notifications w)
    ↔ m ∈ notifications w ∧ m ≠ n).
  { intros m. rewrite list_elem_of_filter. split.
    - intros [Hne Hm]. split; [done |]. by intros ->.
    - intros [Hm Hne]. split; [| done]. intros Heq. apply Hne.
      by apply (same_pk_same_row (notifications w)). }
  assert (Hgone : get_object_or_404 (notification_id n) u
            (log_write (SqlDelete (notification_id n))
               (set_notifications
                  (filter (λ row, notification_id row ≠ notification_id n)
                     (notifications w)) w))
          = (log_write (SqlDelete (notification_id n))
               (set_notifications
                  (filter (λ row, notification_id row ≠ notification_id n)
                     (notifications w)) w), Raise Http404)).
  { unfold get_object_or_404. simpl. rewrite filter_owned_absent; [done |].
    intros Hid. apply list_elem_of_fmap in Hid as (m & Heq & Hm).
    apply list_elem_of_filter in Hm as [Hne _]. by apply Hne. }
  split; [rewrite Hmember; by intros [_ Hne] |].
  split; [done |].
  split; [by apply filter_out_unique_length |].
  split; [done |].
  split; [exact Hgone |].
  by rewrite Hgone.
Qed.

Lemma delete_removes_the_row_witness :
  ∃ w' response,
    NotificationDeleteView.delete alice 1 inbox = (w', Ok response) ∧
    notifications w' = [].
Proof.
  destruct (delete_removes_the_row alice liked inbox)
    as (w' & response & Hrun & _ & _ & Hlength & _).
  - apply NoDup_singleton.
  - apply list_elem_of_singleton. reflexivity.
  - reflexivity.
  - exists w', response. split; [exact Hrun |].
    simpl in Hlength. by destruct (notifications w').
Defined.

(** X6. A notification that is not the acting user's own, or that does not
    exist, is out of reach: marking it read, archiving it, unarchiving it and
    deleting it all answer not-found and leave the world as it was. *)
Theorem foreign_notification_is_not_found (now : datetime) (u : User) (pk : Z)
    (w : World) :
  (∀ n, n ∈ notifications w → notification_id n = pk →
        user_id (recipient n) ≠ user_id u) →
  NotificationMarkAsReadView.post now u pk w = (w, Raise Http404) ∧
  NotificationArchiveView.post u pk w = (w, Raise Http404) ∧
  NotificationUnarchiveView.post u pk w = (w, Raise Http404) ∧
  NotificationDeleteView.delete u pk w = (w, Raise Http404).
Proof.
  intros Hforeign.
  assert (Hget : get_object_or_404 pk u w = (w, Raise Http404)).
  { unfold get_object_or_404. rewrite filter_none; [done |].
    intros n Hn Howned. unfold owned_by, user_eqb in Howned.
    apply andb_true_iff in Howned as [Hid Hu].
    apply bool_decide_eq_true in Hid, Hu. by apply (Hforeign n). }
  unfold NotificationMarkAsReadView.post, NotificationArchiveView.post,
    NotificationUnarchiveView.post, NotificationDeleteView.delete.
  unfold mbind, M_bind. by rewrite Hget.
Qed.

Lemma foreign_notification_is_not_found_witness :
  NotificationMarkAsReadView.post noon bob 1 inbox = (inbox, Raise Http404) ∧
  NotificationDeleteView.delete bob 1 inbox = (inbox, Raise Http404) ∧
  NotificationArchiveView.post alice 7 inbox = (inbox, Raise Http404).
Proof.
  destruct (foreign_notification_is_not_found noon bob 1 inbox)
    as (Hread & _ & _ & Hdelete).
  { intros n Hn _. apply list_elem_of_singleton in Hn. subst n. simpl. lia. }
  destruct (foreign_notification_is_not_found noon alice 7 inbox)
    as (_ & Harchive & _).
  { intros n Hn Hid. apply list_elem_of_singleton in Hn. subst n.
    simpl in Hid. lia. }
  repeat split; assumption.
Defined.

(** ** Listing *)

Lemma time_cmp_antisym (a b : time) : time_cmp b a = CompOpp (time_cmp a b).
Proof.
  unfold time_cmp.
  rewrite (N.compare_antisym (hour a) (hour b)),
    (N.compare_antisym (minute a) (minute b)),
    (N.compare_antisym (second a) (second b)),
    (N.compare_antisym (microsecond a) (microsecond b)).
  destruct (hour a ?= hour b)%N, (minute a ?= minute b)%N,
    (second a ?= second b)%N; done.
Qed.

Lemma newest_first_total : Total newest_first.
Proof.
  intros a b. unfold newest_first, datetime_le, time_le.
  rewrite (time_cmp_antisym (time_of (created_at b)) (time_of (created_at a))).
  destruct (Z.ltb_spec (date_ordinal (created_at b)) (date_ordinal (created_at a)));
    [by left |].
  destruct (Z.ltb_spec (date_ordinal (created_at a)) (date_ordinal (created_at b)));
    [by right |].
  assert (date_ordinal (created_at a) = date_ordinal (created_at b)) as -> by lia.
  rewrite Z.eqb_refl. simpl.
  destruct (time_cmp _ _); simpl; auto.
Qed.

(** X7. The list of a user's notifications holds exactly the stored
    notifications that are the user's own and pass the filters of the
    request, each as often as it is stored, newest first.  A read or
    archived filter selects the notifications whose flag is true when the
    parameter, in lower case, is the word true, and those whose flag is
    false for every other value; an empty type filter selects all. *)
Theorem list_shows_own_newest_first (u : User)
    (q : NotificationListView.QueryParams) (w : World) :
  ∃ listed,
    NotificationListView.get_queryset u q w = (w, Ok listed) ∧
    listed ≡ₚ rows_of u (NotificationListView.keep q) (notifications w) ∧
    Sorted newest_first listed ∧
    (∀ n, n ∈ listed ↔
          n ∈ notifications w ∧ user_id (recipient n) = user_id u ∧
          NotificationListView.keep q n = true) ∧
    (∀ v n, NotificationListView.param_is_read q = Some v → n ∈ listed →
            is_read n = String.eqb (lower v) "true") ∧
    (∀ v n, NotificationListView.param_is_archived q = Some v → n ∈ listed →
            is_archived n = String.eqb (lower v) "true") ∧
    (∀ c t n, NotificationListView.param_type q = Some (String c t) → n ∈ listed →
              notification_type n = String c t) ∧
    (q = NotificationListView.mk_QueryParams None (Some EmptyString) None →
     listed ≡ₚ rows_of u (λ _, true) (notifications w)).
Proof.
  eexists. split; [reflexivity |].
  assert (Hin : ∀ n,
    n ∈ merge_sort newest_first
          (rows_of u (NotificationListView.keep q) (notifications w)) ↔
    n ∈ notifications w ∧ user_id (recipient n) = user_id u ∧
    NotificationListView.keep q n = true).
  { intros n. rewrite merge_sort_Permutation. unfold rows_of.
    rewrite list_elem_of_filter, andb_true_iff. unfold user_eqb.
    rewrite bool_decide_eq_true. tauto. }
  split; [apply merge_sort_Permutation |].
  split; [apply (@Sorted_merge_sort _ newest_first _ newest_first_total) |].
  split; [exact Hin |].
  split; [| split; [| split]].
  - intros v n Hv [_ [_ Hkeep]]%Hin. unfold NotificationListView.keep in Hkeep.
    rewrite Hv in Hkeep. apply andb_true_iff in Hkeep as [Hkeep _].
    apply andb_true_iff in Hkeep as [Hkeep _]. by apply bool_decide_eq_true in Hkeep.
  - intros v n Hv [_ [_ Hkeep]]%Hin. unfold NotificationListView.keep in Hkeep.
    rewrite Hv in Hkeep. apply andb_true_iff in Hkeep as [_ Hkeep].
    by apply bool_decide_eq_true in Hkeep.
  - intros c t n Ht [_ [_ Hkeep]]%Hin. unfold NotificationListView.keep in Hkeep.
    rewrite Ht in Hkeep. apply andb_true_iff in Hkeep as [Hkeep _].
    apply andb_true_iff in Hkeep as [_ Hkeep]. by apply String.eqb_eq in Hkeep.
  - intros ->. apply merge_sort_Permutation.
Qed.

Lemma list_shows_own_newest_first_witness :
  ∃ listed,
    NotificationListView.get_queryset alice
      (NotificationListView.mk_QueryParams (Some "False") None None) inbox
      = (inbox, Ok listed) ∧
    ∀ n, n ∈ listed → is_read n = false.
Proof.
  destruct (list_shows_own_newest_first alice
              (NotificationListView.mk_QueryParams (Some "False") None None) inbox)
    as (listed & Hrun & _ & _ & _ & Hread & _).
  exists listed. split; [exact Hrun |].
  intros n Hn. apply (Hread "False" n); [reflexivity | exact Hn].
Defined.

(** ** Statistics *)

Lemma rows_of_cons_length (u : User) (keep : Notification → bool)
    (n : Notification) (rows : list Notification) :
  length (rows_of u keep (n :: rows)) =
    ((if user_eqb (recipient n) u && keep n then 1 else 0)
     + length (rows_of u keep rows))%nat.
Proof.
  unfold rows_of. rewrite filter_cons.
  destruct (user_eqb (recipient n) u && keep n); by case_decide.
Qed.

Lemma stats_partition (u : User) (rows : list Notification) :
  (length (rows_of u unread rows) + length (rows_of u is_read rows)
   = length (rows_of u (λ _, true) rows) ∧
   length (rows_of u is_archived rows) ≤ length (rows_of u (λ _, true) rows) ∧
   length (rows_of u (NotificationStatsView.of_type "follow") rows) +
   length (rows_of u (NotificationStatsView.of_type "like") rows) +
   length (rows_of u (NotificationStatsView.of_type "comment") rows) +
   length (rows_of u (NotificationStatsView.of_type "mention") rows) +
   length (rows_of u (NotificationStatsView.of_type "system") rows)
   ≤ length (rows_of u (λ _, true) rows) ∧
   (Forall (λ n, notification_type n ∈ NOTIFICATION_TYPES.*1) rows →
    length (rows_of u (NotificationStatsView.of_type "follow") rows) +
    length (rows_of u (NotificationStatsView.of_type "like") rows) +
    length (rows_of u (NotificationStatsView.of_type "comment") rows) +
    length (rows_of u (NotificationStatsView.of_type "mention") rows) +
    length (rows_of u (NotificationStatsView.of_type "system") rows)
    = length (rows_of u (λ _, true) rows)))%nat.
Proof.
  induction rows as [| n rows (IHread & IHarchived & IHtypes & IHknown)];
    [by repeat split |].
  rewrite !rows_of_cons_length. unfold unread, NotificationStatsView.of_type in *.
  destruct (user_eqb (recipient n) u); simpl.
  - split; [destruct (is_read n); simpl; lia |].
    split; [destruct (is_archived n); simpl; lia |].
    assert (Hkinds :
      ((if String.eqb (notification_type n) "follow" then 1 else 0) +
       (if String.eqb (notification_type n) "like" then 1 else 0) +
       (if String.eqb (notification_type n) "comment" then 1 else 0) +
       (if String.eqb (notification_type n) "mention" then 1 else 0) +
       (if String.eqb (notification_type n) "system" then 1 else 0) ≤ 1 ∧
       (notification_type n ∈ NOTIFICATION_TYPES.*1 →
        (if String.eqb (notification_type n) "follow" then 1 else 0) +
        (if String.eqb (notification_type n) "like" then 1 else 0) +
        (if String.eqb (notification_type n) "comment" then 1 else 0) +
        (if String.eqb (notification_type n) "mention" then 1 else 0) +
        (if String.eqb (notification_type n) "system" then 1 else 0) = 1))%nat).
    { simpl. rewrite !elem_of_cons, elem_of_nil.
      destruct (String.eqb_spec (notification_type n) "follow") as [-> | ?];
        [simpl; split; [lia | done] |].
      destruct (String.eqb_spec (notification_type n) "like") as [-> | ?];
        [simpl; split; [lia | done] |].
      destruct (String.eqb_spec (notification_type n) "comment") as [-> | ?];
        [simpl; split; [lia | done] |].
      destruct (String.eqb_spec (notification_type n) "mention") as [-> | ?];
        [simpl; split; [lia | done] |].
      destruct (String.eqb_spec (notification_type n) "system") as [-> | ?];
        [simpl; split; [lia | done] |].
      split; [lia | tauto]. }
    destruct Hkinds as [Hmost Hone].
    split; [lia |]. intros [Hn Hrows]%Forall_cons.
    specialize (IHknown Hrows). specialize (Hone Hn). lia.
  - split; [lia |]. split; [lia |]. split; [lia |].
    intros [_ Hrows]%Forall_cons. specialize (IHknown Hrows). lia.
Qed.

(** X8. The statistics of a user add up: the unread and the read counts
    make the total, the archived count is at most the total, and the five
    counts by kind together are at most the total and make it when every
    stored notification has one of the five kinds.  The view changes
    nothing. *)
Theorem stats_add_up (u : User) (w : World) :
  ∃ total unread_ read archived follow like comment mention system : nat,
    NotificationStatsView.get u w =
      (w, Ok (mk_Response 200
                [("total_notifications", JInt (Z.of_nat total));
                 ("unread_count", JInt (Z.of_nat unread_));
                 ("read_count", JInt (Z.of_nat read));
                 ("archived_count", JInt (Z.of_nat archived));
                 ("follow_count", JInt (Z.of_nat follow));
                 ("like_count", JInt (Z.of_nat like));
                 ("comment_count", JInt (Z.of_nat comment));
                 ("mention_count", JInt (Z.of_nat mention));
                 ("system_count", JInt (Z.of_nat system))])) ∧
    total = length (rows_of u (λ _, true) (notifications w)) ∧
    (unread_ + read = total)%nat ∧ (archived ≤ total)%nat ∧
    (follow + like + comment + mention + system ≤ total)%nat ∧
    (Forall (λ n, notification_type n ∈ NOTIFICATION_TYPES.*1) (notifications w) →
     (follow + like + comment + mention + system = total)%nat).
Proof.
  destruct (stats_partition u (notifications w))
    as (Hread & Harchived & Htypes & Hknown).
  eexists _, _, _, _, _, _, _, _, _. split; [reflexivity |].
  split; [reflexivity |]. by repeat split.
Qed.

Lemma stats_add_up_witness :
  ∃ stats kinds,
    NotificationStatsView.get alice inbox = (inbox, Ok stats) ∧
    dict_get "total_notifications" (body stats) = Some (JInt 1) ∧
    kinds = 1%nat.
Proof.
  destruct (stats_add_up alice inbox)
    as (total & unread_ & read & archived & follow & like & comment & mention
        & system & Hrun & Htotal & _ & _ & _ & Hknown).
  assert (Hsum : (follow + like + comment + mention + system = total)%nat).
  { apply Hknown. repeat constructor. }
  eexists _, (follow + like + comment + mention + system)%nat.
  split; [exact Hrun |]. simpl. rewrite Htotal. split; [reflexivity |].
  rewrite Hsum, Htotal. reflexivity.
Defined.

(** ** Administrator views *)

Lemma filter_pk_unique (n : Notification) (rows : list Notification) :
  NoDup (notification_id <$> rows) → n ∈ rows →
  filter (λ r, notification_id r = notification_id n) rows = [n].
Proof.
  induction rows as [| row rows IH]; [by intros _ ?%elem_of_nil |].
  rewrite fmap_cons. intros [Hfresh Hnodup]%NoDup_cons [<- | Hin]%elem_of_cons.
  - rewrite filter_cons_True by done. f_equal. apply filter_none.
    intros m Hm Heq. apply Hfresh. rewrite <- Heq. by apply list_elem_of_fmap_2.
  - rewrite filter_cons_False; [by apply IH |].
    intros Heq. apply Hfresh. rewrite Heq. by apply list_elem_of_fmap_2.
Qed.

Lemma is_admin_role (a : Account) : is_admin a = true ↔ role a = "admin".
Proof. unfold is_admin. apply String.eqb_eq. Qed.



(** X10. The administrators' delete answers 403 to every user whose role is
    not admin and changes nothing.  For an administrator it removes the
    stored notification with that id, whoever its recipient is, and no other
    row; an id that is not stored answers not-found and changes nothing. *)
Theorem admin_delete_is_for_administrators (request_user : Account) (pk : Z)
    (w : World) :
  unique_pks w →
  (role request_user ≠ "admin" →
     AdminNotificationDeleteView.delete request_user pk w =
       (w, Ok (mk_Response 403 [("error", JStr "Admin access required")]))) ∧
  (role request_user = "admin" →
     (∀ n, n ∈ notifications w → notification_id n = pk →
        ∃ w',
          AdminNotificationDeleteView.delete request_user pk w =
            (w', Ok (mk_Response 200
                       [("message", JStr "Notification deleted successfully")])) ∧
          (∀ m, m ∈ notifications w' ↔ m ∈ notifications w ∧ m ≠ n) ∧
          S (length (notifications w')) = length (notifications w) ∧
          sql_log w' = sql_log w ++ [SqlDelete pk]) ∧
     ((∀ n, n ∈ notifications w → notification_id n ≠ pk) →
        AdminNotificationDeleteView.delete request_user pk w = (w, Raise Http404))).
Proof.
  intros Hpk. unfold AdminNotificationDeleteView.delete.
  destruct (is_admin request_user) eqn:Hadmin; simpl.
  - apply is_admin_role in Hadmin. split; [done |]. intros _. split.
    + intros n Hin <-. unfold_monad.
      unfold AdminNotificationDeleteView.get_any_or_404.
      rewrite (filter_pk_unique n (notifications w) Hpk Hin). simpl.
      unfold delete_notification. unfold_monad. simpl.
      eexists. split; [reflexivity |]. simpl.
      split; [| split; [by apply filter_out_unique_length | done]].
      intros m. rewrite list_elem_of_filter. split.
      * intros [Hne Hm]. split; [done |]. by intros ->.
      * intros [Hm Hne]. split; [| done]. intros Heq. apply Hne.
        by apply (same_pk_same_row (notifications w)).
    + intros Habsent. unfold_monad.
      unfold AdminNotificationDeleteView.get_any_or_404.
      rewrite filter_none; [done |]. intros n Hn Hid. by apply (Habsent n).
  - split; [done |]. intros Hrole. apply is_admin_role in Hrole. congruence.
Qed.

Lemma admin_delete_is_for_administrators_witness :
  AdminNotificationDeleteView.delete member 1 inbox =
    (inbox, Ok (mk_Response 403 [("error", JStr "Admin access required")])) ∧
  ∃ w',
    AdminNotificationDeleteView.delete moderator 1 inbox =
      (w', Ok (mk_Response 200
                 [("message", JStr "Notification deleted successfully")])) ∧
    notifications w' = [].
Proof.
  destruct (admin_delete_is_for_administrators member 1 inbox) as [Hrefused _].
  { apply NoDup_singleton. }
  destruct (admin_delete_is_for_administrators moderator 1 inbox) as [_ Hadmin].
  { apply NoDup_singleton. }
  split; [apply Hrefused; simpl; discriminate |].
  destruct (Hadmin eq_refl) as [Hfound _].
  destruct (Hfound liked) as (w' & Hrun & _ & Hlength & _).
  - apply list_elem_of_singleton. reflexivity.
  - reflexivity.
  - exists w'. split; [exact Hrun |].
    simpl in Hlength. by destruct (notifications w').
Defined.

(** ** Connections and the channel layer *)

Lemma user_group_inj (a b : Z) : user_group a = user_group b → a = b.
Proof.
  unfold user_group. intros Heq. apply (inj pretty).
  by apply (inj (String.append "user_")) in Heq.
Qed.

Lemma user_group_not_broadcast (uid : Z) : user_group uid ≠ "broadcast".
Proof. unfold user_group. intros Heq. discriminate Heq. Qed.

Lemma members_set_groups_eq (group : string) (chans : gset string) (w : World) :
  members group (set_groups (<[group := chans]> (groups w)) w) = chans.
Proof. unfold members. simpl. by rewrite lookup_insert_eq. Qed.

Lemma members_set_groups_ne (group other : string) (chans : gset string)
    (w : World) :
  other ≠ group →
  members other (set_groups (<[group := chans]> (groups w)) w) = members other w.
Proof. intros Hne. unfold members. simpl. by rewrite lookup_insert_ne. Qed.

Section ChannelProperties.

Context (isoformat : datetime → string) (json_loads : string → Result json).

(** X11. A connection that disconnects leaves its user's group: after the
    connect and the disconnect of a user's connection the socket is closed,
    the channel is no member of the user's group, every other membership is
    as it was before the connect, and a message sent to the user's group
    afterwards does not reach the channel's queue.  The database tables are
    untouched.  A connection refused as anonymous never assigned its group
    name, so its disconnect handler raises [AttributeError]. *)
Theorem disconnect_leaves_the_group (u : User) (channel : string) (code : Z)
    (w : World) :
  let connected :=
    step json_loads WebsocketConnect (fresh (Authenticated u) channel, w) in
  let gone := step json_loads (WebsocketDisconnect code) connected in
  let refused := step json_loads WebsocketConnect (fresh AnonymousUser channel, w) in
  socket gone.1 = Closed ∧
  sent gone.1 = [established_frame u] ∧
  (channel ∉ members (user_group (user_id u)) gone.2) ∧
  (∀ other, other ≠ channel →
     (other ∈ members (user_group (user_id u)) gone.2 ↔
      other ∈ members (user_group (user_id u)) w)) ∧
  (∀ group, group ≠ user_group (user_id u) →
     members group gone.2 = members group w) ∧
  (∀ event,
     queues (group_send (user_group (user_id u)) event gone.2).1 !! channel =
       queues w !! channel) ∧
  tables gone.2 = tables w ∧ queues gone.2 = queues w ∧
  disconnect refused.1 code refused.2 = (w, Raise AttributeError).
Proof.
  intros connected gone refused.
  assert (Hgone :
    gone =
      (mk_Consumer (Authenticated u) channel (Some (user_group (user_id u))) Closed
         [established_frame u],
       set_groups
         (<[user_group (user_id u) :=
              ({[channel]} ∪ members (user_group (user_id u)) w) ∖ {[channel]}]>
            (groups (set_groups
                       (<[user_group (user_id u) :=
                            {[channel]} ∪ members (user_group (user_id u)) w]>
                          (groups w)) w)))
         (set_groups
            (<[user_group (user_id u) :=
                 {[channel]} ∪ members (user_group (user_id u)) w]>
               (groups w)) w))).
  { unfold gone, connected, step, handle, connect, disconnect. simpl.
    unfold_monad. unfold group_add, group_discard, modify. simpl.
    by rewrite lookup_insert_eq. }
  assert (Hmembers :
    members (user_group (user_id u)) gone.2 =
      ({[channel]} ∪ members (user_group (user_id u)) w) ∖ {[channel]}).
  { rewrite Hgone. simpl. apply members_set_groups_eq. }
  split; [by rewrite Hgone |]. split; [by rewrite Hgone |].
  split.
  { rewrite Hmembers. intros [_ Hne]%elem_of_difference.
    by apply Hne, elem_of_singleton. }
  split.
  { intros other Hother.
    rewrite Hmembers, elem_of_difference, elem_of_union, elem_of_singleton.
    tauto. }
  split.
  { intros group Hgroup. rewrite Hgone. unfold members. simpl.
    by rewrite !lookup_insert_ne. }
  split.
  { intros event. rewrite group_send_queues, decide_False.
    - by rewrite Hgone.
    - rewrite Hmembers. intros [_ Hne]%elem_of_difference.
      by apply Hne, elem_of_singleton. }
  split; [by rewrite Hgone |]. split; [by rewrite Hgone |].
  done.
Qed.

(** A consumer with nothing waiting that is sent one update message writes
    one frame for it. *)
Lemma update_delivered_once (self : Consumer) (nid : Z) (update_data : dict)
    (w' : World) :
  socket self = Open →
  queues w' !! channel_name self = Some [update_event nid update_data] →
  (run json_loads [Transport ChannelMessage; Transport ChannelMessage] (self, w')).1
    = send (update_frame nid update_data) self.
Proof.
  intros Hopen Hqueue.
  unfold run. simpl. unfold step at 2. simpl. unfold handle. rewrite Hopen.
  unfold mbind at 1, M_bind at 1, next_message at 1. rewrite Hqueue. simpl.
  unfold step, handle. simpl. rewrite Hopen.
  unfold mbind, M_bind, next_message. simpl. by rewrite lookup_insert_eq.
Qed.

(** X12. An update sent to a user appends one message to the queue of every
    channel registered in the user's group and to no other, and touches no
    table and no group; an open consumer on such a channel, with nothing
    else waiting, then writes exactly one [notification_update] frame that
    carries the notification's id and the update as they were sent.  With
    no channel registered nothing changes. *)
Theorem update_reaches_the_users_connections (uid nid : Z) (update_data : dict)
    (w : World) :
  ∃ w',
    send_notification_update_to_user uid nid update_data w = (w', Ok tt) ∧
    (∀ ch,
       queues w' !! ch =
         if decide (ch ∈ members (user_group uid) w)
         then Some (default [] (queues w !! ch) ++ [update_event nid update_data])
         else queues w !! ch) ∧
    tables w' = tables w ∧ groups w' = groups w ∧
    (∀ self,
       socket self = Open →
       channel_name self ∈ members (user_group uid) w →
       default [] (queues w !! channel_name self) = [] →
       let final :=
         run json_loads [Transport ChannelMessage; Transport ChannelMessage]
           (self, w') in
       final.1 = send (update_frame nid update_data) self ∧
       socket final.1 = Open ∧
       ∃ frame,
         sent final.1 = sent self ++ [frame] ∧
         dict_get "type" frame = Some (JStr "notification_update") ∧
         dict_get "notification_id" frame = Some (JInt nid) ∧
         dict_get "update_data" frame = Some (JDict update_data)) ∧
    (members (user_group uid) w = ∅ → w' = w).
Proof.
  unfold send_notification_update_to_user. fold (update_event nid update_data).
  exists (group_send (user_group uid) (update_event nid update_data) w).1.
  split; [reflexivity |].
  split; [intros ch; apply group_send_queues |].
  split; [done |]. split; [done |].
  split.
  - intros self Hopen Hmember Hempty. cbv zeta.
    rewrite (update_delivered_once self nid update_data); [| done |].
    + simpl. split; [done |]. split; [done |]. by eexists.
    + by rewrite group_send_queues, decide_True, Hempty.
  - intros Hnone. by rewrite group_send_nobody.
Qed.

(** The group a consumer leaves on disconnect is unset or a user's group. *)
Lemma step_keeps_broadcast_empty (ev : SocketEvent) (self : Consumer) (w : World) :
  user_group_name self ≠ Some "broadcast" →
  user_group_name (step json_loads ev (self, w)).1 ≠ Some "broadcast" ∧
  members "broadcast" (step json_loads ev (self, w)).2 = members "broadcast" w.
Proof.
  intros Hname. unfold step, handle. simpl.
  destruct (socket self) eqn:Hsocket, ev as [| text_data | code |]; simpl;
    try done.
  - unfold connect. unfold_monad. unfold group_add, modify.
    destruct (scope_user self) as [| user]; simpl; [done |].
    split; [intros [= Heq]; by apply (user_group_not_broadcast (user_id user)) |].
    apply members_set_groups_ne. intros Heq.
    by apply (user_group_not_broadcast (user_id user)).
  - unfold receive, get_unread_count, count_unread. unfold_monad.
    destruct (json_loads text_data) as [[| | | | | | payload] | []];
      simpl; try done.
    destruct (json_is_str _ "ping"); simpl; [done |].
    destruct (json_is_str _ "get_notifications"); simpl; [| done].
    by destruct (scope_user self).
  - unfold disconnect. unfold_monad. unfold group_discard, modify.
    destruct (user_group_name self) as [group |] eqn:Hgroup; simpl;
      rewrite ?Hgroup; [| done].
    split; [done |].
    destruct (groups w !! group) as [chans |]; [| done].
    apply members_set_groups_ne. congruence.
  - unfold next_message, dispatch, notification_message, notification_update,
      subscript. unfold_monad.
    destruct (queues w !! channel_name self) as [[| event rest] |]; simpl;
      try done.
    destruct (json_is_str _ "notification_message"); simpl.
    { destruct (dict_get "notification" event); simpl; done. }
    destruct (json_is_str _ "notification_update"); simpl; [| done].
    destruct (dict_get "notification_id" event); simpl; [| done].
    destruct (dict_get "update_data" event); simpl; done.
  - unfold disconnect. unfold_monad. unfold group_discard, modify.
    destruct (user_group_name self) as [group |] eqn:Hgroup; simpl;
      rewrite ?Hgroup; [| done].
    split; [done |].
    destruct (groups w !! group) as [chans |]; [| done].
    apply members_set_groups_ne. congruence.
Qed.

Lemma run_keeps_broadcast_empty (events : list SocketEvent) (self : Consumer)
    (w : World) :
  user_group_name self ≠ Some "broadcast" →
  members "broadcast" (run json_loads (Transport <$> events) (self, w)).2
    = members "broadcast" w.
Proof.
  revert self w. induction events as [| ev events IH]; intros self w Hname; [done |].
  destruct (step_keeps_broadcast_empty ev self w Hname) as [Hname' Hsame].
  simpl. unfold run in IH.
  destruct (step json_loads ev (self, w)) as [self' w'] eqn:Hstep.
  simpl in *. rewrite <- Hsame. by apply IH.
Qed.

(** X13. A broadcast reaches no connection.  The only group a connection
    ever joins is its user's, and no user's group is the broadcast group: a
    connection's events, whatever they are, leave the membership of the
    broadcast group as it was.  So with that group empty, as it is at the
    start, [broadcast_notification] changes nothing.  Were a channel in the
    group, its consumer would find no handler for the message: it writes no
    frame and the connection ends. *)
Theorem broadcast_reaches_no_connection (notification_data : dict) :
  (∀ who channel events w,
     members "broadcast"
       (run json_loads (Transport <$> events) (fresh who channel, w)).2
       = members "broadcast" w) ∧
  (∀ w, members "broadcast" w = ∅ →
        broadcast_notification notification_data w = (w, Ok tt)) ∧
  (∀ self w rest,
     socket self = Open →
     queues w !! channel_name self = Some (broadcast_event notification_data :: rest) →
     dispatch self (broadcast_event notification_data) w = (w, Raise ValueError) ∧
     socket (step json_loads ChannelMessage (self, w)).1 = Closed ∧
     sent (step json_loads ChannelMessage (self, w)).1 = sent self).
Proof.
  split; [| split].
  - intros who channel events w. by apply run_keeps_broadcast_empty.
  - intros w Hnone. unfold broadcast_notification. by apply group_send_nobody.
  - intros self w rest Hopen Hqueue. split; [done |].
    unfold step, handle. simpl. rewrite Hopen. unfold_monad.
    unfold next_message. by rewrite Hqueue.
Qed.

(** X14. A notification sent to its recipient reaches no connection of
    another user: a channel that connects as another user, and was not in
    the recipient's group before, finds its queue as it was, while a channel
    that connects as the recipient finds the message appended. *)
Theorem notifications_reach_only_the_recipient (n : Notification) (u : User)
    (channel : string) (w : World) :
  has_text n →
  channel ∉ members (user_group (user_id (recipient n))) w →
  let connected :=
    step json_loads WebsocketConnect (fresh (Authenticated u) channel, w) in
  ∃ projection w',
    NotificationListSerializer isoformat n = Ok projection ∧
    send_notification_to_user isoformat (user_id (recipient n)) n connected.2
      = (w', Ok tt) ∧
    (user_id u ≠ user_id (recipient n) →
       queues w' !! channel = queues w !! channel) ∧
    (user_id u = user_id (recipient n) →
       queues w' !! channel =
         Some (default [] (queues w !! channel) ++ [notification_event projection])).
Proof.
  intros Htext Hout connected.
  destruct (has_text_ok n Htext) as [text Hok].
  pose proof (serializer_ok isoformat n text Hok) as Hdata.
  assert (Hconnected :
    connected.2 =
      set_groups (<[user_group (user_id u) :=
                      {[channel]} ∪ members (user_group (user_id u)) w]>
                    (groups w)) w).
  { unfold connected, step, handle, connect. simpl. unfold_monad.
    by unfold group_add, modify. }
  eexists _, _. split; [exact Hdata |].
  rewrite (send_notification_to_user_ok isoformat _ _ _ _ Hdata).
  split; [unfold group_send, modify; reflexivity |].
  change (set_queues _ connected.2)
    with (group_send (user_group (user_id (recipient n)))
            (notification_event
               ([("id", JInt (notification_id n))] ++
                match sender n with
                | Some u => [("sender_username", JStr (username u))]
                | None => []
                end ++
                [("notification_type", JStr (notification_type n));
                 ("title", JStr (title n));
                 ("message", JStr (message n));
                 ("notification_text", JStr text);
                 ("is_read", JBool (is_read n));
                 ("is_archived", JBool (is_archived n));
                 ("created_at", JStr (isoformat (created_at n)))]))
            connected.2).1.
  rewrite group_send_queues, Hconnected. split.
  - intros Hother. rewrite decide_False; [done |].
    rewrite members_set_groups_ne; [done |].
    intros Heq. apply user_group_inj in Heq. congruence.
  - intros Hsame. rewrite <- Hsame, members_set_groups_eq.
    rewrite decide_True; [done |].
    apply elem_of_union_l. by apply elem_of_singleton.
Qed.

End ChannelProperties.

Lemma update_reaches_the_users_connections_witness :
  ∃ w',
    send_notification_update_to_user 1 1 [("is_read", JBool true)] two_devices
      = (w', Ok tt) ∧
    sent (run sample_loads [Transport ChannelMessage; Transport ChannelMessage]
            (alice_phone, w')).1
      = sent alice_phone ++ [update_frame 1 [("is_read", JBool true)]].
Proof.
  destruct (update_reaches_the_users_connections sample_loads 1 1
              [("is_read", JBool true)] two_devices)
    as (w' & Hrun & _ & _ & _ & Hopen & _).
  exists w'. split; [exact Hrun |].
  destruct (Hopen alice_phone) as [Hframe _].
  - reflexivity.
  - apply (bool_decide_unpack _). vm_compute. exact I.
  - reflexivity.
  - by rewrite Hframe.
Defined.

Lemma broadcast_reaches_no_connection_witness :
  broadcast_notification [("title", JStr "Maintenance")] two_devices
    = (two_devices, Ok tt).
Proof.
  destruct (broadcast_reaches_no_connection sample_loads
              [("title", JStr "Maintenance")])
    as (_ & Hnone & _).
  apply Hnone. reflexivity.
Defined.

Lemma notifications_reach_only_the_recipient_witness :
  ∃ w',
    send_notification_to_user sample_isoformat 1 liked
      (step sample_loads WebsocketConnect
         (fresh (Authenticated bob) "tablet", two_devices)).2
      = (w', Ok tt) ∧
    queues w' !! "tablet" = None.
Proof.
  destruct (notifications_reach_only_the_recipient sample_isoformat sample_loads
              liked bob "tablet" two_devices)
    as (projection & w' & _ & Hrun & Hother & _).
  - intros Hsender. vm_compute in Hsender. discriminate Hsender.
  - apply (bool_decide_unpack _). vm_compute. exact I.
  - exists w'. split; [exact Hrun |]. rewrite Hother; [reflexivity |].
    simpl. lia.
Defined.

(** ** Producers, when the actor is another user *)

Section ProducerFurther.

Context (isoformat : datetime → string) (isalnum : string → bool).



(** X16. The save of a new comment by a user other than the post's author
    notifies the post's author exactly once, as a comment, even when the
    comment mentions the author; after it come the notifications of the
    mentions, one for every match that names an active user other than the
    comment's author and the post's author, and none of them is addressed to
    the post's author or to the comment's author. *)
Theorem comment_notifies_the_author_once (now : datetime) (c : Comment)
    (w : World) :
  unique_usernames w →
  user_id (comment_author c) ≠ user_id (post_author (comment_post c)) →
  ∃ w' first mentioned,
    comment_post_save isoformat isalnum now c true w = (w', Ok tt) ∧
    notifications w' = notifications w ++ first :: mentioned ∧
    produced "comment" (comment_author c) (post_author (comment_post c)) first ∧
    Forall (is_mention_of c) mentioned ∧
    recipient <$> mentioned = mention_targets isalnum c (users w) ∧
    Forall (λ n, user_id (recipient n) ≠ user_id (post_author (comment_post c)) ∧
                 user_id (recipient n) ≠ user_id (comment_author c)) mentioned.
Proof.
  intros Hunique Hother. unfold comment_post_save.
  unfold create_comment_notification, user_eqb.
  rewrite (bool_decide_eq_false_2 _ Hother). simpl.
  match goal with
  | |- context [create_notification ?f ?t ?r (Some ?s) ?k ?ti ?m ?co ?d] =>
      destruct (create_notification_with_sender isoformat t r s k ti m co d w)
        as (w1 & Hrun & Hrows & Husers)
  end.
  unfold mbind at 1, M_bind at 1. unfold mbind at 1, M_bind at 1.
  rewrite Hrun. unfold mret at 1, M_ret at 1.
  unfold create_mention_notifications.
  destruct (mentions_loop isoformat now c (findall_mentions isalnum (comment_content c)) w1)
    as (w' & r & mentioned & Hloop & Hrows' & _ & Hkind & Hok & _ & Hcase).
  destruct Hcase as [-> Hrcpt]; [unfold unique_usernames; by rewrite Husers |].
  eexists w', _, mentioned. split; [exact Hloop |].
  split; [by rewrite Hrows', Hrows, <- app_assoc |].
  split; [by repeat split |].
  split; [done |].
  split; [by rewrite Hrcpt, Husers |].
  eapply Forall_impl; [exact Hok |]. intros n Hn.
  unfold notifiable, user_eqb in Hn. apply andb_true_iff in Hn as [Ha Hp].
  apply negb_true_iff, bool_decide_eq_false in Ha, Hp. done.
Qed.

End ProducerFurther.


Lemma comment_notifies_the_author_once_witness :
  ∃ w' first mentioned,
    comment_post_save sample_isoformat sample_isalnum noon carols_comment true empty_world
      = (w', Ok tt) ∧
    notifications w' = first :: mentioned ∧
    recipient first = bob ∧ recipient <$> mentioned = [alice; alice].
Proof.
  destruct (comment_notifies_the_author_once sample_isoformat sample_isalnum noon carols_comment
              empty_world)
    as (w' & first & mentioned & Hrun & Hrows & Hfirst & _ & Hrcpt & _).
  - apply sample_usernames_unique.
  - simpl. lia.
  - destruct Hfirst as (_ & Hto & _).
    exists w', first, mentioned. split; [exact Hrun |]. split; [exact Hrows |].
    split; [exact Hto |]. rewrite Hrcpt. reflexivity.
Defined.

(** ** The table over a course of requests *)

Lemma keeps_refl (n : Notification) : keeps n n.
Proof. by repeat split. Qed.

Lemma keeps_trans (a b c : Notification) : keeps a b → keeps b c → keeps a c.
Proof.
  unfold keeps.
  intros (Hid & Hrcpt & Hsndr & Hkind & Htitle & Hmsg & Hobj & Hdata & Hat & Hread)
         (Hid' & Hrcpt' & Hsndr' & Hkind' & Htitle' & Hmsg' & Hobj' & Hdata' & Hat'
          & Hread').
  split_and!; try congruence.
  intros Ha. destruct (Hread Ha) as [Hb Hb']. destruct (Hread' Hb) as [Hc Hc'].
  split; congruence.
Qed.

Lemma evolves_refl (w : World) : unique_pks w → fresh_pks w → evolves w w.
Proof.
  intros Hunique Hfresh. repeat split; try done. intros n Hn _.
  exists n. split; [done | apply keeps_refl].
Qed.

Lemma evolves_trans (w1 w2 w3 : World) :
  evolves w1 w2 → evolves w2 w3 → evolves w1 w3.
Proof.
  intros (_ & _ & Hnext & Hrows) (Hunique & Hfresh & Hnext' & Hrows').
  split; [done |]. split; [done |]. split; [lia |].
  intros n3 Hn3 Hid.
  destruct (Hrows' n3 Hn3) as (n2 & Hn2 & Hkeeps'); [lia |].
  destruct (Hrows n2 Hn2) as (n1 & Hn1 & Hkeeps).
  { destruct Hkeeps' as (Heq & _). lia. }
  exists n1. split; [done |]. by apply (keeps_trans n1 n2 n3).
Qed.

Lemma evolves_map (f : Notification → Notification) (w w' : World) :
  unique_pks w → fresh_pks w →
  notifications w' = f <$> notifications w → next_pk w' = next_pk w →
  (∀ n, n ∈ notifications w → keeps n (f n)) →
  evolves w w'.
Proof.
  unfold evolves, unique_pks, fresh_pks. intros Hunique Hfresh -> -> Hkeeps.
  assert (Hids : notification_id <$> (f <$> notifications w)
                 = notification_id <$> notifications w).
  { rewrite <- list_fmap_compose. apply list_fmap_ext. intros i n Hn. simpl.
    apply list_elem_of_lookup_2 in Hn. by destruct (Hkeeps n Hn) as (Hid & _). }
  split; [by rewrite Hids |].
  split.
  { rewrite Forall_fmap. rewrite Forall_forall in Hfresh |- *.
    intros n Hn. simpl. destruct (Hkeeps n Hn) as (-> & _). by apply Hfresh. }
  split; [lia |].
  intros n' Hn' _. apply list_elem_of_fmap in Hn' as (n & -> & Hn).
  exists n. split; [done | by apply Hkeeps].
Qed.

Lemma evolves_filter (P : Notification → Prop) `{∀ n, Decision (P n)}
    (w w' : World) :
  unique_pks w → fresh_pks w →
  notifications w' = filter P (notifications w) → next_pk w' = next_pk w →
  evolves w w'.
Proof.
  unfold evolves, unique_pks, fresh_pks. intros Hunique Hfresh -> ->.
  split.
  { induction (notifications w) as [| row rows IH]; [done |].
    rewrite fmap_cons in Hunique. apply NoDup_cons in Hunique as [Hnew Hrest].
    apply Forall_cons in Hfresh as [_ Hfresh].
    destruct (decide (P row)) as [Hrow | Hrow].
    - rewrite filter_cons_True by done. rewrite fmap_cons. apply NoDup_cons.
      split; [| by apply IH]. intros Hin. apply Hnew.
      apply list_elem_of_fmap in Hin as (m & -> & Hm).
      apply list_elem_of_filter in Hm as [_ Hm]. by apply list_elem_of_fmap_2.
    - rewrite filter_cons_False by done. by apply IH. }
  split.
  { rewrite Forall_forall in Hfresh |- *. intros n Hn.
    apply list_elem_of_filter in Hn as [_ Hn]. by apply Hfresh. }
  split; [lia |].
  intros n Hn _. apply list_elem_of_filter in Hn as [_ Hn].
  exists n. split; [done | apply keeps_refl].
Qed.

Lemma evolves_append (row : Notification) (w w' : World) :
  unique_pks w → fresh_pks w →
  notifications w' = notifications w ++ [row] →
  notification_id row = next_pk w → next_pk w' = next_pk w + 1 →
  evolves w w'.
Proof.
  unfold evolves, unique_pks, fresh_pks. intros Hunique Hfresh -> Hid ->.
  split.
  { rewrite fmap_app. apply NoDup_app. split; [done |]. split.
    - intros pk Hpk Hnew. simpl in Hnew. apply list_elem_of_singleton in Hnew.
      apply list_elem_of_fmap in Hpk as (n & -> & Hn).
      rewrite Forall_forall in Hfresh. specialize (Hfresh n Hn). lia.
    - simpl. apply NoDup_singleton. }
  split.
  { apply Forall_app. split.
    - eapply Forall_impl; [exact Hfresh |]. intros n Hn. simpl in Hn. lia.
    - repeat constructor. lia. }
  split; [lia |].
  intros n Hn Hold. apply elem_of_app in Hn as [Hn | Hn].
  - exists n. split; [done | apply keeps_refl].
  - apply list_elem_of_singleton in Hn. subst n. lia.
Qed.

Lemma get_object_or_404_cases (pk : Z) (u : User) (w : World) :
  (∃ n, get_object_or_404 pk u w = (w, Ok n) ∧ n ∈ notifications w) ∨
  (∃ e, get_object_or_404 pk u w = (w, Raise e)).
Proof.
  unfold get_object_or_404, objects_get.
  destruct (filter _ (notifications w)) as [| n [| m rest]] eqn:Hfound.
  - right. by eexists.
  - left. exists n. split; [done |].
    assert (Hn : n ∈ filter (λ n, owned_by u pk n = true) (notifications w))
      by (rewrite Hfound; apply list_elem_of_here).
    by apply list_elem_of_filter in Hn as [_ Hn].
  - right. by eexists.
Qed.

Lemma save_row_keeps (obj row : Notification) (b : bool) :
  keeps row (save_row (set_is_archived b obj) ["is_archived"] row).
Proof.
  unfold save_row. destruct (bool_decide _); [| apply keeps_refl].
  simpl. by repeat split.
Qed.

Lemma archive_evolves (u : User) (pk : Z) (b : bool) (w : World) :
  unique_pks w → fresh_pks w → evolves w (archive_view b u pk w).1.
Proof.
  intros Hunique Hfresh.
  unfold archive_view, NotificationArchiveView.post, NotificationUnarchiveView.post.
  destruct (get_object_or_404_cases pk u w) as [(n & Hget & _) | (e & Hget)];
    destruct b; unfold mbind, M_bind; rewrite Hget; simpl;
    try (by apply evolves_refl).
  - apply (evolves_map (save_row (set_is_archived true n) ["is_archived"]));
      try done.
    intros row _. apply save_row_keeps.
  - apply (evolves_map (save_row (set_is_archived false n) ["is_archived"]));
      try done.
    intros row _. apply save_row_keeps.
Qed.

Section RequestProperties.

Context (isoformat : datetime → string) (isalnum : string → bool).

Lemma create_notification_evolves (now : datetime) (rcpt : User)
    (sndr : option User) (kind title_ message_ : string)
    (content : option ContentRef) (data_ : option dict) (w : World) :
  unique_pks w → fresh_pks w →
  evolves w (create_notification isoformat now rcpt sndr kind title_ message_
               content data_ w).1.
Proof.
  intros Hunique Hfresh.
  destruct (create_notification_stores isoformat now rcpt sndr kind title_ message_
              content data_ w)
    as (w' & r & Hrun & Hrows & _ & _ & Hnext & _).
  rewrite Hrun. simpl. by eapply evolves_append.
Qed.

Lemma mention_one_evolves (now : datetime) (c : Comment) (name : string)
    (w : World) :
  unique_pks w → fresh_pks w → evolves w (mention_one isoformat now c name w).1.
Proof.
  intros Hunique Hfresh.
  unfold mention_one, try_except, User_objects_get, objects_get.
  unfold mbind at 1, M_bind at 1.
  destruct (active_named name (users w)) as [| u [| v rest]];
    try (by apply evolves_refl).
  destruct (negb (user_eqb u (comment_author c))); [| by apply evolves_refl].
  destruct (negb (user_eqb u (post_author (comment_post c))));
    [| by apply evolves_refl].
  unfold mbind, M_bind.
  match goal with
  | |- context [create_notification ?f ?t ?r ?s ?k ?ti ?m ?co ?d ?w] =>
      pose proof (create_notification_evolves t r s k ti m co d w Hunique Hfresh)
        as Hcreated;
      destruct (create_notification f t r s k ti m co d w) as [w' [n | e]]
  end; simpl in *; [done |].
  by destruct e.
Qed.

Lemma for_each_evolves (now : datetime) (c : Comment) (names : list string)
    (w : World) :
  unique_pks w → fresh_pks w →
  evolves w (for_each names (mention_one isoformat now c) w).1.
Proof.
  revert w. induction names as [| name names IH]; intros w Hunique Hfresh.
  - by apply evolves_refl.
  - pose proof (mention_one_evolves now c name w Hunique Hfresh) as Hone.
    simpl. unfold mbind, M_bind.
    destruct (mention_one isoformat now c name w) as [w1 [[] | e]]; simpl in *;
      [| done].
    apply (evolves_trans w w1); [done |].
    destruct Hone as (Hunique1 & Hfresh1 & _). by apply IH.
Qed.

Lemma serve_evolves (r : Request) (w : World) :
  unique_pks w → fresh_pks w → evolves w (serve isoformat isalnum r w).
Proof.
  intros Hunique Hfresh. destruct r as [now u pk | u | u pk | u pk | u pk | a pk
    | now u | now f created | now l created | now c created]; simpl.
  - unfold NotificationMarkAsReadView.post. unfold mbind, M_bind.
    destruct (get_object_or_404_cases pk u w) as [(n & Hget & Hn) | (e & Hget)];
      rewrite Hget; [| by apply evolves_refl].
    unfold mark_as_read. destruct (is_read n) eqn:Hread; simpl;
      [by apply evolves_refl |].
    apply (evolves_map
             (save_row (set_read_at (Some now) (set_is_read true n))
                ["is_read"; "read_at"])); try done.
    intros row Hrow. unfold save_row. simpl.
    destruct (bool_decide_reflect (notification_id row = notification_id n))
      as [Hsame | _]; [| apply keeps_refl].
    assert (row = n) as -> by (by apply (same_pk_same_row (notifications w))).
    simpl. repeat split; congruence.
  - unfold NotificationMarkAllAsReadView.post, count_unread, update_unread_is_read.
    unfold_monad. simpl.
    apply (evolves_map (mark_row_read u)); try done.
    intros row _. unfold mark_row_read, unread.
    destruct (user_eqb (recipient row) u); simpl; [| apply keeps_refl].
    destruct (is_read row) eqn:Hread; simpl; [apply keeps_refl |].
    repeat split; congruence.
  - by apply (archive_evolves u pk true).
  - by apply (archive_evolves u pk false).
  - unfold NotificationDeleteView.delete. unfold mbind, M_bind.
    destruct (get_object_or_404_cases pk u w) as [(n & Hget & Hn) | (e & Hget)];
      rewrite Hget; [| by apply evolves_refl].
    simpl.
    by apply (evolves_filter (λ row, notification_id row ≠ notification_id n)).
  - unfold AdminNotificationDeleteView.delete.
    destruct (negb (is_admin a)); [by apply evolves_refl |].
    unfold mbind, M_bind, AdminNotificationDeleteView.get_any_or_404, objects_get.
    destruct (filter _ (notifications w)) as [| n [| m rest]];
      try (by apply evolves_refl).
    simpl.
    by apply (evolves_filter (λ row, notification_id row ≠ notification_id n)).
  - unfold NotificationTestView.post, Notification_objects_create.
    unfold mbind, M_bind. simpl. by eapply evolves_append.
  - unfold create_follow_notification.
    destruct created; [| by apply evolves_refl].
    destruct (negb _); [| by apply evolves_refl].
    unfold mbind, M_bind.
    match goal with
    | |- context [create_notification ?f ?t ?r ?s ?k ?ti ?m ?co ?d ?w] =>
        pose proof (create_notification_evolves t r s k ti m co d w Hunique Hfresh)
          as Hcreated;
        destruct (create_notification f t r s k ti m co d w) as [w' [n | e]]
    end; done.
  - unfold create_like_notification.
    destruct created; [| by apply evolves_refl].
    destruct (negb _); [| by apply evolves_refl].
    unfold mbind, M_bind.
    match goal with
    | |- context [create_notification ?f ?t ?r ?s ?k ?ti ?m ?co ?d ?w] =>
        pose proof (create_notification_evolves t r s k ti m co d w Hunique Hfresh)
          as Hcreated;
        destruct (create_notification f t r s k ti m co d w) as [w' [n | e]]
    end; done.
  - unfold comment_post_save, create_mention_notifications.
    assert (Hfirst :
      evolves w (create_comment_notification isoformat now c created w).1).
    { unfold create_comment_notification.
      destruct created; [| by apply evolves_refl].
      destruct (negb _); [| by apply evolves_refl].
      unfold mbind, M_bind.
      match goal with
      | |- context [create_notification ?f ?t ?r ?s ?k ?ti ?m ?co ?d ?w] =>
          pose proof (create_notification_evolves t r s k ti m co d w Hunique Hfresh)
            as Hcreated;
          destruct (create_notification f t r s k ti m co d w) as [w' [n | e]]
      end; done. }
    unfold mbind at 1, M_bind at 1.
    destruct (create_comment_notification isoformat now c created w)
      as [w1 [[] | e]]; simpl in *; [| done].
    apply (evolves_trans w w1); [done |].
    destruct Hfirst as (Hunique1 & Hfresh1 & _).
    destruct created; [by apply for_each_evolves | by apply evolves_refl].
Qed.

(** X17. Over any course of requests that write to the notification table
    (marking read, marking all read, archiving, unarchiving, deleting as the
    recipient or as an administrator, the test notification, and the saves
    of follows, likes and comments), answered or failed, the primary keys
    stay unique and behind the sequence, and the sequence never goes back,
    so the key of a deleted notification is never given out again.  Every
    row whose key was given out before the requests is a row of before that
    has kept its recipient, sender, kind, title, message, content object,
    payload and creation time; if it was read it is still read, with the
    same [read_at]. *)
Theorem requests_keep_the_table (requests : list Request) (w : World) :
  unique_pks w → fresh_pks w →
  evolves w (serve_all isoformat isalnum requests w) ∧
  ∀ n', n' ∈ notifications (serve_all isoformat isalnum requests w) →
        (∃ n, n ∈ notifications w ∧ keeps n n') ∨
        next_pk w ≤ notification_id n'.
Proof.
  intros Hunique Hfresh.
  assert (Hevolves : evolves w (serve_all isoformat isalnum requests w)).
  { unfold serve_all. revert w Hunique Hfresh.
    induction requests as [| r requests IH]; intros w Hunique Hfresh; simpl.
    - by apply evolves_refl.
    - pose proof (serve_evolves r w Hunique Hfresh) as Hone.
      apply (evolves_trans w (serve isoformat isalnum r w)); [done |].
      destruct Hone as (Hunique1 & Hfresh1 & _). by apply IH. }
  split; [done |].
  intros n' Hn'. destruct Hevolves as (_ & _ & _ & Hrows).
  destruct (Z.lt_ge_cases (notification_id n') (next_pk w)) as [Hold | Hnew].
  - left. by apply Hrows.
  - by right.
Qed.

End RequestProperties.

Lemma requests_keep_the_table_witness :
  unique_pks
    (serve_all sample_isoformat sample_isalnum
       [MarkAsRead later alice 1; SaveLike later bobs_like true; Delete alice 1;
        SendTest later bob] inbox) ∧
  next_pk inbox ≤
    next_pk (serve_all sample_isoformat sample_isalnum
               [MarkAsRead later alice 1; SaveLike later bobs_like true;
                Delete alice 1; SendTest later bob] inbox).
Proof.
  destruct (requests_keep_the_table sample_isoformat sample_isalnum
              [MarkAsRead later alice 1; SaveLike later bobs_like true;
               Delete alice 1; SendTest later bob] inbox)
    as [(Hunique & _ & Hnext & _) _].
  - apply NoDup_singleton.
  - apply Forall_singleton. simpl. lia.
  - split; assumption.
Defined.

(** ** Following *)

Lemma users_with_id_spec (uid : Z) (active_only : bool) (table : list User)
    (u : User) :
  u ∈ users_with_id uid active_only table ↔
  u ∈ table ∧ user_id u = uid ∧ (active_only = true → is_active u = true).
Proof.
  unfold users_with_id. rewrite list_elem_of_filter, andb_true_iff.
  rewrite bool_decide_eq_true, orb_true_iff, negb_true_iff.
  destruct active_only; intuition congruence.
Qed.

Lemma users_with_id_unique (active_only : bool) (table : list User) (u : User) :
  NoDup (user_id <$> table) → u ∈ table →
  (active_only = true → is_active u = true) →
  users_with_id (user_id u) active_only table = [u].
Proof.
  intros Hnodup Hin Hactive. unfold users_with_id.
  induction table as [| v table IH]; [by apply elem_of_nil in Hin |].
  rewrite fmap_cons in Hnodup. apply NoDup_cons in Hnodup as [Hfresh Hnodup].
  apply elem_of_cons in Hin as [<- | Hin].
  - rewrite filter_cons_True.
    + f_equal. apply filter_none. intros v Hv Hmatch.
      apply andb_true_iff in Hmatch as [Hid _]. apply bool_decide_eq_true in Hid.
      apply Hfresh. rewrite <- Hid. by apply list_elem_of_fmap_2.
    + apply andb_true_iff. split; [by apply bool_decide_eq_true |].
      destruct active_only; [by rewrite Hactive | done].
  - rewrite filter_cons_False; [by apply IH |].
    intros Hmatch. apply andb_true_iff in Hmatch as [Hid _].
    apply bool_decide_eq_true in Hid. apply Hfresh. rewrite Hid.
    by apply list_elem_of_fmap_2.
Qed.

Lemma objects_get_ok {A} (matching : list A) (row : A) :
  objects_get matching = Ok row → matching = [row].
Proof. destruct matching as [| x [| y rest]]; simpl; congruence. Qed.

Lemma user_eqb_sym (a b : User) : user_eqb a b = user_eqb b a.
Proof.
  unfold user_eqb. destruct (decide (user_id a = user_id b)) as [Heq | Hne].
  - by rewrite !bool_decide_eq_true_2.
  - by rewrite !bool_decide_eq_false_2.
Qed.

Lemma filter_follow_out (a b : User) (rows : list Follow) :
  existsb (is_follow a b) rows = false →
  filter (λ f, is_follow a b f = false) rows = rows.
Proof.
  intros Hnone. apply filter_all. intros f Hf.
  destruct (is_follow a b f) eqn:Hmatch; [| done].
  assert (existsb (is_follow a b) rows = true); [| congruence].
  apply existsb_exists. exists f. split; [by apply list_elem_of_In | done].
Qed.

Section FollowProperties.

Context (isoformat : datetime → string).

(** The receiver of a new follow between two users. *)
Lemma create_follow_notification_run (now : datetime) (f : Follow) (w : World) :
  user_id (follower f) ≠ user_id (following f) →
  ∃ w' n,
    create_follow_notification isoformat now f true w = (w', Ok tt) ∧
    notifications w' = notifications w ++ [n] ∧
    notification_id n = next_pk w ∧ created_at n = now ∧
    produced "follow" (follower f) (following f) n ∧
    users w' = users w ∧ next_pk w' = next_pk w + 1.
Proof.
  intros Hother. unfold create_follow_notification, user_eqb.
  rewrite (bool_decide_eq_false_2 _ Hother). simpl.
  match goal with
  | |- context [create_notification ?i ?t ?r ?x ?k ?ti ?m ?co ?d] =>
      destruct (create_notification_stores i t r x k ti m co d w)
        as (w' & r' & Hrun & Hrows & _ & Husers & Hnext & Hok & _)
  end.
  rewrite Hok in Hrun by (intros Hnone; discriminate Hnone).
  eexists w', _. unfold mbind, M_bind. rewrite Hrun.
  split; [reflexivity |]. split; [exact Hrows |].
  split; [done |]. split; [done |]. split; [by repeat split |]. done.
Qed.

(** The insert of a follow between two users and its receiver. *)
Lemma Follow_objects_create_run (now : datetime) (a b : User) (s : Site) :
  user_id a ≠ user_id b →
  ∃ s' n,
    Follow_objects_create isoformat now a b s = (s', Ok (mk_Follow a b)) ∧
    follows s' = follows s ++ [mk_Follow a b] ∧
    notifications (world s') = notifications (world s) ++ [n] ∧
    notification_id n = next_pk (world s) ∧
    next_pk (world s') = next_pk (world s) + 1 ∧
    produced "follow" a b n ∧
    users (world s') = users (world s) ∧
    (likes s', posts s', comments s') = (likes s, posts s, comments s).
Proof.
  intros Hother. unfold Follow_objects_create, in_world.
  unfold user_eqb at 1. rewrite (bool_decide_eq_false_2 _ Hother).
  change (world (set_follows (follows s ++ [mk_Follow a b]) s)) with (world s).
  destruct (create_follow_notification_run now (mk_Follow a b) (world s) Hother)
    as (w' & n & Hrun & Hrows & Hid & _ & Hproduced & Husers & Hnext).
  rewrite Hrun. eexists _, n. split; [reflexivity |]. simpl.
  split; [done |]. split; [exact Hrows |].
  split; [done |]. split; [done |]. split; [exact Hproduced |]. done.
Qed.

(** X18. A follow request either answers 201, and then the followed user
    is the active user of that id, is not the requester, one follow row was
    added and exactly one follow notification was created for the followed
    user from the requester; or it changes nothing at all and answers 404
    (no active user of that id), 400 (the requester's own id, or already
    following) or fails on an ambiguous id.  So a request with one's own id
    never creates a follow or a notification, and neither does
    [Follow.objects.create], which raises [ValueError]. *)
Theorem follow_request_outcomes (now : datetime) (me : User) (uid : Z) (s : Site) :
  ((∃ s' target n,
      FollowUserView.post isoformat now me uid s =
        (s', Ok (mk_Response 201
                   [("message",
                     JStr ("Successfully followed " +:+ username target))])) ∧
      target ∈ users (world s) ∧ user_id target = uid ∧ is_active target = true ∧
      uid ≠ user_id me ∧
      existsb (is_follow me target) (follows s) = false ∧
      follows s' = follows s ++ [mk_Follow me target] ∧
      notifications (world s') = notifications (world s) ++ [n] ∧
      produced "follow" me target n ∧
      (likes s', posts s', comments s') = (likes s, posts s, comments s)) ∨
   (∃ r,
      FollowUserView.post isoformat now me uid s = (s, r) ∧
      r ∈ [Ok (mk_Response 404 [("error", JStr "User not found")]);
           Ok (mk_Response 400 [("error", JStr "Cannot follow yourself")]);
           Ok (mk_Response 400 [("error", JStr "Already following this user")]);
           Raise MultipleObjectsReturned])) ∧
  (∀ a b, user_id a = user_id b →
          Follow_objects_create isoformat now a b s = (s, Raise ValueError)).
Proof.
  split.
  - unfold FollowUserView.post.
    destruct (objects_get (users_with_id uid true (users (world s))))
      as [target | e] eqn:Hget.
    + apply objects_get_ok in Hget.
      assert (Htarget : target ∈ users_with_id uid true (users (world s)))
        by (rewrite Hget; apply list_elem_of_here).
      apply users_with_id_spec in Htarget as (Hin & Hid & Hactive).
      destruct (user_eqb target me) eqn:Hself.
      { right. eexists. split; [reflexivity |]. rewrite !elem_of_cons. tauto. }
      destruct (existsb (is_follow me target) (follows s)) eqn:Hfollows.
      { right. eexists. split; [reflexivity |]. rewrite !elem_of_cons. tauto. }
      left. apply bool_decide_eq_false in Hself.
      destruct (Follow_objects_create_run now me target s)
        as (s' & n & Hrun & Hrows & Hnew & _ & _ & Hproduced & _ & Hrest);
        [congruence |].
      exists s', target, n. rewrite Hrun.
      split; [done |]. split; [done |]. split; [done |].
      split; [by apply Hactive |]. split; [congruence |]. done.
    + right. unfold objects_get in Hget.
      destruct (users_with_id uid true (users (world s))) as [| u [| v rest]];
        [| done |]; injection Hget as <-;
        (eexists; split; [reflexivity |]); rewrite !elem_of_cons; tauto.
  - intros a b Hsame. unfold Follow_objects_create, user_eqb.
    by rewrite (bool_decide_eq_true_2 _ Hsame).
Qed.

(** X19. Following is notified every time it is done anew.  For an active
    user other than the requester who is not followed yet, with user ids
    unique: the follow answers 201 and notifies the user once; asking again
    answers 400 and changes nothing; the unfollow answers 200, removes the
    follow row and leaves the notification stored; and a new follow then
    answers 201 again and creates a second follow notification beside the
    first. *)
Theorem follow_unfollow_follow (t1 t2 t3 : datetime) (me target : User) (s : Site) :
  NoDup (user_id <$> users (world s)) →
  target ∈ users (world s) → is_active target = true →
  user_id target ≠ user_id me →
  existsb (is_follow me target) (follows s) = false →
  ∃ s1 s2 s3 n1 n2,
    FollowUserView.post isoformat t1 me (user_id target) s =
      (s1, Ok (mk_Response 201
                 [("message", JStr ("Successfully followed " +:+ username target))])) ∧
    notifications (world s1) = notifications (world s) ++ [n1] ∧
    FollowUserView.post isoformat t2 me (user_id target) s1 =
      (s1, Ok (mk_Response 400 [("error", JStr "Already following this user")])) ∧
    UnfollowUserView.delete me (user_id target) s1 =
      (s2, Ok (mk_Response 200
                 [("message",
                   JStr ("Successfully unfollowed " +:+ username target))])) ∧
    follows s2 = follows s ∧ world s2 = world s1 ∧
    FollowUserView.post isoformat t3 me (user_id target) s2 =
      (s3, Ok (mk_Response 201
                 [("message", JStr ("Successfully followed " +:+ username target))])) ∧
    follows s3 = follows s ++ [mk_Follow me target] ∧
    notifications (world s3) = notifications (world s) ++ [n1; n2] ∧
    produced "follow" me target n1 ∧ produced "follow" me target n2 ∧
    notification_id n1 ≠ notification_id n2.
Proof.
  intros Hnodup Hin Hactive Hother Hnew.
  assert (Hneq : user_eqb target me = false) by (by apply bool_decide_eq_false_2).
  assert (Hmatch : is_follow me target (mk_Follow me target) = true).
  { unfold is_follow, user_eqb. simpl. by rewrite !bool_decide_eq_true_2. }
  destruct (Follow_objects_create_run t1 me target s)
    as (s1 & n1 & Hrun1 & Hrows1 & Hnew1 & Hid1 & Hnext1 & Hproduced1 & Husers1
        & Hrest1);
    [congruence |].
  assert (Hget1 : users_with_id (user_id target) true (users (world s1)) = [target]).
  { rewrite Husers1. by apply users_with_id_unique. }
  assert (Hany1 : users_with_id (user_id target) false (users (world s1)) = [target]).
  { rewrite Husers1. by apply users_with_id_unique. }
  assert (Hfollowing : existsb (is_follow me target) (follows s1) = true).
  { rewrite Hrows1, existsb_app. simpl. by rewrite Hmatch, orb_true_r. }
  set (s2 := set_follows
               (filter (λ f, is_follow me target f = false) (follows s1)) s1).
  assert (Hfollows2 : follows s2 = follows s).
  { unfold s2. simpl. rewrite Hrows1, filter_app, filter_follow_out by done.
    rewrite filter_cons_False, filter_nil, app_nil_r; [done |].
    by rewrite Hmatch. }
  destruct (Follow_objects_create_run t3 me target s2)
    as (s3 & n2 & Hrun3 & Hrows3 & Hnew3 & Hid3 & _ & Hproduced3 & _ & _);
    [congruence |].
  exists s1, s2, s3, n1, n2.
  split.
  { unfold FollowUserView.post.
    rewrite (users_with_id_unique true (users (world s)) target) by done.
    simpl. by rewrite Hneq, Hnew, Hrun1. }
  split; [exact Hnew1 |].
  split.
  { unfold FollowUserView.post. rewrite Hget1. simpl. by rewrite Hneq, Hfollowing. }
  split.
  { unfold UnfollowUserView.delete. rewrite Hany1. simpl. by rewrite Hfollowing. }
  split; [exact Hfollows2 |]. split; [done |].
  split.
  { unfold FollowUserView.post.
    change (world s2) with (world s1). rewrite Hget1. unfold objects_get.
    by rewrite Hneq, Hfollows2, Hnew, Hrun3. }
  split; [by rewrite Hrows3, Hfollows2 |].
  split.
  { rewrite Hnew3. change (world s2) with (world s1).
    by rewrite Hnew1, <- app_assoc. }
  split; [done |]. split; [done |].
  rewrite Hid1, Hid3. change (world s2) with (world s1). lia.
Qed.

End FollowProperties.

Lemma follow_unfollow_follow_witness :
  ∃ s3 n1 n2,
    (FollowUserView.post sample_isoformat noon bob 1
       (UnfollowUserView.delete bob 1
          (FollowUserView.post sample_isoformat noon bob 1 quiet_site).1).1).1 = s3 ∧
    notifications (world s3) = [n1; n2] ∧
    recipient n1 = alice ∧ recipient n2 = alice.
Proof.
  destruct (follow_unfollow_follow sample_isoformat noon noon noon bob alice
              quiet_site)
    as (s1 & s2 & s3 & n1 & n2 & Hrun1 & _ & _ & Hrun2 & _ & _ & Hrun3 & _ & Hrows
        & Hp1 & Hp2 & _).
  - apply (bool_decide_unpack (NoDup [1; 2; 3])). vm_compute. exact I.
  - apply list_elem_of_here.
  - reflexivity.
  - simpl. lia.
  - reflexivity.
  - exists s3, n1, n2.
    change (user_id alice) with 1 in Hrun1, Hrun2, Hrun3.
    rewrite Hrun1. simpl. rewrite Hrun2. simpl. rewrite Hrun3. simpl.
    destruct Hp1 as (_ & Hto1 & _). destruct Hp2 as (_ & Hto2 & _).
    repeat split; assumption.
Defined.

Lemma follow_request_outcomes_witness :
  Follow_objects_create sample_isoformat noon bob bob quiet_site
    = (quiet_site, Raise ValueError).
Proof.
  destruct (follow_request_outcomes sample_isoformat noon bob 2 quiet_site)
    as [_ Hself].
  apply Hself. reflexivity.
Defined.

(** ** Liking *)

Lemma recount_keeps (p : Post) (s : Site) (r : PostRow) :
  row_post (recount p s r) = row_post r ∧
  post_is_active (recount p s r) = post_is_active r.
Proof. unfold recount. by destruct (bool_decide _). Qed.

Lemma posts_found (f : PostRow → PostRow) (table : list PostRow) (row : PostRow) :
  (∀ r, row_post (f r) = row_post r ∧ post_is_active (f r) = post_is_active r) →
  NoDup ((λ r, post_id (row_post r)) <$> table) → row ∈ table →
  post_is_active row = true →
  filter (λ r, bool_decide (post_id (row_post r) = post_id (row_post row)) &&
               post_is_active r = true) (f <$> table) = [f row].
Proof.
  intros Hf Hnodup Hin Hactive.
  induction table as [| r table IH]; [by apply elem_of_nil in Hin |].
  rewrite fmap_cons in Hnodup. apply NoDup_cons in Hnodup as [Hfresh Hnodup].
  rewrite fmap_cons. apply elem_of_cons in Hin as [<- | Hin].
  - rewrite filter_cons_True.
    + f_equal. apply filter_none. intros r' Hr' Hmatch.
      apply list_elem_of_fmap in Hr' as (r & -> & Hr).
      apply andb_true_iff in Hmatch as [Hid _]. apply bool_decide_eq_true in Hid.
      destruct (Hf r) as [Hpost _]. rewrite Hpost in Hid.
      apply Hfresh. rewrite <- Hid.
      by apply (list_elem_of_fmap_2 (λ r, post_id (row_post r))).
    + destruct (Hf row) as [-> ->]. rewrite Hactive.
      by rewrite bool_decide_eq_true_2.
  - rewrite filter_cons_False; [by apply IH |].
    destruct (Hf r) as [-> _]. intros Hmatch.
    apply andb_true_iff in Hmatch as [Hid _]. apply bool_decide_eq_true in Hid.
    apply Hfresh. rewrite Hid.
    by apply (list_elem_of_fmap_2 (λ r, post_id (row_post r))).
Qed.

Lemma get_post_or_404_cases (pid : Z) (s : Site) :
  (∃ row, get_post_or_404 pid s = Ok row ∧ row ∈ posts s ∧
          post_id (row_post row) = pid ∧ post_is_active row = true) ∨
  get_post_or_404 pid s = Raise Http404 ∨
  get_post_or_404 pid s = Raise MultipleObjectsReturned.
Proof.
  unfold get_post_or_404, objects_get.
  destruct (filter _ (posts s)) as [| row [| other rest]] eqn:Hfound;
    [by right; left | | by right; right].
  left. exists row. split; [done |].
  assert (Hrow : row ∈ filter
            (λ r, bool_decide (post_id (row_post r) = pid) && post_is_active r = true)
            (posts s)) by (rewrite Hfound; apply list_elem_of_here).
  apply list_elem_of_filter in Hrow as [Hmatch Hrow].
  apply andb_true_iff in Hmatch as [Hid Hactive].
  by apply bool_decide_eq_true in Hid.
Qed.

Lemma filter_like_out (u : User) (p : Post) (rows : list Like) :
  existsb (is_like u p) rows = false →
  filter (λ l, is_like u p l = false) rows = rows.
Proof.
  intros Hnone. apply filter_all. intros l Hl.
  destruct (is_like u p l) eqn:Hmatch; [| done].
  assert (existsb (is_like u p) rows = true); [| congruence].
  apply existsb_exists. exists l. split; [by apply list_elem_of_In | done].
Qed.

Section LikeProperties.

Context (isoformat : datetime → string).

(** The receiver of a new like never fails; it notifies the post's author
    unless the author is the one who likes. *)
Lemma create_like_notification_run (now : datetime) (l : Like) (w : World) :
  ∃ w',
    create_like_notification isoformat now l true w = (w', Ok tt) ∧
    (user_id (like_user l) = user_id (post_author (like_post l)) → w' = w) ∧
    (user_id (like_user l) ≠ user_id (post_author (like_post l)) →
       ∃ n, notifications w' = notifications w ++ [n] ∧
            notification_id n = next_pk w ∧
            produced "like" (like_user l) (post_author (like_post l)) n ∧
            content_object n = post_ref (like_post l)).
Proof.
  unfold create_like_notification, user_eqb.
  destruct (decide (user_id (like_user l) = user_id (post_author (like_post l))))
    as [Hself | Hother].
  - rewrite (bool_decide_eq_true_2 _ Hself). simpl. by exists w.
  - rewrite (bool_decide_eq_false_2 _ Hother). simpl.
    match goal with
    | |- context [create_notification ?i ?t ?r ?x ?k ?ti ?m ?co ?d] =>
        destruct (create_notification_stores i t r x k ti m co d w)
          as (w' & r' & Hrun & Hrows & _ & _ & _ & Hok & _)
    end.
    rewrite Hok in Hrun by (intros Hnone; discriminate Hnone).
    exists w'. unfold mbind, M_bind. rewrite Hrun.
    split; [reflexivity |]. split; [done |]. intros _.
    eexists. split; [exact Hrows |]. split; [done |]. split; [by repeat split |].
    done.
Qed.

Lemma Like_objects_create_run (now : datetime) (u : User) (p : Post) (s : Site) :
  ∃ s',
    Like_objects_create isoformat now u p s = (s', Ok (mk_Like u p)) ∧
    likes s' = likes s ++ [mk_Like u p] ∧
    posts s' = recount p s' <$> posts s ∧
    (follows s', comments s') = (follows s, comments s) ∧
    (user_id u = user_id (post_author p) → world s' = world s) ∧
    (user_id u ≠ user_id (post_author p) →
       ∃ n, notifications (world s') = notifications (world s) ++ [n] ∧
            notification_id n = next_pk (world s) ∧
            produced "like" u (post_author p) n ∧
            content_object n = post_ref p).
Proof.
  unfold Like_objects_create, in_world.
  change (world (set_likes (likes s ++ [mk_Like u p]) s)) with (world s).
  destruct (create_like_notification_run now (mk_Like u p) (world s))
    as (w' & Hrun & Hself & Hother).
  rewrite Hrun. eexists. split; [reflexivity |]. simpl.
  split; [done |]. split; [done |]. split; [done |]. done.
Qed.

(** X20. A like request either answers 201, and then the post is the
    active post of that id, the requester had not liked it, one like row was
    added, the post's stored like count is the number of its like rows, no
    other post's row changed, and the post's author got exactly one like
    notification, or none when the author is the requester; or it changes
    nothing at all and answers 400 (already liked) or fails as not-found or
    on an ambiguous id. *)
Theorem like_request_outcomes (now : datetime) (me : User) (pid : Z) (s : Site) :
  (∃ s' row,
     PostLikeView.post isoformat now me pid s =
       (s', Ok (mk_Response 201 [("message", JStr "Post liked successfully")])) ∧
     row ∈ posts s ∧ post_id (row_post row) = pid ∧ post_is_active row = true ∧
     existsb (is_like me (row_post row)) (likes s) = false ∧
     likes s' = likes s ++ [mk_Like me (row_post row)] ∧
     (follows s', comments s') = (follows s, comments s) ∧
     length (posts s') = length (posts s) ∧
     (∀ r, r ∈ posts s' → post_id (row_post r) = pid →
           like_count r =
             Z.of_nat (length (filter (λ l, post_id (like_post l) = pid) (likes s')))) ∧
     (∀ r, r ∈ posts s → post_id (row_post r) ≠ pid → r ∈ posts s') ∧
     (user_id me = user_id (post_author (row_post row)) → world s' = world s) ∧
     (user_id me ≠ user_id (post_author (row_post row)) →
        ∃ n, notifications (world s') = notifications (world s) ++ [n] ∧
             produced "like" me (post_author (row_post row)) n ∧
             content_object n = Some (mk_ContentRef "post" pid))) ∨
  (∃ r,
     PostLikeView.post isoformat now me pid s = (s, r) ∧
     r ∈ [Ok (mk_Response 400 [("error", JStr "Post already liked")]);
          Raise Http404; Raise MultipleObjectsReturned]).
Proof.
  unfold PostLikeView.post.
  destruct (get_post_or_404_cases pid s)
    as [(row & -> & Hrow & Hid & Hactive) | [-> | ->]].
  - destruct (existsb (is_like me (row_post row)) (likes s)) eqn:Hliked.
    { right. eexists. split; [reflexivity |]. rewrite !elem_of_cons. tauto. }
    left.
    destruct (Like_objects_create_run now me (row_post row) s)
      as (s' & Hrun & Hlikes & Hposts & Hrest & Hself & Hother).
    exists s', row. rewrite Hrun.
    split; [done |]. split; [done |]. split; [done |]. split; [done |].
    split; [done |]. split; [done |]. split; [done |].
    split; [by rewrite Hposts, length_fmap |].
    split.
    { intros r Hr Hrid. rewrite Hposts in Hr.
      apply list_elem_of_fmap in Hr as (r0 & -> & _). unfold recount in Hrid |- *.
      destruct (bool_decide_reflect (post_id (row_post r0) = post_id (row_post row)))
        as [_ | Hne]; [| simpl in Hrid; congruence].
      simpl. do 2 f_equal. apply list_filter_iff. intros l.
      unfold likes_of. rewrite bool_decide_eq_true. by rewrite Hid. }
    split.
    { intros r Hr Hrid. rewrite Hposts. apply list_elem_of_fmap. exists r.
      split; [| done]. unfold recount.
      rewrite bool_decide_eq_false_2; [done | congruence]. }
    split; [done |].
    intros Hne. destruct (Hother Hne) as (n & Hrows & _ & Hproduced & Hobj).
    exists n. split; [done |]. split; [done |].
    rewrite Hobj. unfold post_ref. by rewrite Hid.
  - right. eexists. split; [reflexivity |]. rewrite !elem_of_cons. tauto.
  - right. eexists. split; [reflexivity |]. rewrite !elem_of_cons. tauto.
Qed.

(** X21. Unliking does not recount.  For an active post (post ids unique)
    that the requester has not liked: the like answers 201; the unlike then
    answers 200 and removes the like row, so the likes are those of before,
    but it leaves the post's row as the like wrote it: the stored like count
    is one more than the number of the post's like rows, and the like status
    reports that count together with [is_liked] false.  A second unlike
    answers 400. *)
Theorem unlike_keeps_the_like_count (now : datetime) (me : User) (row : PostRow)
    (s : Site) :
  NoDup ((λ r, post_id (row_post r)) <$> posts s) →
  row ∈ posts s → post_is_active row = true →
  existsb (is_like me (row_post row)) (likes s) = false →
  let pid := post_id (row_post row) in
  let liking := length (filter (λ l, likes_of (row_post row) l = true) (likes s)) in
  ∃ s1 s2 row2,
    PostLikeView.post isoformat now me pid s =
      (s1, Ok (mk_Response 201 [("message", JStr "Post liked successfully")])) ∧
    PostUnlikeView.delete me pid s1 =
      (s2, Ok (mk_Response 200 [("message", JStr "Post unliked successfully")])) ∧
    likes s2 = likes s ∧ posts s2 = posts s1 ∧ world s2 = world s1 ∧
    row2 ∈ posts s2 ∧ row_post row2 = row_post row ∧
    like_count row2 = Z.of_nat liking + 1 ∧
    PostLikeStatusView.get me pid s2 =
      (s2, Ok (mk_Response 200
                 [("post_id", JInt pid); ("is_liked", JBool false);
                  ("like_count", JInt (Z.of_nat liking + 1))])) ∧
    PostUnlikeView.delete me pid s2 =
      (s2, Ok (mk_Response 400 [("error", JStr "Post not liked")])).
Proof.
  intros Hnodup Hrow Hactive Hnew pid liking. subst pid.
  assert (Hmatch : is_like me (row_post row) (mk_Like me (row_post row)) = true).
  { unfold is_like, user_eqb. simpl. by rewrite !bool_decide_eq_true_2. }
  destruct (Like_objects_create_run now me (row_post row) s)
    as (s1 & Hrun & Hlikes & Hposts & Hrest & _ & _).
  set (row2 := recount (row_post row) s1 row).
  assert (Hget : get_post_or_404 (post_id (row_post row)) s = Ok row).
  { unfold get_post_or_404.
    rewrite <- (list_fmap_id (posts s)).
    by rewrite (posts_found id (posts s) row). }
  assert (Hget1 : ∀ s', posts s' = posts s1 →
            get_post_or_404 (post_id (row_post row)) s' = Ok row2).
  { intros s' Hsame. unfold get_post_or_404. rewrite Hsame, Hposts.
    rewrite (posts_found (recount (row_post row) s1) (posts s) row); try done.
    intros r. apply recount_keeps. }
  assert (Hpost2 : row_post row2 = row_post row) by apply recount_keeps.
  assert (Hliked1 : existsb (is_like me (row_post row)) (likes s1) = true).
  { rewrite Hlikes, existsb_app. simpl. by rewrite Hmatch, orb_true_r. }
  set (s2 := set_likes
               (filter (λ l, is_like me (row_post row) l = false) (likes s1)) s1).
  assert (Hlikes2 : likes s2 = likes s).
  { unfold s2. simpl. rewrite Hlikes, filter_app, filter_like_out by done.
    rewrite filter_cons_False, filter_nil, app_nil_r; [done |].
    by rewrite Hmatch. }
  assert (Hcount : like_count row2 = Z.of_nat liking + 1).
  { unfold row2, recount. rewrite bool_decide_eq_true_2 by done. simpl.
    rewrite Hlikes, filter_app, filter_cons_True.
    - rewrite filter_nil, length_app. simpl. unfold liking. lia.
    - unfold likes_of. simpl. by rewrite bool_decide_eq_true_2. }
  exists s1, s2, row2.
  split.
  { unfold PostLikeView.post. by rewrite Hget, Hnew, Hrun. }
  split.
  { unfold PostUnlikeView.delete. rewrite (Hget1 s1 eq_refl).
    by rewrite Hpost2, Hliked1. }
  split; [exact Hlikes2 |]. split; [done |]. split; [done |].
  split.
  { change (posts s2) with (posts s1). rewrite Hposts.
    by apply list_elem_of_fmap_2. }
  split; [done |]. split; [exact Hcount |].
  split.
  { unfold PostLikeStatusView.get. rewrite (Hget1 s2 eq_refl).
    by rewrite Hpost2, Hlikes2, Hnew, Hcount. }
  unfold PostUnlikeView.delete. rewrite (Hget1 s2 eq_refl).
  by rewrite Hpost2, Hlikes2, Hnew.
Qed.

End LikeProperties.

Lemma like_request_outcomes_witness :
  PostLikeView.post sample_isoformat noon bob 99 quiet_site
    = (quiet_site, Raise Http404).
Proof.
  destruct (like_request_outcomes sample_isoformat noon bob 99 quiet_site)
    as [(s' & row & _ & Hrow & Hid & _) | (r & Hrun & Hr)].
  - apply list_elem_of_singleton in Hrow. subst row. discriminate Hid.
  - rewrite Hrun. f_equal.
    assert (Hfact : (PostLikeView.post sample_isoformat noon bob 99 quiet_site).2
                    = Raise Http404) by reflexivity.
    rewrite Hrun in Hfact. exact Hfact.
Defined.

Lemma unlike_keeps_the_like_count_witness :
  ∃ s2,
    (PostUnlikeView.delete bob 11
       (PostLikeView.post sample_isoformat noon bob 11 quiet_site).1).1 = s2 ∧
    likes s2 = [] ∧
    PostLikeStatusView.get bob 11 s2 =
      (s2, Ok (mk_Response 200
                 [("post_id", JInt 11); ("is_liked", JBool false);
                  ("like_count", JInt 1)])).
Proof.
  destruct (unlike_keeps_the_like_count sample_isoformat noon bob
              (mk_PostRow alices_post true 0 0) quiet_site)
    as (s1 & s2 & row2 & Hlike & Hunlike & Hlikes & _ & _ & _ & _ & _ & Hstatus & _).
  - apply NoDup_singleton.
  - apply list_elem_of_here.
  - reflexivity.
  - reflexivity.
  - exists s2. simpl in Hlike, Hunlike, Hstatus.
    rewrite Hlike. simpl. rewrite Hunlike. simpl.
    split; [reflexivity |]. split; [exact Hlikes | exact Hstatus].
Defined.

(** ** Commenting *)

Section CommentProperties.

Context (isoformat : datetime → string) (isalnum : string → bool).

(** With unique usernames the receivers of a new comment never fail. *)
Lemma comment_post_save_ok (now : datetime) (c : Comment) (w : World) :
  unique_usernames w →
  ∃ w' created,
    comment_post_save isoformat isalnum now c true w = (w', Ok tt) ∧
    notifications w' = notifications w ++ created ∧
    Forall (λ n, sender n = Some (comment_author c) ∧
                 user_id (recipient n) ≠ user_id (comment_author c)) created.
Proof.
  intros Hunique. unfold comment_post_save, create_mention_notifications.
  assert (Hfirst : ∃ w1 first,
    create_comment_notification isoformat now c true w = (w1, Ok tt) ∧
    notifications w1 = notifications w ++ first ∧ users w1 = users w ∧
    Forall (λ n, sender n = Some (comment_author c) ∧
                 user_id (recipient n) ≠ user_id (comment_author c)) first).
  { unfold create_comment_notification, user_eqb.
    destruct (decide (user_id (comment_author c)
                      = user_id (post_author (comment_post c)))) as [Hself | Hother].
    - rewrite (bool_decide_eq_true_2 _ Hself). simpl.
      exists w, []. by rewrite app_nil_r.
    - rewrite (bool_decide_eq_false_2 _ Hother). simpl.
      match goal with
      | |- context [create_notification ?i ?t ?r (Some ?x) ?k ?ti ?m ?co ?d] =>
          destruct (create_notification_with_sender i t r x k ti m co d w)
            as (w1 & Hrun & Hrows & Husers)
      end.
      eexists w1, [_]. unfold mbind, M_bind. rewrite Hrun.
      split; [reflexivity |]. split; [exact Hrows |]. split; [done |].
      apply Forall_singleton. simpl. split; [done | congruence]. }
  destruct Hfirst as (w1 & first & Hrun1 & Hrows1 & Husers1 & Hfrom1).
  unfold mbind at 1, M_bind at 1. rewrite Hrun1.
  destruct (mentions_loop isoformat now c (findall_mentions isalnum (comment_content c)) w1)
    as (w' & r & mentioned & Hloop & Hrows' & _ & Hkind & Hok & _ & Hcase).
  destruct Hcase as [-> _]; [unfold unique_usernames; by rewrite Husers1 |].
  exists w', (first ++ mentioned). split; [exact Hloop |].
  split; [by rewrite Hrows', Hrows1, app_assoc |].
  apply Forall_app. split; [done |].
  rewrite Forall_forall in Hkind, Hok |- *. intros n Hn.
  destruct (Hkind n Hn) as (_ & Hfrom & _). split; [done |].
  specialize (Hok n Hn). unfold notifiable, user_eqb in Hok.
  apply andb_true_iff in Hok as [Ha _].
  by apply negb_true_iff, bool_decide_eq_false in Ha.
Qed.

(** X22. Creating a comment (usernames unique) stores it as an active row
    with the next primary key, runs both receivers without error, every
    notification they create being from the comment's author to another
    user, and then recounts the post: the post's stored comment count is
    the number of its active comments, the new one included, and its stored
    like count is the number of its like rows, whatever was stored before;
    no other post's row changes. *)
Theorem new_comment_recounts (now : datetime) (a : User) (p : Post) (c : string)
    (s : Site) :
  unique_usernames (world s) →
  ∃ s' created,
    Comment_objects_create isoformat isalnum now a p c s =
      (s', Ok (mk_Comment (next_comment_pk s) a p c)) ∧
    comments s' =
      comments s ++ [mk_CommentRow (mk_Comment (next_comment_pk s) a p c) true] ∧
    next_comment_pk s' = next_comment_pk s + 1 ∧
    notifications (world s') = notifications (world s) ++ created ∧
    Forall (λ n, sender n = Some a ∧ user_id (recipient n) ≠ user_id a) created ∧
    (follows s', likes s') = (follows s, likes s) ∧
    length (posts s') = length (posts s) ∧
    (∀ r, r ∈ posts s' → post_id (row_post r) = post_id p →
          comment_count r =
            Z.of_nat (length (filter (λ x, active_comments_of p x = true)
                                (comments s'))) ∧
          like_count r =
            Z.of_nat (length (filter (λ l, likes_of p l = true) (likes s')))) ∧
    (∀ r, r ∈ posts s → post_id (row_post r) ≠ post_id p → r ∈ posts s').
Proof.
  intros Hunique. unfold Comment_objects_create, in_world.
  change (world (add_comment _ s)) with (world s).
  destruct (comment_post_save_ok now (mk_Comment (next_comment_pk s) a p c)
              (world s) Hunique)
    as (w' & created & Hrun & Hrows & Hfrom).
  rewrite Hrun. eexists _, created. split; [reflexivity |]. simpl.
  split; [done |]. split; [done |]. split; [exact Hrows |].
  split; [exact Hfrom |]. split; [done |].
  split; [by rewrite length_fmap |].
  split.
  - intros r Hr Hid. apply list_elem_of_fmap in Hr as (r0 & -> & _).
    unfold recount in Hid |- *.
    destruct (bool_decide_reflect (post_id (row_post r0) = post_id p))
      as [_ | Hne]; [done | simpl in Hid; congruence].
  - intros r Hr Hid. apply list_elem_of_fmap. exists r. split; [| done].
    unfold recount. by rewrite bool_decide_eq_false_2.
Qed.

End CommentProperties.

Lemma new_comment_recounts_witness :
  ∃ s',
    (Comment_objects_create sample_isoformat sample_isalnum noon bob alices_post "nice @carol"
       quiet_site).1 = s' ∧
    length (comments s') = 1%nat ∧ next_comment_pk s' = 2.
Proof.
  destruct (new_comment_recounts sample_isoformat sample_isalnum noon bob alices_post "nice @carol"
              quiet_site)
    as (s' & created & Hrun & Hcomments & Hnext & _).
  - apply sample_usernames_unique.
  - exists s'. rewrite Hrun. split; [reflexivity |].
    rewrite Hcomments, Hnext. split; reflexivity.
Defined.
